(** * Stage attributes manager of habitat-sim

    A shallow embedding of [src/esp/assets/managers/StageAttributesManager.cpp]
    together with the parts of the attributes-manager base class, the
    attributes record and the string, path and JSON helpers it calls.

    Attributes objects live behind shared pointers: they are kept in a heap
    indexed by addresses, the template library owns private copies, and every
    member function is a computation in a state monad over that world. *)

From Stdlib Require Import ZArith QArith String Ascii List.
From stdpp Require Import gmap strings list fin_maps pretty.

#[local] Close Scope Q_scope.
#[local] Open Scope string_scope.

(** ** Strings: [std::string] and [Corrade::Utility::String] *)

Module Str.

(** [s.find(sub)]; [None] stands for [std::string::npos]. *)
Definition find (s sub : string) : option nat := String.index 0%nat sub s.

(** [s.find(sub) != std::string::npos] *)
Definition contains (s sub : string) : bool :=
  match find s sub with Some _ => true | None => false end.

(** [s.find_last_of(c)] for a one-character set. *)
Fixpoint find_last_of (s : string) (c : ascii) : option nat :=
  match s with
  | EmptyString => None
  | String a s' =>
      match find_last_of s' c with
      | Some n => Some (S n)
      | None => if Ascii.eqb a c then Some 0%nat else None
      end
  end.

(** [s.substr(0, n)]; a count of [npos] keeps the whole string. *)
Definition substr0 (s : string) (n : option nat) : string :=
  match n with
  | Some n => String.substring 0%nat n s
  | None => s
  end.

(** [std::tolower] in the C locale. *)
Definition tolower (c : ascii) : ascii :=
  let n := nat_of_ascii c in
  if ((65 <=? n) && (n <=? 90))%nat then ascii_of_nat (n + 32)%nat else c.

(** [Corrade::Utility::String::lowercase] *)
Fixpoint lowercase (s : string) : string :=
  match s with
  | EmptyString => EmptyString
  | String c s' => String (tolower c) (lowercase s')
  end.

(** [Corrade::Utility::String::endsWith] *)
Definition endsWith (s suffix : string) : bool :=
  let n := String.length s in
  let m := String.length suffix in
  (m <=? n)%nat && String.eqb (String.substring (n - m)%nat m s) suffix.

End Str.

(** ** Paths: [Corrade::Utility::Directory] and [esp::io] *)

Module Directory.

(** [Corrade::Utility::Directory::join]: an empty path or an absolute file
    name gives the file name; otherwise the two are joined by one slash. *)
Definition join (path filename : string) : string :=
  match path, filename with
  | EmptyString, _ => filename
  | _, String "/" _ => filename
  | _, _ =>
      if Str.endsWith path "/" then path ++ filename
      else path ++ "/" ++ filename
  end.

End Directory.

Module io.

(** Modelled from the spec: [esp::io::removeExtension] is declared in
    [esp/io/io.h], which is not part of the sources at hand.  The spec has
    it drop the extension of a path: everything from the last dot on. *)
Definition removeExtension (file : string) : string :=
  Str.substr0 file (Str.find_last_of file ".").

(** Modelled from the spec: [esp::io::changeExtension] is declared in
    [esp/io/io.h], which is not part of the sources at hand.  The spec has
    it "derive a sibling path by substituting the extension". *)
Definition changeExtension (file ext : string) : string :=
  removeExtension file ++ ext.

End io.

(** ** JSON documents (the part of rapidjson the manager reads) *)

Definition double : Type := Q.
Definition Vector3 : Type := double * double * double.

#[local] Set Warnings "-register-all".
Inductive Json : Type :=
| JNull
| JBool (b : bool)
| JNumber (x : double)
| JString (s : string)
| JArray (elems : list Json)
| JObject (members : list (string * Json)).
#[local] Set Warnings "register-all".

Module json.

(** [doc.FindMember(tag)]: the first member of that name. *)
Fixpoint findMember (tag : string) (members : list (string * Json))
  : option Json :=
  match members with
  | [] => None
  | (k, v) :: rest => if String.eqb k tag then Some v else findMember tag rest
  end.

(** [doc\[tag\]] guarded by [doc.HasMember(tag)]. *)
Definition member (doc : Json) (tag : string) : option Json :=
  match doc with
  | JObject members => findMember tag members
  | _ => None
  end.

Definition HasMember (doc : Json) (tag : string) : bool :=
  match member doc tag with Some _ => true | None => false end.

Definition IsString (v : Json) : bool :=
  match v with JString _ => true | _ => false end.

Definition GetString (v : Json) : string :=
  match v with JString s => s | _ => "" end.

(** The string of a string entry: [IsString] and [GetString] in one. *)
Definition asString (v : Json) : option string :=
  match v with JString s => Some s | _ => None end.

Definition asVector3 (v : Json) : option Vector3 :=
  match v with
  | JArray [JNumber x; JNumber y; JNumber z] => Some (x, y, z)
  | _ => None
  end.

(** Modelled from the spec: [io::jsonIntoVal<std::string>] is declared in
    [esp/io/json.h], which is not part of the sources at hand.  The spec:
    "write into a typed destination only if the field is present and
    type-matches; returns whether an override occurred".  [Some s] is the
    value written when the result is true. *)
Definition jsonIntoVal_string (doc : Json) (tag : string) : option string :=
  match member doc tag with
  | Some (JString s) => Some s
  | _ => None
  end.

(** Modelled from the spec: the same reader at type [Magnum::Vector3]. *)
Definition jsonIntoVal_Vector3 (doc : Json) (tag : string) : option Vector3 :=
  match member doc tag with
  | Some v => asVector3 v
  | None => None
  end.

End json.

(** ** Attribute records *)

(** The enumerators of [esp::assets::AssetType] that the manager names; the
    record keeps the enumerator itself where the code keeps it cast to [int]. *)
Inductive AssetType : Type :=
| UNKNOWN
| SUNCG_SCENE
| MP3D_MESH
| INSTANCE_MESH
| FRL_PTEX_MESH
| PRIMITIVE.

#[global] Instance AssetType_eq_dec : EqDecision AssetType.
Proof. solve_decision. Defined.

(** Modelled from the spec: [PhysicsStageAttributes] is declared in
    [esp/assets/Attributes.h], which is not part of the sources at hand.  The
    spec describes "a value type holding named fields": asset handles,
    physical constants, orientation frame vectors, a primitive-vs-file
    discriminator and a type tag per asset slot, and a dirty flag.  A navmesh
    handle that was never set is absent ([None]); a physical constant that
    was never set holds its record-type default ([None]). *)
Record PhysicsStageAttributes : Type := mkPhysicsStageAttributes {
  getHandle : string;
  getFileDirectory : string;
  getRenderAssetHandle : string;
  getCollisionAssetHandle : string;
  getSemanticAssetHandle : string;
  getNavmeshAssetHandle : option string;
  getHouseFilename : string;
  getLightSetup : string;
  getRenderAssetType : AssetType;
  getCollisionAssetType : AssetType;
  getSemanticAssetType : AssetType;
  getRenderAssetIsPrimitive : bool;
  getCollisionAssetIsPrimitive : bool;
  getUseMeshCollision : bool;
  getRequiresLighting : bool;
  getFrustrumCulling : bool;
  getIsDirty : bool;
  getMargin : option double;
  getGravity : option Vector3;
  getOrigin : option Vector3;
  getFrictionCoefficient : option double;
  getRestitutionCoefficient : option double;
  getOrientUp : Vector3;
  getOrientFront : Vector3
}.

(** Modelled from the spec: the constructor behind
    [PhysicsStageAttributes::create(handle)] is declared in
    [esp/assets/Attributes.h], which is not part of the sources at hand.  A
    new record holds its handle and nothing else: handles empty, the navmesh
    handle absent, flags off, type tags unknown, physical constants at their
    record-type defaults.  The initializer sets the orientation frame before
    anything reads it. *)
Definition PhysicsStageAttributes_create (handle : string)
  : PhysicsStageAttributes :=
  {| getHandle := handle; getFileDirectory := "";
     getRenderAssetHandle := ""; getCollisionAssetHandle := "";
     getSemanticAssetHandle := ""; getNavmeshAssetHandle := None;
     getHouseFilename := ""; getLightSetup := "";
     getRenderAssetType := UNKNOWN; getCollisionAssetType := UNKNOWN;
     getSemanticAssetType := UNKNOWN;
     getRenderAssetIsPrimitive := false; getCollisionAssetIsPrimitive := false;
     getUseMeshCollision := false; getRequiresLighting := false;
     getFrustrumCulling := false; getIsDirty := false;
     getMargin := None; getGravity := None; getOrigin := None;
     getFrictionCoefficient := None; getRestitutionCoefficient := None;
     getOrientUp := (0#1, 0#1, 0#1)%Q; getOrientFront := (0#1, 0#1, 0#1)%Q |}.

(** Modelled from the spec: the setters are declared in
    [esp/assets/Attributes.h], which is not part of the sources at hand.
    Each writes its field; changing an asset handle also marks the record
    dirty (the finalizer clears the "dirty flag from when asset handles are
    changed"), and [setIsClean] clears that mark. *)
Definition setFileDirectory (v : string) : PhysicsStageAttributes → PhysicsStageAttributes :=
  λ '(mkPhysicsStageAttributes h fd rh ch sh nh hf ls rt ct st rp cp um rl fc d m g o fr re up fw),
    mkPhysicsStageAttributes h v rh ch sh nh hf ls rt ct st rp cp um rl fc d m g o fr re up fw.
Definition setRenderAssetHandle (v : string) : PhysicsStageAttributes → PhysicsStageAttributes :=
  λ '(mkPhysicsStageAttributes h fd rh ch sh nh hf ls rt ct st rp cp um rl fc d m g o fr re up fw),
    mkPhysicsStageAttributes h fd v ch sh nh hf ls rt ct st rp cp um rl fc true m g o fr re up fw.
Definition setCollisionAssetHandle (v : string) : PhysicsStageAttributes → PhysicsStageAttributes :=
  λ '(mkPhysicsStageAttributes h fd rh ch sh nh hf ls rt ct st rp cp um rl fc d m g o fr re up fw),
    mkPhysicsStageAttributes h fd rh v sh nh hf ls rt ct st rp cp um rl fc true m g o fr re up fw.
Definition setSemanticAssetHandle (v : string) : PhysicsStageAttributes → PhysicsStageAttributes :=
  λ '(mkPhysicsStageAttributes h fd rh ch sh nh hf ls rt ct st rp cp um rl fc d m g o fr re up fw),
    mkPhysicsStageAttributes h fd rh ch v nh hf ls rt ct st rp cp um rl fc d m g o fr re up fw.
Definition setNavmeshAssetHandle (v : string) : PhysicsStageAttributes → PhysicsStageAttributes :=
  λ '(mkPhysicsStageAttributes h fd rh ch sh nh hf ls rt ct st rp cp um rl fc d m g o fr re up fw),
    mkPhysicsStageAttributes h fd rh ch sh (Some v) hf ls rt ct st rp cp um rl fc d m g o fr re up fw.
Definition setHouseFilename (v : string) : PhysicsStageAttributes → PhysicsStageAttributes :=
  λ '(mkPhysicsStageAttributes h fd rh ch sh nh hf ls rt ct st rp cp um rl fc d m g o fr re up fw),
    mkPhysicsStageAttributes h fd rh ch sh nh v ls rt ct st rp cp um rl fc d m g o fr re up fw.
Definition setLightSetup (v : string) : PhysicsStageAttributes → PhysicsStageAttributes :=
  λ '(mkPhysicsStageAttributes h fd rh ch sh nh hf ls rt ct st rp cp um rl fc d m g o fr re up fw),
    mkPhysicsStageAttributes h fd rh ch sh nh hf v rt ct st rp cp um rl fc d m g o fr re up fw.
Definition setRenderAssetType (v : AssetType) : PhysicsStageAttributes → PhysicsStageAttributes :=
  λ '(mkPhysicsStageAttributes h fd rh ch sh nh hf ls rt ct st rp cp um rl fc d m g o fr re up fw),
    mkPhysicsStageAttributes h fd rh ch sh nh hf ls v ct st rp cp um rl fc d m g o fr re up fw.
Definition setCollisionAssetType (v : AssetType) : PhysicsStageAttributes → PhysicsStageAttributes :=
  λ '(mkPhysicsStageAttributes h fd rh ch sh nh hf ls rt ct st rp cp um rl fc d m g o fr re up fw),
    mkPhysicsStageAttributes h fd rh ch sh nh hf ls rt v st rp cp um rl fc d m g o fr re up fw.
Definition setSemanticAssetType (v : AssetType) : PhysicsStageAttributes → PhysicsStageAttributes :=
  λ '(mkPhysicsStageAttributes h fd rh ch sh nh hf ls rt ct st rp cp um rl fc d m g o fr re up fw),
    mkPhysicsStageAttributes h fd rh ch sh nh hf ls rt ct v rp cp um rl fc d m g o fr re up fw.
Definition setRenderAssetIsPrimitive (v : bool) : PhysicsStageAttributes → PhysicsStageAttributes :=
  λ '(mkPhysicsStageAttributes h fd rh ch sh nh hf ls rt ct st rp cp um rl fc d m g o fr re up fw),
    mkPhysicsStageAttributes h fd rh ch sh nh hf ls rt ct st v cp um rl fc d m g o fr re up fw.
Definition setCollisionAssetIsPrimitive (v : bool) : PhysicsStageAttributes → PhysicsStageAttributes :=
  λ '(mkPhysicsStageAttributes h fd rh ch sh nh hf ls rt ct st rp cp um rl fc d m g o fr re up fw),
    mkPhysicsStageAttributes h fd rh ch sh nh hf ls rt ct st rp v um rl fc d m g o fr re up fw.
Definition setUseMeshCollision (v : bool) : PhysicsStageAttributes → PhysicsStageAttributes :=
  λ '(mkPhysicsStageAttributes h fd rh ch sh nh hf ls rt ct st rp cp um rl fc d m g o fr re up fw),
    mkPhysicsStageAttributes h fd rh ch sh nh hf ls rt ct st rp cp v rl fc d m g o fr re up fw.
Definition setRequiresLighting (v : bool) : PhysicsStageAttributes → PhysicsStageAttributes :=
  λ '(mkPhysicsStageAttributes h fd rh ch sh nh hf ls rt ct st rp cp um rl fc d m g o fr re up fw),
    mkPhysicsStageAttributes h fd rh ch sh nh hf ls rt ct st rp cp um v fc d m g o fr re up fw.
Definition setFrustrumCulling (v : bool) : PhysicsStageAttributes → PhysicsStageAttributes :=
  λ '(mkPhysicsStageAttributes h fd rh ch sh nh hf ls rt ct st rp cp um rl fc d m g o fr re up fw),
    mkPhysicsStageAttributes h fd rh ch sh nh hf ls rt ct st rp cp um rl v d m g o fr re up fw.
Definition setMargin (v : double) : PhysicsStageAttributes → PhysicsStageAttributes :=
  λ '(mkPhysicsStageAttributes h fd rh ch sh nh hf ls rt ct st rp cp um rl fc d m g o fr re up fw),
    mkPhysicsStageAttributes h fd rh ch sh nh hf ls rt ct st rp cp um rl fc d (Some v) g o fr re up fw.
Definition setGravity (v : Vector3) : PhysicsStageAttributes → PhysicsStageAttributes :=
  λ '(mkPhysicsStageAttributes h fd rh ch sh nh hf ls rt ct st rp cp um rl fc d m g o fr re up fw),
    mkPhysicsStageAttributes h fd rh ch sh nh hf ls rt ct st rp cp um rl fc d m (Some v) o fr re up fw.
Definition setOrigin (v : Vector3) : PhysicsStageAttributes → PhysicsStageAttributes :=
  λ '(mkPhysicsStageAttributes h fd rh ch sh nh hf ls rt ct st rp cp um rl fc d m g o fr re up fw),
    mkPhysicsStageAttributes h fd rh ch sh nh hf ls rt ct st rp cp um rl fc d m g (Some v) fr re up fw.
Definition setFrictionCoefficient (v : double) : PhysicsStageAttributes → PhysicsStageAttributes :=
  λ '(mkPhysicsStageAttributes h fd rh ch sh nh hf ls rt ct st rp cp um rl fc d m g o fr re up fw),
    mkPhysicsStageAttributes h fd rh ch sh nh hf ls rt ct st rp cp um rl fc d m g o (Some v) re up fw.
Definition setRestitutionCoefficient (v : double) : PhysicsStageAttributes → PhysicsStageAttributes :=
  λ '(mkPhysicsStageAttributes h fd rh ch sh nh hf ls rt ct st rp cp um rl fc d m g o fr re up fw),
    mkPhysicsStageAttributes h fd rh ch sh nh hf ls rt ct st rp cp um rl fc d m g o fr (Some v) up fw.
Definition setOrientUp (v : Vector3) : PhysicsStageAttributes → PhysicsStageAttributes :=
  λ '(mkPhysicsStageAttributes h fd rh ch sh nh hf ls rt ct st rp cp um rl fc d m g o fr re up fw),
    mkPhysicsStageAttributes h fd rh ch sh nh hf ls rt ct st rp cp um rl fc d m g o fr re v fw.
Definition setOrientFront (v : Vector3) : PhysicsStageAttributes → PhysicsStageAttributes :=
  λ '(mkPhysicsStageAttributes h fd rh ch sh nh hf ls rt ct st rp cp um rl fc d m g o fr re up fw),
    mkPhysicsStageAttributes h fd rh ch sh nh hf ls rt ct st rp cp um rl fc d m g o fr re up v.
Definition setIsClean : PhysicsStageAttributes → PhysicsStageAttributes :=
  λ '(mkPhysicsStageAttributes h fd rh ch sh nh hf ls rt ct st rp cp um rl fc d m g o fr re up fw),
    mkPhysicsStageAttributes h fd rh ch sh nh hf ls rt ct st rp cp um rl fc false m g o fr re up fw.

(** The fields of [PhysicsManagerAttributes] that stages inherit. *)
Record PhysicsManagerAttributes : Type := mkPhysicsManagerAttributes {
  pm_getGravity : Vector3;
  pm_getFrictionCoefficient : double;
  pm_getRestitutionCoefficient : double
}.

(** ** Computations over a mutable world *)

(** A member function is a state transformer that may go wrong: [None] is
    the dereference of a pointer that refers to no object. *)
Definition State (S T : Type) : Type := S → option (T * S).

Definition ret {S T} (x : T) : State S T := λ s, Some (x, s).

Definition bind {S T U} (m : State S T) (f : T → State S U) : State S U :=
  λ s, match m s with Some (x, s') => f x s' | None => None end.

Declare Scope state_scope.
Delimit Scope state_scope with state.
Notation "x ← y ; z" := (bind y (λ x, z))
  (at level 20, y at level 100, z at level 200, only parsing) : state_scope.
Notation "' x ← y ; z" := (bind y (λ x, z))
  (at level 20, x pattern, y at level 100, z at level 200, only parsing)
  : state_scope.
Notation "x ;; z" := (bind x (λ _, z))
  (at level 100, z at level 200, only parsing, right associativity)
  : state_scope.
#[local] Open Scope state_scope.

(** Reading and updating the world. *)
Definition gets {S T} (f : S → T) : State S T := λ s, Some (f s, s).
Definition update {S} (f : S → S) : State S unit := λ s, Some (tt, f s).

(** Addresses of the objects that shared pointers refer to. *)
Definition ptr : Type := nat.

(** [esp::ID_UNDEFINED] *)
Definition ID_UNDEFINED : Z := (-1)%Z.

(** ** The attributes manager base class

    Modelled from the spec: [AttributesManager<T>] is defined in
    [AttributesManagerBase.h], which is not part of the sources at hand.  The
    definitions of this section follow §4.1 of the spec, and the comment at
    the one call of [addTemplateToLibrary] in the stage manager: "adds
    template to library, and returns either the ID of the existing template
    referenced by [the handle], or the next available ID if not found". *)
Section AttributesManager.

Context {A : Type}.

(** The heap of attributes objects and the template library.  The library
    maps a handle to the template's ID and to the copy the library owns. *)
#[local] Set Primitive Projections.
Record Registry : Type := mkRegistry {
  objects : gmap ptr A;
  templateLibrary_ : gmap string (nat * ptr)
}.
#[local] Unset Primitive Projections.

Definition setObjects (objs : gmap ptr A) (r : Registry) : Registry :=
  {| objects := objs; templateLibrary_ := templateLibrary_ r |}.

Definition setTemplateLibrary (lib : gmap string (nat * ptr)) (r : Registry)
  : Registry :=
  {| objects := objects r; templateLibrary_ := lib |}.

(** [T::create(...)]: a new object at an unused address. *)
Definition alloc (a : A) : State Registry ptr :=
  λ r, let p := fresh (dom (objects r)) in
       Some (p, setObjects (<[p := a]> (objects r)) r).

(** [*p] *)
Definition deref (p : ptr) : State Registry A :=
  λ r, match objects r !! p with
       | Some a => Some (a, r)
       | None => None
       end.

(** [p->set...(...)]: the object behind [p] is changed in place. *)
Definition modify (p : ptr) (f : A → A) : State Registry unit :=
  λ r, match objects r !! p with
       | Some a => Some (tt, setObjects (<[p := f a]> (objects r)) r)
       | None => None
       end.

(** Modelled from the spec: [copyAttributes], by which the library makes
    the copies it owns and hands out: a new object with the same content. *)
Definition copyAttributes (p : ptr) : State Registry ptr :=
  a ← deref p; alloc a.

(** Modelled from the spec: "the next unused ID", taken as one more than
    the largest ID in the library. *)
Definition nextTemplateID (lib : gmap string (nat * ptr)) : nat :=
  foldr (λ (e : string * (nat * ptr)) n, S e.2.1 `max` n) 0
        (map_to_list lib).

(** Modelled from the spec: [getTemplateID] gives "either the ID of the
    existing template referenced by [the handle], or the next available ID
    if not found". *)
Definition getTemplateID (handle : string) (r : Registry) : nat :=
  match templateLibrary_ r !! handle with
  | Some (id, _) => id
  | None => nextTemplateID (templateLibrary_ r)
  end.

(** Modelled from the spec: [templateLibHasHandle(handle) -> bool]. *)
Definition getTemplateLibHasHandle (handle : string) (r : Registry) : bool :=
  bool_decide (is_Some (templateLibrary_ r !! handle)).

(** Modelled from the spec: [addTemplateToLibrary] does what the spec has
    registration do once the record is accepted: "If handle is already
    present, overwrite the stored record at the existing ID (never a new ID)
    and return that ID.  If absent, allocate the next unused ID, insert, and
    return it."  The library keeps a copy, so that the caller's object stays
    the caller's. *)
Definition addTemplateToLibrary (attributesTemplate : ptr)
    (attributesHandle : string) : State Registry Z :=
  attributesTemplateID ← gets (getTemplateID attributesHandle);
  attributesTemplateCopy ← copyAttributes attributesTemplate;
  update (λ r, setTemplateLibrary
                 (<[attributesHandle :=
                      (attributesTemplateID, attributesTemplateCopy)]>
                    (templateLibrary_ r)) r);;
  ret (Z.of_nat attributesTemplateID).

(** Modelled from the spec: [getTemplateByHandle] "Always returns a copy";
    "Missing handle/ID yields an empty/null result". *)
Definition getTemplateByHandle (handle : string)
  : State Registry (option ptr) :=
  entry ← gets (λ r, templateLibrary_ r !! handle);
  match entry with
  | Some (_, stored) => p ← copyAttributes stored; ret (Some p)
  | None => ret None
  end.

(** Modelled from the spec: [getTemplateCopyByHandle] is the name by which
    the tests call [getTemplateByHandle]. *)
Definition getTemplateCopyByHandle := getTemplateByHandle.

(** Modelled from the spec: [removeTemplateByHandle] "Evicts and returns
    ownership of the removed record; null if absent." *)
Definition removeTemplateByHandle (handle : string)
  : State Registry (option ptr) :=
  entry ← gets (λ r, templateLibrary_ r !! handle);
  match entry with
  | Some (_, stored) =>
      update (λ r, setTemplateLibrary (delete handle (templateLibrary_ r)) r);;
      ret (Some stored)
  | None => ret None
  end.

(** Modelled from the spec: the handles of the library, as an "ordered
    sequence" in the library's order. *)
Definition getTemplateHandles (r : Registry) : list string :=
  (map_to_list (templateLibrary_ r)).*1.

(** Modelled from the spec: the "case-insensitive match" of a handle
    against a substring; "Empty substring matches every handle". *)
Definition handleMatches (subStr handle : string) : bool :=
  Str.contains (Str.lowercase handle) (Str.lowercase subStr).

(** Modelled from the spec: [getTemplateHandlesBySubstring]; "when
    [contains] is false, returns the complement set (all handles not
    matching)". *)
Definition getTemplateHandlesBySubstring (subStr : string) (contains : bool)
    (r : Registry) : list string :=
  filter (λ handle, handleMatches subStr handle = contains)
         (getTemplateHandles r).

(** Every copy the library owns is a live object. *)
Definition registry_wf (r : Registry) : Prop :=
  ∀ handle id stored,
    templateLibrary_ r !! handle = Some (id, stored) →
    is_Some (objects r !! stored).

End AttributesManager.

Arguments Registry : clear implicits.

(** ** The world of the stage attributes manager *)

Inductive Severity : Type := INFO | ERROR.

(** The stage manager's registry, the configs the peer object manager was
    asked to load (latest last), and the lines written to the log (latest
    last). *)
#[local] Set Primitive Projections.
Record World : Type := mkWorld {
  registry : Registry PhysicsStageAttributes;
  objectConfigsLoaded : list (string * bool);
  logged : list (Severity * string)
}.
#[local] Unset Primitive Projections.

Definition setRegistry (r : Registry PhysicsStageAttributes) (w : World)
  : World :=
  {| registry := r; objectConfigsLoaded := objectConfigsLoaded w;
     logged := logged w |}.

Definition setObjectConfigsLoaded (l : list (string * bool)) (w : World)
  : World :=
  {| registry := registry w; objectConfigsLoaded := l; logged := logged w |}.

Definition setLogged (l : list (Severity * string)) (w : World) : World :=
  {| registry := registry w; objectConfigsLoaded := objectConfigsLoaded w;
     logged := l |}.

Definition M : Type → Type := State World.

(** A registry operation, run on the stage manager's registry. *)
Definition inRegistry {T} (m : State (Registry PhysicsStageAttributes) T)
  : M T :=
  λ w, match m (registry w) with
       | Some (x, r') => Some (x, setRegistry r' w)
       | None => None
       end.

(** [p->get...()] and [p->set...(...)] *)
Definition read {T} (p : ptr) (getter : PhysicsStageAttributes → T) : M T :=
  inRegistry (a ← deref p; ret (getter a)).

Definition call (p : ptr)
    (setter : PhysicsStageAttributes → PhysicsStageAttributes) : M unit :=
  inRegistry (modify p setter).

(** [LOG(severity) << ...] *)
Definition LOG (severity : Severity) (msg : string) : M unit :=
  update (λ w, setLogged (logged w ++ [(severity, msg)]) w).

(** What the manager is given from outside: its peers, the file system, and
    the helpers of the base class whose code is not at hand. *)
Record Environment : Type := mkEnvironment {
  (** [objectAttributesMgr_->isValidPrimitiveAttributes(handle)], which may
      depend on the object configs loaded so far *)
  peer_isValidPrimitiveAttributes : list (string * bool) → string → bool;
  (** [physicsAttributesManager_]: its templates by handle *)
  physicsAttributesManager_ : gmap string PhysicsManagerAttributes;
  (** [this->isValidFileName(handle)]: the handle names an existing file *)
  isValidFileName : string → bool;
  (** [Corrade::Utility::Directory::exists] *)
  Directory_exists : string → bool;
  (** [this->verifyLoadJson(filename, doc)]: the parsed document, if the
      file could be read and parsed *)
  verifyLoadJson : string → option Json;
  (** [assets::ResourceManager::NO_LIGHT_KEY] *)
  NO_LIGHT_KEY : string;
  (** the fields of [AbstractPhysicsAttributes] that
      [createPhysicsAttributesFromJson] reads from a document *)
  physicsAttributesFromJson :
    Json → PhysicsStageAttributes → PhysicsStageAttributes;
  (** what [setJSONAssetHandleAndType] decides from the record, the
      document, the two tags and the current asset name: its result, the new
      asset name, and the type it hands to the setter, if any *)
  jsonAssetHandleAndType :
    PhysicsStageAttributes → Json → string → string → string →
    bool * string * option AssetType
}.

(** The configuration members of the manager. *)
Record StageAttributesManager : Type := mkStageAttributesManager {
  cfgLightSetup_ : string;
  cfgFrustrumCulling_ : bool;
  cfgFilepaths_ : gmap string string;
  physicsManagerAttributesHandle_ : string
}.

(** [for (i = 0; i < paths.Size(); i++)] *)
Fixpoint forEachFrom {T} (i : nat) (l : list T) (body : nat → T → M unit)
  : M unit :=
  match l with
  | [] => ret tt
  | x :: rest => body i x;; forEachFrom (S i) rest body
  end.

(** ** [StageAttributesManager.cpp] *)

Section StageAttributesManager.

Variable env : Environment.
Variable this : StageAttributesManager.

(** [objectAttributesMgr_->isValidPrimitiveAttributes(handle)] *)
Definition isValidPrimitiveAttributes (handle : string) : M bool :=
  gets (λ w, peer_isValidPrimitiveAttributes env (objectConfigsLoaded w)
               handle).

(** [objectAttributesMgr_->loadObjectConfigs(path, recurse)]; the IDs it
    returns are dropped by the one caller. *)
Definition loadObjectConfigs (path : string) (recurse : bool) : M unit :=
  update (λ w, setObjectConfigsLoaded
                 (objectConfigsLoaded w ++ [(path, recurse)]) w).

(** Lines 78-162. *)
Definition registerAttributesTemplateFinalize
    (sceneAttributesTemplate : ptr) (stageAttributesHandle : string)
  : M Z :=
  renderAssetHandle ← read sceneAttributesTemplate getRenderAssetHandle;
  if String.eqb renderAssetHandle "" then
    LOG ERROR
      ("StageAttributesManager::registerAttributesTemplateFinalize : "
       ++ "Attributes template named" ++ stageAttributesHandle
       ++ "does not have a valid render asset handle specified. Aborting.");;
    ret ID_UNDEFINED
  else
    (* Handles for rendering and collision assets *)
    renderAssetHandle ← read sceneAttributesTemplate getRenderAssetHandle;
    collisionAssetHandle ←
      read sceneAttributesTemplate getCollisionAssetHandle;
    (* lines 124-161, reached from the three accepting render branches *)
    let collisionAndInsert : M Z :=
      collisionIsPrimitive ← isValidPrimitiveAttributes collisionAssetHandle;
      (if collisionIsPrimitive then
         call sceneAttributesTemplate (setCollisionAssetIsPrimitive true)
       else if isValidFileName env collisionAssetHandle then
         call sceneAttributesTemplate (setCollisionAssetIsPrimitive false)
       else if Str.contains stageAttributesHandle "NONE" then
         call sceneAttributesTemplate (setCollisionAssetType UNKNOWN);;
         call sceneAttributesTemplate (setCollisionAssetIsPrimitive false)
       else
         LOG INFO
           ("StageAttributesManager::registerAttributesTemplateFinalize "
            ++ ": Collision asset template handle : "
            ++ collisionAssetHandle
            ++ " specified in stage template with handle : "
            ++ stageAttributesHandle
            ++ " does not correspond to any existing file or primitive render "
            ++ "asset.  Overriding with given render asset handle : "
            ++ renderAssetHandle ++ ". ");;
         call sceneAttributesTemplate
              (setCollisionAssetHandle renderAssetHandle);;
         renderIsPrimitive ←
           read sceneAttributesTemplate getRenderAssetIsPrimitive;
         call sceneAttributesTemplate
              (setCollisionAssetIsPrimitive renderIsPrimitive));;
      (* Clear dirty flag from when asset handles are changed *)
      call sceneAttributesTemplate setIsClean;;
      sceneTemplateID ←
        inRegistry (addTemplateToLibrary sceneAttributesTemplate
                                         stageAttributesHandle);
      ret sceneTemplateID in
    (* verify these represent legitimate assets *)
    renderIsPrimitive ← isValidPrimitiveAttributes renderAssetHandle;
    if renderIsPrimitive then
      call sceneAttributesTemplate (setRenderAssetIsPrimitive true);;
      collisionAndInsert
    else if isValidFileName env renderAssetHandle then
      call sceneAttributesTemplate (setRenderAssetIsPrimitive false);;
      collisionAndInsert
    else if Str.contains stageAttributesHandle "NONE" then
      call sceneAttributesTemplate (setRenderAssetType UNKNOWN);;
      call sceneAttributesTemplate (setRenderAssetIsPrimitive false);;
      collisionAndInsert
    else
      LOG ERROR
        ("StageAttributesManager::registerAttributesTemplateFinalize "
         ++ ": Render asset template handle : " ++ renderAssetHandle
         ++ " specified in stage template with handle : "
         ++ stageAttributesHandle
         ++ " does not correspond to any existing file or primitive render "
         ++ "asset.  Aborting. ");;
      ret ID_UNDEFINED.

(** Modelled from the spec: [registerAttributesTemplate] is defined in
    [AttributesManagerBase.h], which is not part of the sources at hand.
    The spec: registration "Fails (UNDEFINED) only if the record fails a
    type-specific finalization precondition"; the finalization step ends
    in the insertion. *)
Definition registerAttributesTemplate (attributesTemplate : ptr)
    (attributesTemplateHandle : string) : M Z :=
  registerAttributesTemplateFinalize attributesTemplate
                                     attributesTemplateHandle.

(** Modelled from the spec: [postCreateRegister] is defined in
    [AttributesManagerBase.h], which is not part of the sources at hand.
    It does what lines 172-180 do for the default pipeline: register on
    request under the record's own handle, and give null when registration
    is rejected. *)
Definition postCreateRegister (attributes : ptr) (registerTemplate : bool)
  : M (option ptr) :=
  if registerTemplate then
    handle ← read attributes getHandle;
    attrID ← registerAttributesTemplate attributes handle;
    if Z.eqb attrID ID_UNDEFINED then ret None else ret (Some attributes)
  else ret (Some attributes).

(** Modelled from the spec: [setFileDirectoryFromHandle] is defined in
    [AttributesManagerBase.h], which is not part of the sources at hand.
    The spec: it "Derives a working directory from the handle's path". *)
Definition setFileDirectoryFromHandle (attributes : ptr) : M unit :=
  handleName ← read attributes getHandle;
  match Str.find_last_of handleName "/" with
  | Some loc =>
      call attributes (setFileDirectory (Str.substr0 handleName (Some loc)))
  | None => ret tt
  end.

(** Lines 303-340. *)
Definition setDefaultFileNameBasedAttributes (attributes : ptr)
    (setFrame : bool) (fileName : string)
    (meshTypeSetter : AssetType → M unit) : M unit :=
  let up1 : Vector3 := (0#1, 1#1, 0#1)%Q in
  let up2 : Vector3 := (0#1, 0#1, 1#1)%Q in
  let fwd1 : Vector3 := (0#1, 0#1, -1#1)%Q in
  let fwd2 : Vector3 := (0#1, 1#1, 0#1)%Q in
  (* up = up1; fwd = fwd1; the branches below may assign them again *)
  frame ←
    (if Str.endsWith fileName "_semantic.ply" then
       meshTypeSetter INSTANCE_MESH;; ret (up1, fwd1)
     else if Str.endsWith fileName "mesh.ply" then
       meshTypeSetter FRL_PTEX_MESH;; ret (up2, fwd2)
     else if Str.endsWith fileName "house.json" then
       meshTypeSetter SUNCG_SCENE;; ret (up1, fwd1)
     else if Str.endsWith fileName ".glb" then
       (* assumes MP3D glb with gravity = -Z *)
       meshTypeSetter MP3D_MESH;; ret (up2, fwd2)
     else
       meshTypeSetter UNKNOWN;; ret (up1, fwd1));
  if setFrame then
    call attributes (setOrientUp frame.1);;
    call attributes (setOrientFront frame.2)
  else ret tt.

(** Lines 228-301. *)
Definition initNewAttribsInternal (newAttributes : ptr) : M ptr :=
  setFileDirectoryFromHandle newAttributes;;
  sceneFilename ← read newAttributes getHandle;
  (* set defaults that config files or other constructive processes might
     override *)
  call newAttributes (setRenderAssetHandle sceneFilename);;
  call newAttributes (setCollisionAssetHandle sceneFilename);;
  call newAttributes (setUseMeshCollision true);;
  (* set defaults from SimulatorConfig values *)
  call newAttributes (setLightSetup (cfgLightSetup_ this));;
  call newAttributes
       (setRequiresLighting
          (negb (String.eqb (cfgLightSetup_ this) (NO_LIGHT_KEY env))));;
  call newAttributes (setFrustrumCulling (cfgFrustrumCulling_ this));;
  (* set defaults for navmesh default handles and semantic mesh default
     handles *)
  let navmeshFilename := io.changeExtension sceneFilename ".navmesh" in
  let navmeshFilename :=
    match cfgFilepaths_ this !! "navmesh" with
    | Some configured => configured
    | None => navmeshFilename
    end in
  (if Directory_exists env navmeshFilename then
     call newAttributes (setNavmeshAssetHandle navmeshFilename)
   else ret tt);;
  (* Build default semantic descriptor file name *)
  let houseFilename := io.changeExtension sceneFilename ".house" in
  let houseFilename :=
    match cfgFilepaths_ this !! "house" with
    | Some configured => configured
    | None => houseFilename
    end in
  let houseFilename :=
    if negb (Directory_exists env houseFilename)
    then io.changeExtension sceneFilename ".scn"
    else houseFilename in
  call newAttributes (setHouseFilename houseFilename);;
  (* Build default semantic mesh file name *)
  let semanticMeshFilename :=
    io.removeExtension houseFilename ++ "_semantic.ply" in
  call newAttributes (setSemanticAssetHandle semanticMeshFilename);;
  (* set defaults for passed render asset handles *)
  renderAssetHandle ← read newAttributes getRenderAssetHandle;
  setDefaultFileNameBasedAttributes newAttributes true renderAssetHandle
    (λ t, call newAttributes (setRenderAssetType t));;
  (* set defaults for passed collision asset handles *)
  collisionAssetHandle ← read newAttributes getCollisionAssetHandle;
  setDefaultFileNameBasedAttributes newAttributes false collisionAssetHandle
    (λ t, call newAttributes (setCollisionAssetType t));;
  (* set defaults for passed semantic asset handles *)
  semanticAssetHandle ← read newAttributes getSemanticAssetHandle;
  setDefaultFileNameBasedAttributes newAttributes false semanticAssetHandle
    (λ t, call newAttributes (setSemanticAssetType t));;
  (* set default physical quantities specified in physics manager
     attributes *)
  match physicsAttributesManager_ env
        !! physicsManagerAttributesHandle_ this with
  | Some physMgrAttributes =>
      call newAttributes (setGravity (pm_getGravity physMgrAttributes));;
      call newAttributes
           (setFrictionCoefficient
              (pm_getFrictionCoefficient physMgrAttributes));;
      call newAttributes
           (setRestitutionCoefficient
              (pm_getRestitutionCoefficient physMgrAttributes));;
      ret newAttributes
  | None => ret newAttributes
  end.

(** [PhysicsStageAttributes::create(handle)] behind a new shared pointer. *)
Definition create (handle : string) : M ptr :=
  inRegistry (alloc (PhysicsStageAttributes_create handle)).

(** Lines 164-181. *)
Definition createDefaultAttributesTemplate (sceneFilename : string)
    (registerTemplate : bool) : M (option ptr) :=
  (* Attributes descriptor for stage *)
  newAttributes ← create sceneFilename;
  sceneAttributesTemplate ← initNewAttribsInternal newAttributes;
  if registerTemplate then
    attrID ← registerAttributesTemplate sceneAttributesTemplate
                                        sceneFilename;
    if Z.eqb attrID ID_UNDEFINED then
      (* some error occurred *)
      ret None
    else ret (Some sceneAttributesTemplate)
  else ret (Some sceneAttributesTemplate).

(** Lines 183-215. *)
Definition createPrimBasedAttributesTemplate (primAssetHandle : string)
    (registerTemplate : bool) : M (option ptr) :=
  (* verify that a primitive asset with the given handle exists *)
  isPrimitive ← isValidPrimitiveAttributes primAssetHandle;
  if negb isPrimitive then
    LOG ERROR
      ("StageAttributesManager::createPrimBasedAttributesTemplate : No "
       ++ "primitive with handle '" ++ primAssetHandle
       ++ "' exists so cannot build physical object.  Aborting.");;
    ret None
  else
    (* construct a stageAttributes *)
    newAttributes ← create primAssetHandle;
    stageAttributes ← initNewAttribsInternal newAttributes;
    (* set margin to be 0 *)
    call stageAttributes (setMargin (0#1)%Q);;
    (* set render mesh handle *)
    let primType := PRIMITIVE in
    call stageAttributes (setRenderAssetType primType);;
    (* set collision mesh/primitive handle and default for primitives to
       not use mesh collisions *)
    call stageAttributes (setCollisionAssetType primType);;
    call stageAttributes (setUseMeshCollision false);;
    postCreateRegister stageAttributes registerTemplate.

(** Lines 217-226. *)
Definition createBackCompatAttributesTemplate (sceneFilename : string)
    (registerTemplate : bool) : M (option ptr) :=
  (* Attributes descriptor for stage *)
  newAttributes ← create sceneFilename;
  stageAttributes ← initNewAttribsInternal newAttributes;
  postCreateRegister stageAttributes registerTemplate.

(** Modelled from the spec: [io::jsonIntoConstSetter<Magnum::Vector3>] is
    declared in [esp/io/json.h], which is not part of the sources at hand.
    The spec: "write into a typed destination only if the field is present
    and type-matches; returns whether an override occurred". *)
Definition jsonIntoConstSetter_Vector3 (doc : Json) (tag : string)
    (setter : Vector3 → M unit) : M bool :=
  match json.jsonIntoVal_Vector3 doc tag with
  | Some val => setter val;; ret true
  | None => ret false
  end.

(** Modelled from the spec: [setJSONAssetHandleAndType] is defined in
    [AttributesManagerBase.h], which is not part of the sources at hand.
    The spec: it reads a "string pair: type hint + path".  What it decides
    is left to the environment; its effects are the ones its signature
    allows: the asset name passed by reference, and the bound type setter. *)
Definition setJSONAssetHandleAndType (attributes : ptr) (jsonDoc : Json)
    (jsonMeshTypeTag jsonMeshHandleTag assetName : string)
    (meshTypeSetter : AssetType → M unit) : M (bool * string) :=
  current ← read attributes id;
  let decided :=
    jsonAssetHandleAndType env current jsonDoc jsonMeshTypeTag
                           jsonMeshHandleTag assetName in
  match decided.2 with
  | Some t => meshTypeSetter t;; ret decided.1
  | None => ret decided.1
  end.

(** Modelled from the spec: [createPhysicsAttributesFromJson] is defined
    in [AttributesManagerBase.h], which is not part of the sources at hand.
    The spec: "Each pipeline produces a record via a shared initializer";
    the caller's comment: "construct a PhysicsStageAttributes and populate
    with any AbstractPhysicsAttributes fields found in json". *)
Definition createPhysicsAttributesFromJson (configFilename : string)
    (jsonDoc : Json) : M ptr :=
  newAttributes ← create configFilename;
  attributes ← initNewAttribsInternal newAttributes;
  call attributes (physicsAttributesFromJson env jsonDoc);;
  ret attributes.

(** The body of the loop of lines 424-437. *)
Definition loadRigidObjectPath (configDirectory : string) (i : nat)
    (path : Json) : M unit :=
  if negb (json.IsString path) then
    LOG ERROR
      ("StageAttributesManager::createAttributesTemplate "
       ++ ":Invalid value in stage config 'rigid object paths'- array "
       ++ pretty i)
    (* continue *)
  else
    let absolutePath :=
      Directory.join configDirectory (json.GetString path) in
    (* load all object templates available as configs in absolutePath *)
    loadObjectConfigs absolutePath true.

(** Lines 342-441. *)
Definition createFileBasedAttributesTemplate (sceneFilename : string)
    (registerTemplate : bool) : M (option ptr) :=
  (* Load the stage config JSON here *)
  match verifyLoadJson env sceneFilename with
  | None =>
      LOG ERROR
        ("StageAttributesManager::createFileBasedAttributesTemplate : "
         ++ "Failure reading json " ++ sceneFilename ++ ". Aborting.");;
      ret None
  | Some jsonConfig =>
      (* construct a PhysicsStageAttributes and populate with any
         AbstractPhysicsAttributes fields found in json. *)
      stageAttributes ←
        createPhysicsAttributesFromJson sceneFilename jsonConfig;
      (* directory location where stage files are found *)
      sceneLocFileDir ← read stageAttributes getFileDirectory;
      (* load stage specific gravity *)
      jsonIntoConstSetter_Vector3 jsonConfig "gravity"
        (λ v, call stageAttributes (setGravity v));;
      (* load stage specific origin *)
      jsonIntoConstSetter_Vector3 jsonConfig "origin"
        (λ v, call stageAttributes (setOrigin v));;
      (* populate semantic mesh type if present *)
      semanticFName ← read stageAttributes getSemanticAssetHandle;
      '(specified, semanticFName) ←
        setJSONAssetHandleAndType stageAttributes jsonConfig
          "semantic mesh type" "semantic mesh" semanticFName
          (λ t, call stageAttributes (setSemanticAssetType t));
      (if (specified : bool) then
         (* if "semantic mesh" is specified in stage json to non-empty
            value, set value (override default). *)
         call stageAttributes (setSemanticAssetHandle semanticFName);;
         call stageAttributes (setSemanticAssetType INSTANCE_MESH)
       else ret tt);;
      match json.jsonIntoVal_string jsonConfig "nav mesh" with
      | Some navmeshFName =>
          let navmeshFName := Directory.join sceneLocFileDir navmeshFName in
          (* if "nav mesh" is specified in stage json set value (override
             default). *)
          call stageAttributes (setNavmeshAssetHandle navmeshFName)
      | None => ret tt
      end;;
      match json.jsonIntoVal_string jsonConfig "house filename" with
      | Some houseFName =>
          let houseFName := Directory.join sceneLocFileDir houseFName in
          (* if "house filename" is specified in stage json, set value
             (override default). *)
          call stageAttributes (setHouseFilename houseFName)
      | None => ret tt
      end;;
      match json.jsonIntoVal_string jsonConfig "lighting setup" with
      | Some lightSetup =>
          (* if lighting is specified in stage json to non-empty value, set
             value (override default). *)
          call stageAttributes (setLightSetup lightSetup)
      | None => ret tt
      end;;
      (* load the rigid object library metadata (no physics init yet...) *)
      match json.member jsonConfig "rigid object paths" with
      | Some (JArray paths) =>
          let configDirectory :=
            Str.substr0 sceneFilename (Str.find_last_of sceneFilename "/") in
          forEachFrom 0 paths (loadRigidObjectPath configDirectory)
      | _ => ret tt
      end;;
      postCreateRegister stageAttributes registerTemplate
  end.

(** Lines 70-74 of [createAttributesTemplate]: the closing log line, and
    the return. *)
Definition logCreated (msg : string) (registerTemplate : bool)
    (attrs : option ptr) : M (option ptr) :=
  match attrs with
  | Some _ =>
      LOG INFO (msg ++ " stage attributes created"
                ++ (if registerTemplate then " and registered." else "."));;
      ret attrs
  | None => ret attrs
  end.

(** Lines 34-76. *)
Definition createAttributesTemplate (stageAttributesHandle : string)
    (registerTemplate : bool) : M (option ptr) :=
  let strHandle := Str.lowercase stageAttributesHandle in
  let fileExists := isValidFileName env stageAttributesHandle in
  isPrimitive ← isValidPrimitiveAttributes stageAttributesHandle;
  '(attrs, msg) ←
    (if (isPrimitive : bool) then
       (* if stageAttributesHandle == some existing primitive attributes,
          then this is a primitive-based stage (i.e. a plane) we are
          building *)
       attrs ← createPrimBasedAttributesTemplate stageAttributesHandle
                                                 registerTemplate;
       ret (attrs, "Primitive Asset (" ++ stageAttributesHandle ++ ") Based")
     else if fileExists then
       if Str.contains strHandle "scene_config.json" && fileExists then
         (* check if stageAttributesHandle corresponds to an actual,
            existing json stage file descriptor. *)
         attrs ← createFileBasedAttributesTemplate stageAttributesHandle
                                                   registerTemplate;
         ret (attrs, "JSON File (" ++ stageAttributesHandle ++ ") Based")
       else
         (* if name is not json file descriptor but still appropriate
            file *)
         attrs ← createBackCompatAttributesTemplate stageAttributesHandle
                                                    registerTemplate;
         ret (attrs, "File (" ++ stageAttributesHandle ++ ") Based")
     else
       (* if name is not file descriptor, return default attributes. *)
       attrs ← createDefaultAttributesTemplate stageAttributesHandle
                                               registerTemplate;
       ret (attrs, "New default"));
  logCreated msg registerTemplate attrs.

End StageAttributesManager.

(** Lines 21-32: the constructor sets the light setup to the no-light key.
    The configuration members that it does not name start from their
    in-class initializers, which are the fields of [members] here. *)
Definition StageAttributesManager_new (env : Environment)
    (members : StageAttributesManager) : StageAttributesManager :=
  {| cfgLightSetup_ := NO_LIGHT_KEY env;
     cfgFrustrumCulling_ := cfgFrustrumCulling_ members;
     cfgFilepaths_ := cfgFilepaths_ members;
     physicsManagerAttributesHandle_ :=
       physicsManagerAttributesHandle_ members |}.

(** ** What a call does to the record it is given

    The member functions above change one record through a pointer.  The
    definitions below give the same change as a function on the record; the
    lemmas of the next part prove that the two agree. *)

(** The world in which the object behind [p] holds [a]. *)
Definition store (p : ptr) (a : PhysicsStageAttributes) (w : World) : World :=
  setRegistry (setObjects (<[p := a]> (objects (registry w))) (registry w)) w.

(** The world after the record [a] was added to the library under a handle,
    with the given ID and a copy at address [q]. *)
Definition inserted (handle : string) (id : nat) (q : ptr)
    (a : PhysicsStageAttributes) (w : World) : World :=
  setRegistry
    {| objects := <[q := a]> (objects (registry w));
       templateLibrary_ := <[handle := (id, q)]>
                             (templateLibrary_ (registry w)) |} w.

(** The rule table of [setDefaultFileNameBasedAttributes]: the type tag and
    the up and front vectors that a file name selects. *)
Definition fileNameAssetType (fileName : string) : AssetType :=
  if Str.endsWith fileName "_semantic.ply" then INSTANCE_MESH
  else if Str.endsWith fileName "mesh.ply" then FRL_PTEX_MESH
  else if Str.endsWith fileName "house.json" then SUNCG_SCENE
  else if Str.endsWith fileName ".glb" then MP3D_MESH
  else UNKNOWN.

Definition fileNameFrame (fileName : string) : Vector3 * Vector3 :=
  let up1 : Vector3 := (0#1, 1#1, 0#1)%Q in
  let up2 : Vector3 := (0#1, 0#1, 1#1)%Q in
  let fwd1 : Vector3 := (0#1, 0#1, -1#1)%Q in
  let fwd2 : Vector3 := (0#1, 1#1, 0#1)%Q in
  if Str.endsWith fileName "_semantic.ply" then (up1, fwd1)
  else if Str.endsWith fileName "mesh.ply" then (up2, fwd2)
  else if Str.endsWith fileName "house.json" then (up1, fwd1)
  else if Str.endsWith fileName ".glb" then (up2, fwd2)
  else (up1, fwd1).

Definition defaultFileNameBased (setFrame : bool) (fileName : string)
    (setType : AssetType → PhysicsStageAttributes → PhysicsStageAttributes)
    (a : PhysicsStageAttributes) : PhysicsStageAttributes :=
  let a := setType (fileNameAssetType fileName) a in
  if setFrame then
    setOrientFront (fileNameFrame fileName).2
                   (setOrientUp (fileNameFrame fileName).1 a)
  else a.

Section Effects.

Variable env : Environment.
Variable this : StageAttributesManager.

(** The navmesh file that [initNewAttribsInternal] looks for. *)
Definition navmeshCandidate (sceneFilename : string) : string :=
  match cfgFilepaths_ this !! "navmesh" with
  | Some configured => configured
  | None => io.changeExtension sceneFilename ".navmesh"
  end.

(** The house file that [initNewAttribsInternal] looks for. *)
Definition houseCandidate (sceneFilename : string) : string :=
  match cfgFilepaths_ this !! "house" with
  | Some configured => configured
  | None => io.changeExtension sceneFilename ".house"
  end.

(** The house file name that [initNewAttribsInternal] stores. *)
Definition houseChosen (sceneFilename : string) : string :=
  if negb (Directory_exists env (houseCandidate sceneFilename))
  then io.changeExtension sceneFilename ".scn"
  else houseCandidate sceneFilename.

(** What [initNewAttribsInternal] does to the record. *)
Definition initRecord (a : PhysicsStageAttributes)
  : PhysicsStageAttributes :=
  let a :=
    match Str.find_last_of (getHandle a) "/" with
    | Some loc =>
        setFileDirectory (Str.substr0 (getHandle a) (Some loc)) a
    | None => a
    end in
  let sceneFilename := getHandle a in
  let a := setRenderAssetHandle sceneFilename a in
  let a := setCollisionAssetHandle sceneFilename a in
  let a := setUseMeshCollision true a in
  let a := setLightSetup (cfgLightSetup_ this) a in
  let a :=
    setRequiresLighting
      (negb (String.eqb (cfgLightSetup_ this) (NO_LIGHT_KEY env))) a in
  let a := setFrustrumCulling (cfgFrustrumCulling_ this) a in
  let a :=
    if Directory_exists env (navmeshCandidate sceneFilename)
    then setNavmeshAssetHandle (navmeshCandidate sceneFilename) a
    else a in
  let a := setHouseFilename (houseChosen sceneFilename) a in
  let a :=
    setSemanticAssetHandle
      (io.removeExtension (houseChosen sceneFilename) ++ "_semantic.ply")
      a in
  let a :=
    defaultFileNameBased true (getRenderAssetHandle a)
                         setRenderAssetType a in
  let a :=
    defaultFileNameBased false (getCollisionAssetHandle a)
                         setCollisionAssetType a in
  let a :=
    defaultFileNameBased false (getSemanticAssetHandle a)
                         setSemanticAssetType a in
  match physicsAttributesManager_ env
        !! physicsManagerAttributesHandle_ this with
  | Some physMgrAttributes =>
      setRestitutionCoefficient
        (pm_getRestitutionCoefficient physMgrAttributes)
        (setFrictionCoefficient
           (pm_getFrictionCoefficient physMgrAttributes)
           (setGravity (pm_getGravity physMgrAttributes) a))
  | None => a
  end.

(** What [registerAttributesTemplateFinalize] does to the record before
    it adds it to the library; [None] when it aborts.  [loaded] are the
    object configs loaded so far. *)
Definition finalRecord (loaded : list (string * bool))
    (stageAttributesHandle : string) (a : PhysicsStageAttributes)
  : option PhysicsStageAttributes :=
  let renderAssetHandle := getRenderAssetHandle a in
  let collisionAssetHandle := getCollisionAssetHandle a in
  let collision (a : PhysicsStageAttributes) : PhysicsStageAttributes :=
    setIsClean
      (if peer_isValidPrimitiveAttributes env loaded collisionAssetHandle
       then setCollisionAssetIsPrimitive true a
       else if isValidFileName env collisionAssetHandle
       then setCollisionAssetIsPrimitive false a
       else if Str.contains stageAttributesHandle "NONE"
       then setCollisionAssetIsPrimitive false
              (setCollisionAssetType UNKNOWN a)
       else let a := setCollisionAssetHandle renderAssetHandle a in
            setCollisionAssetIsPrimitive (getRenderAssetIsPrimitive a) a) in
  if String.eqb renderAssetHandle "" then None
  else if peer_isValidPrimitiveAttributes env loaded renderAssetHandle
  then Some (collision (setRenderAssetIsPrimitive true a))
  else if isValidFileName env renderAssetHandle
  then Some (collision (setRenderAssetIsPrimitive false a))
  else if Str.contains stageAttributesHandle "NONE"
  then Some (collision (setRenderAssetIsPrimitive false
                          (setRenderAssetType UNKNOWN a)))
  else None.

End Effects.

(** What [postCreateRegister] leaves behind when the record behind [p]
    holds [a]: the pointer or null, and the world.  [l] are the lines that
    finalization writes to the log. *)
Definition registrationOutcome (env : Environment) (registerTemplate : bool)
    (p : ptr) (a : PhysicsStageAttributes) (w : World)
    (l : list (Severity * string)) : option ptr * World :=
  if registerTemplate then
    match finalRecord env (objectConfigsLoaded w) (getHandle a) a with
    | None => (None, store p a (setLogged (logged w ++ l) w))
    | Some a' =>
        (Some p,
         inserted (getHandle a) (getTemplateID (getHandle a) (registry w))
                  (fresh (dom (objects (registry (store p a' w))))) a'
                  (store p a' (setLogged (logged w ++ l) w)))
    end
  else (Some p, store p a w).

(** What the loop over "rigid object paths" hands to the peer's loader, and
    what it writes to the log, from index [i] on. *)
Definition rigidObjectPathLoads (configDirectory : string)
    (paths : list Json) : list (string * bool) :=
  flat_map (λ path, if json.IsString path
                    then [(Directory.join configDirectory
                                          (json.GetString path), true)]
                    else []) paths.

Fixpoint rigidObjectPathErrors (i : nat) (paths : list Json)
  : list (Severity * string) :=
  match paths with
  | [] => []
  | path :: rest =>
      (if json.IsString path then []
       else [(ERROR,
              "StageAttributesManager::createAttributesTemplate "
              ++ ":Invalid value in stage config 'rigid object paths'- array "
              ++ pretty i)])
      ++ rigidObjectPathErrors (S i) rest
  end.

(** The world after the loop. *)
Definition afterRigidObjectPaths (configDirectory : string) (i : nat)
    (paths : list Json) (w : World) : World :=
  setLogged (logged w ++ rigidObjectPathErrors i paths)
    (setObjectConfigsLoaded
       (objectConfigsLoaded w ++ rigidObjectPathLoads configDirectory paths)
       w).

(** The lines that [registerAttributesTemplateFinalize] writes to the log
    for the record [a]: one error when it aborts; when it accepts, one note
    exactly when the collision asset falls back on the render asset. *)
Definition finalizationLines (env : Environment)
    (loaded : list (string * bool)) (stageAttributesHandle : string)
    (a : PhysicsStageAttributes) (l : list (Severity * string)) : Prop :=
  match finalRecord env loaded stageAttributesHandle a with
  | None => ∃ msg, l = [(ERROR, msg)]
  | Some _ =>
      if peer_isValidPrimitiveAttributes env loaded
           (getCollisionAssetHandle a)
         || isValidFileName env (getCollisionAssetHandle a)
         || Str.contains stageAttributesHandle "NONE"
      then l = []
      else ∃ msg, l = [(INFO, msg)]
  end.

(** The lines that [postCreateRegister] writes. *)
Definition registrationLines (env : Environment) (registerTemplate : bool)
    (a : PhysicsStageAttributes) (w : World) (l : list (Severity * string))
  : Prop :=
  if registerTemplate
  then finalizationLines env (objectConfigsLoaded w) (getHandle a) a l
  else l = [].

(** What [logCreated] makes of a pipeline's outcome. *)
Definition createdOutcome (msg : string) (registerTemplate : bool)
    (outcome : option ptr * World) : option ptr * World :=
  match outcome.1 with
  | Some _ =>
      (outcome.1,
       setLogged
         (logged outcome.2
          ++ [(INFO,
               msg ++ " stage attributes created"
               ++ (if registerTemplate then " and registered." else "."))])
         outcome.2)
  | None => outcome
  end.

(** The record that the primitive pipeline hands to registration. *)
Definition primitiveRecord (env : Environment) (this : StageAttributesManager)
    (primAssetHandle : string) : PhysicsStageAttributes :=
  setUseMeshCollision false
    (setCollisionAssetType PRIMITIVE
       (setRenderAssetType PRIMITIVE
          (setMargin (0#1)%Q
             (initRecord env this
                (PhysicsStageAttributes_create primAssetHandle))))).

(** What lines 362-415 of [createFileBasedAttributesTemplate] do to the
    record that [createPhysicsAttributesFromJson] returns. *)
Definition stageFieldsFromJson (env : Environment) (jsonConfig : Json)
    (a : PhysicsStageAttributes) : PhysicsStageAttributes :=
  let sceneLocFileDir := getFileDirectory a in
  let a :=
    match json.jsonIntoVal_Vector3 jsonConfig "gravity" with
    | Some v => setGravity v a
    | None => a
    end in
  let a :=
    match json.jsonIntoVal_Vector3 jsonConfig "origin" with
    | Some v => setOrigin v a
    | None => a
    end in
  let decided :=
    jsonAssetHandleAndType env a jsonConfig "semantic mesh type"
                           "semantic mesh" (getSemanticAssetHandle a) in
  let a :=
    match decided.2 with
    | Some t => setSemanticAssetType t a
    | None => a
    end in
  let a :=
    if decided.1.1
    then setSemanticAssetType INSTANCE_MESH
           (setSemanticAssetHandle decided.1.2 a)
    else a in
  let a :=
    match json.jsonIntoVal_string jsonConfig "nav mesh" with
    | Some navmeshFName =>
        setNavmeshAssetHandle (Directory.join sceneLocFileDir navmeshFName) a
    | None => a
    end in
  let a :=
    match json.jsonIntoVal_string jsonConfig "house filename" with
    | Some houseFName =>
        setHouseFilename (Directory.join sceneLocFileDir houseFName) a
    | None => a
    end in
  match json.jsonIntoVal_string jsonConfig "lighting setup" with
  | Some lightSetup => setLightSetup lightSetup a
  | None => a
  end.

(** The record that the JSON file-based pipeline hands to registration. *)
Definition jsonRecord (env : Environment) (this : StageAttributesManager)
    (sceneFilename : string) (jsonConfig : Json) : PhysicsStageAttributes :=
  stageFieldsFromJson env jsonConfig
    (physicsAttributesFromJson env jsonConfig
       (initRecord env this (PhysicsStageAttributes_create sceneFilename))).

(** The world in which the JSON file-based pipeline registers: the one
    after the loop over "rigid object paths". *)
Definition afterSceneConfig (sceneFilename : string) (jsonConfig : Json)
    (w : World) : World :=
  match json.member jsonConfig "rigid object paths" with
  | Some (JArray paths) =>
      afterRigidObjectPaths
        (Str.substr0 sceneFilename (Str.find_last_of sceneFilename "/"))
        0 paths w
  | _ => w
  end.


(** ** Sample worlds

    A small environment, manager and world on which the statements below
    are tried: the peer knows the primitive "cubeSolid", the files on disk
    are the ones listed, and the documents are the ones given. *)

Definition sampleEnvironment (files : list string)
    (documents : list (string * Json)) : Environment :=
  {| peer_isValidPrimitiveAttributes := λ _ handle,
       String.eqb handle "cubeSolid";
     physicsAttributesManager_ := ∅;
     isValidFileName := λ handle, existsb (String.eqb handle) files;
     Directory_exists := λ path, existsb (String.eqb path) files;
     verifyLoadJson := λ filename, json.findMember filename documents;
     NO_LIGHT_KEY := "no_lights";
     physicsAttributesFromJson := λ _ a, a;
     jsonAssetHandleAndType := λ _ _ _ _ assetName, (false, assetName, None) |}.

Definition sampleManager (filepaths : gmap string string)
  : StageAttributesManager :=
  {| cfgLightSetup_ := "no_lights"; cfgFrustrumCulling_ := false;
     cfgFilepaths_ := filepaths; physicsManagerAttributesHandle_ := "" |}.

Definition emptyWorld : World :=
  {| registry := {| objects := ∅; templateLibrary_ := ∅ |};
     objectConfigsLoaded := []; logged := [] |}.

(** A stage record with the given render and collision asset handles. *)
Definition sampleRecord (render collision : string) : PhysicsStageAttributes :=
  setCollisionAssetHandle collision
    (setRenderAssetHandle render (PhysicsStageAttributes_create "stage")).

(** A registry of one template, registered as "box.glb" with ID 0, whose
    stored copy (content "box") is at address 0; the caller holds another
    record (content "chair") at address 1.  The content of a record is a
    string here; the registry does not look into it. *)
Definition sampleRegistry : Registry string :=
  {| objects := <[1 := "chair"]> {[0 := "box"]};
     templateLibrary_ := {["box.glb" := (0, 0)]} |}.

(** A stage configuration with a lighting entry and a list of object paths
    whose second entry is not a string. *)
Definition sampleSceneConfig : Json :=
  JObject [("lighting setup", JString "custom");
           ("rigid object paths",
            JArray [JString "objects"; JBool true; JString "more"])].

(** A stage configuration that overrides the navmesh and the gravity. *)
Definition sampleOverrides : Json :=
  JObject [("nav mesh", JString "castle.navmesh");
           ("gravity", JArray [JNumber (0#1)%Q; JNumber (0#1)%Q;
                               JNumber (-5#1)%Q]);
           ("origin", JString "nowhere")].

(** An environment whose [setJSONAssetHandleAndType] reports the string
    under the handle tag, joined to the record's directory, and hands the
    unknown type to the setter. *)
Definition sampleSemanticEnvironment (files : list string)
    (documents : list (string * Json)) : Environment :=
  {| peer_isValidPrimitiveAttributes := λ _ handle,
       String.eqb handle "cubeSolid";
     physicsAttributesManager_ := ∅;
     isValidFileName := λ handle, existsb (String.eqb handle) files;
     Directory_exists := λ path, existsb (String.eqb path) files;
     verifyLoadJson := λ filename, json.findMember filename documents;
     NO_LIGHT_KEY := "no_lights";
     physicsAttributesFromJson := λ _ a, a;
     jsonAssetHandleAndType := λ a doc _ handleTag assetName,
       match json.jsonIntoVal_string doc handleTag with
       | Some name =>
           (true, Directory.join (getFileDirectory a) name, Some UNKNOWN)
       | None => (false, assetName, None)
       end |}.

Definition sampleSemanticConfig : Json :=
  JObject [("semantic mesh", JString "castle_rooms.ply")].

(** An environment whose physics manager has a template under the handle
    that [sampleManager] names. *)
Definition samplePhysicsEnvironment : Environment :=
  {| peer_isValidPrimitiveAttributes := λ _ handle,
       String.eqb handle "cubeSolid";
     physicsAttributesManager_ :=
       {["" := {| pm_getGravity := (0#1, -98#10, 0#1)%Q;
                  pm_getFrictionCoefficient := (4#10)%Q;
                  pm_getRestitutionCoefficient := (1#10)%Q |}]};
     isValidFileName := λ _, false;
     Directory_exists := λ _, false;
     verifyLoadJson := λ _, None;
     NO_LIGHT_KEY := "no_lights";
     physicsAttributesFromJson := λ _ a, a;
     jsonAssetHandleAndType := λ _ _ _ _ assetName, (false, assetName, None) |}.



(** * Properties *)

(** ** Running computations *)

Lemma bind_assoc {S T U V} (m : State S T) (f : T → State S U)
    (g : U → State S V) (s : S) :
  bind (bind m f) g s = bind m (λ x, bind (f x) g) s.
Proof. unfold bind. destruct (m s) as [[x s']|]; reflexivity. Qed.

Lemma bind_ret_l {S T U} (x : T) (f : T → State S U) (s : S) :
  bind (ret x) f s = f x s.
Proof. reflexivity. Qed.

Lemma bind_ret_r {S T} (m : State S T) (s : S) : bind m ret s = m s.
Proof. unfold bind, ret. destruct (m s) as [[x s']|]; reflexivity. Qed.

Lemma bind_gets {S T U} (f : S → T) (k : T → State S U) (s : S) :
  bind (gets f) k s = k (f s) s.
Proof. reflexivity. Qed.

Lemma bind_update {S U} (f : S → S) (k : unit → State S U) (s : S) :
  bind (update f) k s = k tt (f s).
Proof. reflexivity. Qed.

(** ** The registry *)

Section RegistryFacts.

Context {A : Type}.
Implicit Types (r : Registry A) (p q : ptr) (a : A) (handle : string).

Lemma fresh_object_None r : objects r !! fresh (dom (objects r)) = None.
Proof. apply not_elem_of_dom, is_fresh. Qed.

Lemma fresh_object_ne r p a :
  objects r !! p = Some a → fresh (dom (objects r)) ≠ p.
Proof. intros Hp Heq. rewrite <- Heq, fresh_object_None in Hp. done. Qed.

Lemma alloc_run r a :
  alloc a r
  = Some (fresh (dom (objects r)),
          setObjects (<[fresh (dom (objects r)) := a]> (objects r)) r).
Proof. reflexivity. Qed.

Lemma deref_run r p a : objects r !! p = Some a → deref p r = Some (a, r).
Proof. intros Hp. unfold deref. by rewrite Hp. Qed.

Lemma modify_run r p a (f : A → A) :
  objects r !! p = Some a →
  modify p f r = Some (tt, setObjects (<[p := f a]> (objects r)) r).
Proof. intros Hp. unfold modify. by rewrite Hp. Qed.

Lemma copyAttributes_run r p a :
  objects r !! p = Some a →
  copyAttributes p r
  = Some (fresh (dom (objects r)),
          setObjects (<[fresh (dom (objects r)) := a]> (objects r)) r).
Proof.
  intros Hp. unfold copyAttributes, bind. by rewrite (deref_run _ _ _ Hp).
Qed.

(** The registry after [attributesTemplate], holding [a], is added under
    [handle]. *)
Lemma addTemplateToLibrary_run r p a handle :
  objects r !! p = Some a →
  addTemplateToLibrary p handle r
  = Some (Z.of_nat (getTemplateID handle r),
          {| objects := <[fresh (dom (objects r)) := a]> (objects r);
             templateLibrary_ :=
               <[handle := (getTemplateID handle r,
                            fresh (dom (objects r)))]>
                 (templateLibrary_ r) |}).
Proof.
  intros Hp. unfold addTemplateToLibrary.
  rewrite bind_gets. unfold bind.
  by rewrite (copyAttributes_run _ _ _ Hp).
Qed.

Lemma getTemplateByHandle_run r handle id stored a :
  templateLibrary_ r !! handle = Some (id, stored) →
  objects r !! stored = Some a →
  getTemplateByHandle handle r
  = Some (Some (fresh (dom (objects r))),
          setObjects (<[fresh (dom (objects r)) := a]> (objects r)) r).
Proof.
  intros Hh Hs. unfold getTemplateByHandle.
  rewrite bind_gets, Hh. unfold bind.
  by rewrite (copyAttributes_run _ _ _ Hs).
Qed.

Lemma getTemplateByHandle_missing r handle :
  templateLibrary_ r !! handle = None →
  getTemplateByHandle handle r = Some (None, r).
Proof.
  intros Hh. unfold getTemplateByHandle. by rewrite bind_gets, Hh.
Qed.

(** The IDs in use are below the next unused ID. *)
Lemma nextTemplateID_fresh (lib : gmap string (nat * ptr)) handle id stored :
  lib !! handle = Some (id, stored) → id < nextTemplateID lib.
Proof.
  intros Hh. apply elem_of_map_to_list in Hh.
  unfold nextTemplateID. induction (map_to_list lib) as [|e l IH].
  - by apply elem_of_nil in Hh.
  - apply elem_of_cons in Hh as [<-|Hin]; simpl; [lia|].
    specialize (IH Hin). lia.
Qed.

Lemma getTemplateID_ne_UNDEFINED handle r :
  Z.of_nat (getTemplateID handle r) ≠ ID_UNDEFINED.
Proof. unfold ID_UNDEFINED. lia. Qed.

End RegistryFacts.

(** ** Registration and reading back (spec §4.1) *)

Section RegistryTheorems.

Context {A : Type}.
Implicit Types (r : Registry A) (p q : ptr) (a : A) (handle : string).

(** Adding under a handle the library has: the ID of the entry is kept,
    the entry now holds a new copy of the caller's record, and no other
    entry changes. *)
Lemma addTemplateToLibrary_present r handle id stored p a :
  templateLibrary_ r !! handle = Some (id, stored) →
  objects r !! p = Some a →
  ∃ r' stored',
    addTemplateToLibrary p handle r = Some (Z.of_nat id, r') ∧
    templateLibrary_ r' !! handle = Some (id, stored') ∧
    objects r' !! stored' = Some a ∧
    objects r' !! p = Some a ∧
    dom (templateLibrary_ r') = dom (templateLibrary_ r) ∧
    ∀ other, other ≠ handle →
      templateLibrary_ r' !! other = templateLibrary_ r !! other.
Proof.
  intros Hh Hp. eexists _, _.
  split; [rewrite (addTemplateToLibrary_run _ _ _ _ Hp) |].
  { unfold getTemplateID. rewrite Hh. reflexivity. }
  cbn. split; [apply lookup_insert_eq|].
  split; [apply lookup_insert_eq|].
  split; [by rewrite lookup_insert_ne by (by eapply fresh_object_ne)|].
  split.
  - rewrite dom_insert_L. apply elem_of_dom_2 in Hh.
    apply subseteq_union_1_L, singleton_subseteq_l, Hh.
  - intros other Hne. by rewrite lookup_insert_ne.
Qed.

(** Adding under a handle the library lacks: the next unused ID. *)
Lemma addTemplateToLibrary_absent r handle p a :
  templateLibrary_ r !! handle = None →
  objects r !! p = Some a →
  ∃ r' stored',
    addTemplateToLibrary p handle r
    = Some (Z.of_nat (nextTemplateID (templateLibrary_ r)), r') ∧
    templateLibrary_ r' !! handle
    = Some (nextTemplateID (templateLibrary_ r), stored') ∧
    objects r' !! stored' = Some a ∧
    (∀ q b, objects r !! q = Some b → objects r' !! q = Some b) ∧
    ∀ other, other ≠ handle →
      templateLibrary_ r' !! other = templateLibrary_ r !! other.
Proof.
  intros Hh Hp. eexists _, _.
  split; [rewrite (addTemplateToLibrary_run _ _ _ _ Hp) |].
  { unfold getTemplateID. rewrite Hh. reflexivity. }
  cbn. split; [apply lookup_insert_eq|].
  split; [apply lookup_insert_eq|].
  split.
  - intros q b Hq. by rewrite lookup_insert_ne by (by eapply fresh_object_ne).
  - intros other Hne. by rewrite lookup_insert_ne.
Qed.

(** Reading a registered handle gives a new object with the stored
    content, and leaves the library as it is. *)
Lemma getTemplateByHandle_copy r handle id stored a :
  templateLibrary_ r !! handle = Some (id, stored) →
  objects r !! stored = Some a →
  ∃ copy r',
    getTemplateByHandle handle r = Some (Some copy, r') ∧
    objects r' !! copy = Some a ∧
    copy ≠ stored ∧
    objects r !! copy = None ∧
    templateLibrary_ r' = templateLibrary_ r ∧
    ∀ q b, objects r !! q = Some b → objects r' !! q = Some b.
Proof.
  intros Hh Hs. eexists _, _.
  split; [apply (getTemplateByHandle_run _ _ _ _ _ Hh Hs)|].
  cbn. split; [apply lookup_insert_eq|].
  split; [by eapply fresh_object_ne|].
  split; [apply fresh_object_None|].
  split; [done|].
  intros q b Hq. by rewrite lookup_insert_ne by (by eapply fresh_object_ne).
Qed.

Lemma registry_wf_stored r handle id stored :
  registry_wf r →
  templateLibrary_ r !! handle = Some (id, stored) →
  ∃ a, objects r !! stored = Some a.
Proof. intros Hwf Hh. exact (Hwf _ _ _ Hh). Qed.

(** Registration, reading and changing an object keep the library's
    copies alive. *)
Lemma registry_wf_add r r' handle p id :
  registry_wf r →
  addTemplateToLibrary p handle r = Some (id, r') →
  registry_wf r'.
Proof.
  intros Hwf Hadd. destruct (objects r !! p) as [a|] eqn:Hp.
  - rewrite (addTemplateToLibrary_run _ _ _ _ Hp) in Hadd.
    injection Hadd as _ <-. intros h i s. cbn.
    rewrite lookup_insert. case_decide as Hd.
    + intros [= _ <-]. rewrite lookup_insert_eq. eauto.
    + intros Hh. destruct (Hwf _ _ _ Hh) as [b Hb].
      rewrite lookup_insert_ne by (by eapply fresh_object_ne). eauto.
  - unfold addTemplateToLibrary, copyAttributes, deref in Hadd.
    rewrite bind_gets in Hadd. unfold bind in Hadd.
    by rewrite Hp in Hadd.
Qed.

Lemma registry_wf_modify r r' p (f : A → A) :
  registry_wf r → modify p f r = Some (tt, r') → registry_wf r'.
Proof.
  intros Hwf Hm. unfold modify in Hm.
  destruct (objects r !! p) as [a|] eqn:Hp; [|done].
  injection Hm as <-. intros h i s Hh. cbn in *.
  destruct (Hwf _ _ _ Hh) as [b Hb].
  rewrite lookup_insert. case_decide; eauto.
Qed.

(** The two answers to a substring query. *)
Lemma handles_by_substring_Permutation r subStr :
  getTemplateHandlesBySubstring subStr true r
    ++ getTemplateHandlesBySubstring subStr false r
  ≡ₚ getTemplateHandles r.
Proof.
  unfold getTemplateHandlesBySubstring.
  rewrite (list_filter_iff (λ handle, handleMatches subStr handle = false)
                           (λ handle, ¬ handleMatches subStr handle = true)).
  - apply filter_app_complement.
  - intros handle. destruct (handleMatches subStr handle); naive_solver.
Qed.

Lemma getTemplateHandles_NoDup r : NoDup (getTemplateHandles r).
Proof. apply NoDup_fst_map_to_list. Qed.

Lemma elem_of_getTemplateHandles r handle :
  handle ∈ getTemplateHandles r ↔ is_Some (templateLibrary_ r !! handle).
Proof.
  unfold getTemplateHandles. rewrite list_elem_of_fmap. split.
  - intros [[h e] [-> Hin]]. apply elem_of_map_to_list in Hin. eauto.
  - intros [e He]. exists (handle, e). split; [done|].
    by apply elem_of_map_to_list.
Qed.

End RegistryTheorems.

Lemma tolower_idemp c : Str.tolower (Str.tolower c) = Str.tolower c.
Proof.
  destruct c as [[] [] [] [] [] [] [] []]; vm_compute; reflexivity.
Qed.

Lemma lowercase_idemp s : Str.lowercase (Str.lowercase s) = Str.lowercase s.
Proof. induction s as [|c s IH]; simpl; [done|]. by rewrite tolower_idemp, IH. Qed.

Lemma contains_empty s : Str.contains s "" = true.
Proof. unfold Str.contains, Str.find. by destruct s. Qed.

(** C3.  Idempotent identity: registering a record under a handle that the
    registry already has returns the ID the handle had (no new ID appears,
    and no other entry changes), the entry then holds the content just
    registered, and reading the handle back returns that content. *)
Theorem register_present_handle_same_id {A : Type} (r : Registry A)
    (handle : string) (id : nat) (stored p : ptr) (a : A) :
  templateLibrary_ r !! handle = Some (id, stored) →
  objects r !! p = Some a →
  ∃ r' stored',
    addTemplateToLibrary p handle r = Some (Z.of_nat id, r') ∧
    templateLibrary_ r' !! handle = Some (id, stored') ∧
    objects r' !! stored' = Some a ∧
    dom (templateLibrary_ r') = dom (templateLibrary_ r) ∧
    (∀ other, other ≠ handle →
       templateLibrary_ r' !! other = templateLibrary_ r !! other) ∧
    ∃ copy r'',
      getTemplateByHandle handle r' = Some (Some copy, r'') ∧
      objects r'' !! copy = Some a.
Proof.
  intros Hh Hp.
  destruct (addTemplateToLibrary_present r handle id stored p a Hh Hp)
    as (r' & stored' & Hrun & Hlib & Hobj & _ & Hdom & Hothers).
  exists r', stored'. repeat (split; [assumption|]).
  destruct (getTemplateByHandle_copy r' handle id stored' a Hlib Hobj)
    as (copy & r'' & Hget & Hcopy & _).
  by exists copy, r''.
Qed.

Lemma register_present_handle_same_id_witness :
  templateLibrary_ sampleRegistry !! "box.glb" = Some (0, 0)
  ∧ objects sampleRegistry !! 1 = Some "chair"
  ∧ ∃ r' copy r'',
      addTemplateToLibrary 1 "box.glb" sampleRegistry = Some (0%Z, r')
      ∧ getTemplateByHandle "box.glb" r' = Some (Some copy, r'')
      ∧ objects r'' !! copy = Some "chair".
Proof.
  split; [reflexivity|]. split; [reflexivity|].
  destruct (register_present_handle_same_id sampleRegistry "box.glb" 0 0 1
              "chair" eq_refl eq_refl)
    as (r' & stored' & Hrun & _ & _ & _ & _ & copy & r'' & Hget & Hcopy).
  by exists r', copy, r''.
Defined.

(** The same, told as the test does: two registrations under one handle,
    starting from any registry. *)
Lemma register_twice_same_id {A : Type} (r : Registry A) (handle : string)
    (p1 : ptr) (a1 : A) :
  objects r !! p1 = Some a1 →
  ∃ id r1,
    addTemplateToLibrary p1 handle r = Some (Z.of_nat id, r1) ∧
    ∀ p2 a2, objects r1 !! p2 = Some a2 →
      ∃ r2 copy r3,
        addTemplateToLibrary p2 handle r1 = Some (Z.of_nat id, r2) ∧
        getTemplateByHandle handle r2 = Some (Some copy, r3) ∧
        objects r3 !! copy = Some a2.
Proof.
  intros Hp1.
  assert (∃ id r1 stored1,
            addTemplateToLibrary p1 handle r = Some (Z.of_nat id, r1) ∧
            templateLibrary_ r1 !! handle = Some (id, stored1))
    as (id & r1 & stored1 & Hrun1 & Hlib1).
  { destruct (templateLibrary_ r !! handle) as [[id stored]|] eqn:Hh.
    - destruct (addTemplateToLibrary_present r handle id stored p1 a1 Hh Hp1)
        as (r1 & stored1 & ? & ? & _). by exists id, r1, stored1.
    - destruct (addTemplateToLibrary_absent r handle p1 a1 Hh Hp1)
        as (r1 & stored1 & ? & ? & _). by eexists _, r1, stored1. }
  exists id, r1. split; [assumption|]. intros p2 a2 Hp2.
  destruct (addTemplateToLibrary_present r1 handle id stored1 p2 a2 Hlib1 Hp2)
    as (r2 & stored2 & Hrun2 & Hlib2 & Hobj2 & _).
  destruct (getTemplateByHandle_copy r2 handle id stored2 a2 Hlib2 Hobj2)
    as (copy & r3 & Hget & Hcopy & _).
  by exists r2, copy, r3.
Qed.

(** C4.  Copy isolation: the record that [getTemplateByHandle] returns is
    an object of its own.  Changing it leaves the library and the stored
    record as they were, so reading the handle again gives the content from
    before the change; once the changed copy is registered under the handle,
    reading gives the changed content. *)
Theorem getTemplateByHandle_copy_isolation {A : Type} (r : Registry A)
    (handle : string) (id : nat) (stored : ptr) :
  registry_wf r →
  templateLibrary_ r !! handle = Some (id, stored) →
  ∃ a copy r1,
    objects r !! stored = Some a ∧
    getTemplateByHandle handle r = Some (Some copy, r1) ∧
    objects r1 !! copy = Some a ∧
    ∀ mutation : A → A,
      ∃ r2,
        modify copy mutation r1 = Some (tt, r2) ∧
        objects r2 !! copy = Some (mutation a) ∧
        templateLibrary_ r2 = templateLibrary_ r ∧
        objects r2 !! stored = Some a ∧
        (∃ again r3,
           getTemplateByHandle handle r2 = Some (Some again, r3) ∧
           objects r3 !! again = Some a) ∧
        (∃ r4 again r5,
           addTemplateToLibrary copy handle r2 = Some (Z.of_nat id, r4) ∧
           getTemplateByHandle handle r4 = Some (Some again, r5) ∧
           objects r5 !! again = Some (mutation a)).
Proof.
  intros Hwf Hh. destruct (registry_wf_stored r handle id stored Hwf Hh)
    as [a Hs].
  destruct (getTemplateByHandle_copy r handle id stored a Hh Hs)
    as (copy & r1 & Hget & Hcopy & Hne & _ & Hlib1 & Hkeep1).
  exists a, copy, r1. repeat (split; [assumption|]). intros mutation.
  eexists. split; [apply (modify_run _ _ _ _ Hcopy)|]. cbn.
  assert (<[copy:=mutation a]> (objects r1) !! stored = Some a) as Hs2.
  { rewrite lookup_insert_ne by done. by apply Hkeep1. }
  split; [apply lookup_insert_eq|]. split; [assumption|].
  split; [assumption|]. split.
  - set (r2 := setObjects (<[copy:=mutation a]> (objects r1)) r1).
    assert (templateLibrary_ r2 !! handle = Some (id, stored)) as Hh2
      by (cbn; by rewrite Hlib1).
    destruct (getTemplateByHandle_copy r2 handle id stored a Hh2 Hs2)
      as (again & r3 & Hget3 & Hagain & _).
    by exists again, r3.
  - set (r2 := setObjects (<[copy:=mutation a]> (objects r1)) r1).
    assert (templateLibrary_ r2 !! handle = Some (id, stored)) as Hh2
      by (cbn; by rewrite Hlib1).
    assert (objects r2 !! copy = Some (mutation a)) as Hc2
      by apply lookup_insert_eq.
    destruct (addTemplateToLibrary_present r2 handle id stored copy
                (mutation a) Hh2 Hc2)
      as (r4 & stored4 & Hrun4 & Hlib4 & Hobj4 & _).
    destruct (getTemplateByHandle_copy r4 handle id stored4 (mutation a)
                Hlib4 Hobj4)
      as (again & r5 & Hget5 & Hagain & _).
    by exists r4, again, r5.
Qed.

Lemma sampleRegistry_wf : registry_wf sampleRegistry.
Proof.
  intros handle id stored Hh.
  change (templateLibrary_ sampleRegistry)
    with ({["box.glb" := (0, 0)]} : gmap string (nat * ptr)) in Hh.
  apply lookup_singleton_Some in Hh as [_ [= _ <-]]. by eexists.
Qed.

Lemma getTemplateByHandle_copy_isolation_witness :
  registry_wf sampleRegistry
  ∧ templateLibrary_ sampleRegistry !! "box.glb" = Some (0, 0)
  ∧ ∃ copy r1 r2 again r3,
      getTemplateByHandle "box.glb" sampleRegistry = Some (Some copy, r1)
      ∧ modify copy (λ content, content ++ ", edited") r1 = Some (tt, r2)
      ∧ getTemplateByHandle "box.glb" r2 = Some (Some again, r3)
      ∧ objects r3 !! again = Some "box".
Proof.
  split; [exact sampleRegistry_wf|]. split; [reflexivity|].
  destruct (getTemplateByHandle_copy_isolation sampleRegistry "box.glb" 0 0
              sampleRegistry_wf eq_refl)
    as (a & copy & r1 & Hstored & Hget & _ & Hmut).
  destruct (Hmut (λ content, content ++ ", edited"))
    as (r2 & Hmod & _ & _ & _ & (again & r3 & Hget2 & Hagain) & _).
  exists copy, r1, r2, again, r3. repeat (split; [assumption|]).
  rewrite Hagain, <- Hstored. reflexivity.
Defined.

(** The other half of the test: the library keeps its own copy, so a change
    the caller makes to the object it registered does not reach the
    library. *)
Lemma register_then_mutate_isolated {A : Type} (r : Registry A)
    (handle : string) (p : ptr) (a : A) (mutation : A → A) :
  objects r !! p = Some a →
  ∃ id r1 r2 copy r3,
    addTemplateToLibrary p handle r = Some (id, r1) ∧
    modify p mutation r1 = Some (tt, r2) ∧
    objects r2 !! p = Some (mutation a) ∧
    getTemplateByHandle handle r2 = Some (Some copy, r3) ∧
    objects r3 !! copy = Some a.
Proof.
  intros Hp.
  pose proof (addTemplateToLibrary_run r p a handle Hp) as Hadd.
  set (q := fresh (dom (objects r))) in *.
  set (r1 := {| objects := <[q:=a]> (objects r);
                templateLibrary_ :=
                  <[handle:=(getTemplateID handle r, q)]>
                    (templateLibrary_ r) |}) in *.
  assert (q ≠ p) as Hne by (by eapply fresh_object_ne).
  assert (objects r1 !! p = Some a) as Hp1
    by (cbn; by rewrite lookup_insert_ne).
  pose proof (modify_run r1 p a mutation Hp1) as Hmod.
  set (r2 := setObjects (<[p:=mutation a]> (objects r1)) r1) in *.
  assert (templateLibrary_ r2 !! handle = Some (getTemplateID handle r, q))
    as Hlib2 by apply lookup_insert_eq.
  assert (objects r2 !! q = Some a) as Hq2.
  { cbn. rewrite lookup_insert_ne by done. apply lookup_insert_eq. }
  destruct (getTemplateByHandle_copy r2 handle _ q a Hlib2 Hq2)
    as (copy & r3 & Hget & Hcopy & _).
  exists (Z.of_nat (getTemplateID handle r)), r1, r2, copy, r3.
  repeat (split; [assumption|]).
  split; [apply lookup_insert_eq|]. by split.
Qed.

(** C6.  The two answers to a substring query split the handles of the
    registry: together they are a rearrangement of all handles, no handle
    is in both, a handle is in the first exactly when its lower-case form
    contains the lower-case form of the substring (so the case of either
    does not matter), and the empty substring selects every handle. *)
Theorem handles_by_substring_partition {A : Type} (r : Registry A)
    (subStr : string) :
  getTemplateHandlesBySubstring subStr true r
    ++ getTemplateHandlesBySubstring subStr false r
  ≡ₚ getTemplateHandles r ∧
  (∀ handle,
     handle ∈ getTemplateHandlesBySubstring subStr true r
     ∨ handle ∈ getTemplateHandlesBySubstring subStr false r
     ↔ is_Some (templateLibrary_ r !! handle)) ∧
  (∀ handle,
     ¬ (handle ∈ getTemplateHandlesBySubstring subStr true r
        ∧ handle ∈ getTemplateHandlesBySubstring subStr false r)) ∧
  NoDup (getTemplateHandlesBySubstring subStr true r
           ++ getTemplateHandlesBySubstring subStr false r) ∧
  (∀ handle,
     handle ∈ getTemplateHandlesBySubstring subStr true r
     ↔ is_Some (templateLibrary_ r !! handle)
       ∧ Str.contains (Str.lowercase handle) (Str.lowercase subStr) = true) ∧
  (∀ contains,
     getTemplateHandlesBySubstring (Str.lowercase subStr) contains r
     = getTemplateHandlesBySubstring subStr contains r) ∧
  getTemplateHandlesBySubstring "" true r = getTemplateHandles r ∧
  getTemplateHandlesBySubstring "" false r = [].
Proof.
  pose proof (handles_by_substring_Permutation r subStr) as Hperm.
  split; [exact Hperm|]. split.
  { intros handle. rewrite <- elem_of_getTemplateHandles, <- Hperm.
    by rewrite elem_of_app. }
  split.
  { intros handle [Ht Hf]. unfold getTemplateHandlesBySubstring in *.
    apply list_elem_of_filter in Ht as [Ht _].
    apply list_elem_of_filter in Hf as [Hf _]. congruence. }
  split.
  { rewrite Hperm. apply getTemplateHandles_NoDup. }
  split.
  { intros handle. unfold getTemplateHandlesBySubstring.
    rewrite list_elem_of_filter, elem_of_getTemplateHandles.
    unfold handleMatches. tauto. }
  split.
  { intros contains. unfold getTemplateHandlesBySubstring, handleMatches.
    by rewrite lowercase_idemp. }
  split.
  - clear Hperm. unfold getTemplateHandlesBySubstring, handleMatches. cbn.
    induction (getTemplateHandles r) as [|h l IH]; [done|].
    rewrite filter_cons. rewrite decide_True by apply contains_empty.
    by rewrite IH.
  - clear Hperm. unfold getTemplateHandlesBySubstring, handleMatches. cbn.
    induction (getTemplateHandles r) as [|h l IH]; [done|].
    rewrite filter_cons. rewrite decide_False; [done|].
    by rewrite contains_empty.
Qed.

(** ** Running the stage manager on a known record *)

Lemma bind_Some {S T U} (m : State S T) (k : T → State S U) (s s' : S)
    (x : T) :
  m s = Some (x, s') → bind m k s = k x s'.
Proof. intros H. unfold bind. by rewrite H. Qed.

Lemma store_id p a w : objects (registry w) !! p = Some a → store p a w = w.
Proof.
  intros H. unfold store, setRegistry, setObjects. cbn.
  by rewrite (insert_id _ _ _ H).
Qed.

Lemma store_store p a b w : store p a (store p b w) = store p a w.
Proof.
  unfold store, setRegistry, setObjects. cbn. by rewrite insert_insert_eq.
Qed.

Lemma store_lookup p a w : objects (registry (store p a w)) !! p = Some a.
Proof. apply lookup_insert_eq. Qed.

Lemma read_store {T} p (g : PhysicsStageAttributes → T) a w :
  read p g (store p a w) = Some (g a, store p a w).
Proof.
  unfold read, inRegistry, bind.
  by rewrite (deref_run _ _ _ (store_lookup p a w)).
Qed.

Lemma call_store p f a w : call p f (store p a w) = Some (tt, store p (f a) w).
Proof.
  unfold call, inRegistry.
  rewrite (modify_run _ _ _ _ (store_lookup p a w)).
  unfold store, setRegistry, setObjects. cbn. by rewrite insert_insert_eq.
Qed.

Lemma run_read {T U} p (g : PhysicsStageAttributes → T) (k : T → M U) a w :
  bind (read p g) k (store p a w) = k (g a) (store p a w).
Proof. apply bind_Some, read_store. Qed.

Lemma run_call {U} p f (k : unit → M U) a w :
  bind (call p f) k (store p a w) = k tt (store p (f a) w).
Proof. apply bind_Some, call_store. Qed.

Lemma run_if_call {U} (c : bool) p f (k : unit → M U) a w :
  bind (if c then call p f else ret tt) k (store p a w)
  = k tt (store p (if c then f a else a) w).
Proof. destruct c; [apply run_call | reflexivity]. Qed.

Lemma run_option_call {T U} (o : option T) p
    (f : T → PhysicsStageAttributes → PhysicsStageAttributes)
    (k : unit → M U) a w :
  bind (match o with Some v => call p (f v) | None => ret tt end) k
       (store p a w)
  = k tt (store p (match o with Some v => f v a | None => a end) w).
Proof. destruct o; [apply run_call | reflexivity]. Qed.

Lemma run_LOG {U} severity msg (k : unit → M U) p a w :
  bind (LOG severity msg) k (store p a w)
  = k tt (store p a (setLogged (logged w ++ [(severity, msg)]) w)).
Proof. reflexivity. Qed.

Lemma run_isValidPrimitiveAttributes {U} env handle (k : bool → M U) p a w :
  bind (isValidPrimitiveAttributes env handle) k (store p a w)
  = k (peer_isValidPrimitiveAttributes env (objectConfigsLoaded w) handle)
      (store p a w).
Proof. reflexivity. Qed.

Lemma run_loadObjectConfigs {U} path recurse (k : unit → M U) p a w :
  bind (loadObjectConfigs path recurse) k (store p a w)
  = k tt (store p a (setObjectConfigsLoaded
                       (objectConfigsLoaded w ++ [(path, recurse)]) w)).
Proof. reflexivity. Qed.

Lemma run_create {U} handle (k : ptr → M U) w :
  bind (create handle) k w
  = k (fresh (dom (objects (registry w))))
      (store (fresh (dom (objects (registry w))))
             (PhysicsStageAttributes_create handle) w).
Proof. reflexivity. Qed.

Lemma run_addTemplateToLibrary {U} p handle (k : Z → M U) a w :
  bind (inRegistry (addTemplateToLibrary p handle)) k (store p a w)
  = k (Z.of_nat (getTemplateID handle (registry w)))
      (inserted handle (getTemplateID handle (registry w))
                (fresh (dom (objects (registry (store p a w))))) a
                (store p a w)).
Proof.
  apply bind_Some. unfold inRegistry.
  by rewrite (addTemplateToLibrary_run _ _ _ handle (store_lookup p a w)).
Qed.

Ltac run_step :=
  first [ rewrite bind_assoc
        | rewrite bind_ret_l
        | rewrite run_read
        | rewrite run_call
        | rewrite run_if_call
        | rewrite run_option_call
        | rewrite run_LOG
        | rewrite run_isValidPrimitiveAttributes
        | rewrite run_loadObjectConfigs
        | rewrite run_addTemplateToLibrary
        | progress cbv beta iota ].

Ltac run := repeat run_step.

Lemma setDefaultFileNameBasedAttributes_store p setFrame fileName
    (setType : AssetType → PhysicsStageAttributes → PhysicsStageAttributes)
    a w :
  setDefaultFileNameBasedAttributes p setFrame fileName
    (λ t, call p (setType t)) (store p a w)
  = Some (tt, store p (defaultFileNameBased setFrame fileName setType a) w).
Proof.
  unfold setDefaultFileNameBasedAttributes, defaultFileNameBased,
    fileNameAssetType, fileNameFrame.
  destruct (Str.endsWith fileName "_semantic.ply");
    [|destruct (Str.endsWith fileName "mesh.ply");
      [|destruct (Str.endsWith fileName "house.json");
        [|destruct (Str.endsWith fileName ".glb")]]];
    run; (destruct setFrame; [run; apply call_store | reflexivity]).
Qed.

Lemma initNewAttribsInternal_store env this p a w :
  initNewAttribsInternal env this p (store p a w)
  = Some (p, store p (initRecord env this a) w).
Proof.
  unfold initNewAttribsInternal, setFileDirectoryFromHandle, initRecord,
    houseChosen, houseCandidate, navmeshCandidate.
  run.
  rewrite (bind_Some _ _ _ _ _
             (setDefaultFileNameBasedAttributes_store _ _ _ _ _ _)).
  run.
  rewrite (bind_Some _ _ _ _ _
             (setDefaultFileNameBasedAttributes_store _ _ _ _ _ _)).
  run.
  rewrite (bind_Some _ _ _ _ _
             (setDefaultFileNameBasedAttributes_store _ _ _ _ _ _)).
  destruct (physicsAttributesManager_ env
            !! physicsManagerAttributesHandle_ this); run; reflexivity.
Qed.

(** The outcome of finalization on a known record: the function and its
    summary agree.  [l] are the lines it writes to the log. *)
Lemma registerAttributesTemplateFinalize_store env p handle a w :
  ∃ l,
    registerAttributesTemplateFinalize env p handle (store p a w)
    = Some
        match finalRecord env (objectConfigsLoaded w) handle a with
        | None => (ID_UNDEFINED, store p a (setLogged (logged w ++ l) w))
        | Some a' =>
            (Z.of_nat (getTemplateID handle (registry w)),
             inserted handle (getTemplateID handle (registry w))
                      (fresh (dom (objects (registry (store p a' w))))) a'
                      (store p a' (setLogged (logged w ++ l) w)))
        end.
Proof.
  unfold registerAttributesTemplateFinalize, finalRecord.
  rewrite run_read.
  destruct (String.eqb (getRenderAssetHandle a) "").
  { eexists [_]. run. reflexivity. }
  run.
  destruct (peer_isValidPrimitiveAttributes env (objectConfigsLoaded w)
              (getRenderAssetHandle a));
    [|destruct (isValidFileName env (getRenderAssetHandle a));
      [|destruct (Str.contains handle "NONE") eqn:Hnone;
        [|eexists [_]; run; reflexivity]]];
    run;
    (destruct (peer_isValidPrimitiveAttributes env (objectConfigsLoaded w)
                 (getCollisionAssetHandle a));
     [|destruct (isValidFileName env (getCollisionAssetHandle a));
       [|try (destruct (Str.contains handle "NONE"))]]);
    run;
    first [ exists []; rewrite app_nil_r; reflexivity
          | eexists [_]; reflexivity ].
Qed.

Lemma inserted_lookup_handle handle id q a w :
  templateLibrary_ (registry (inserted handle id q a w)) !! handle
  = Some (id, q).
Proof. apply lookup_insert_eq. Qed.

Lemma inserted_lookup_copy handle id q a w :
  objects (registry (inserted handle id q a w)) !! q = Some a.
Proof. apply lookup_insert_eq. Qed.

Lemma inserted_lookup_other handle id q a w p :
  q ≠ p →
  objects (registry (inserted handle id q a w)) !! p
  = objects (registry w) !! p.
Proof. intros Hne. by apply lookup_insert_ne. Qed.

Lemma dom_objects_store p a b w :
  objects (registry w) !! p = Some b →
  dom (objects (registry (store p a w))) = dom (objects (registry w)).
Proof.
  intros Hp. unfold store. cbn. rewrite dom_insert_L.
  apply elem_of_dom_2 in Hp.
  apply subseteq_union_1_L, singleton_subseteq_l, Hp.
Qed.

(** Finalization of the record behind a live pointer, in any world. *)
Lemma registerAttributesTemplateFinalize_run env p handle a w :
  objects (registry w) !! p = Some a →
  ∃ l,
    registerAttributesTemplateFinalize env p handle w
    = Some
        match finalRecord env (objectConfigsLoaded w) handle a with
        | None => (ID_UNDEFINED, setLogged (logged w ++ l) w)
        | Some a' =>
            (Z.of_nat (getTemplateID handle (registry w)),
             inserted handle (getTemplateID handle (registry w))
                      (fresh (dom (objects (registry w)))) a'
                      (store p a' (setLogged (logged w ++ l) w)))
        end.
Proof.
  intros Hp.
  destruct (registerAttributesTemplateFinalize_store env p handle a w)
    as [l Hrun].
  exists l. rewrite (store_id p a w Hp) in Hrun. rewrite Hrun.
  destruct (finalRecord env (objectConfigsLoaded w) handle a) as [a'|].
  - by rewrite (dom_objects_store p a' a w Hp).
  - f_equal. f_equal. apply (store_id p a). exact Hp.
Qed.

(** When the finalizer aborts. *)
Lemma finalRecord_None_iff env loaded handle a :
  finalRecord env loaded handle a = None
  ↔ getRenderAssetHandle a = ""
    ∨ (peer_isValidPrimitiveAttributes env loaded (getRenderAssetHandle a)
       = false
       ∧ isValidFileName env (getRenderAssetHandle a) = false
       ∧ Str.contains handle "NONE" = false).
Proof.
  unfold finalRecord.
  destruct (String.eqb_spec (getRenderAssetHandle a) "") as [He|He].
  { split; [by left | done]. }
  destruct (peer_isValidPrimitiveAttributes env loaded
              (getRenderAssetHandle a)),
    (isValidFileName env (getRenderAssetHandle a)),
    (Str.contains handle "NONE"); split; try done;
    try (intros [?|(? & ? & ?)]; done); by right.
Qed.

(** The fields that finalization leaves alone. *)
Lemma finalRecord_frame env loaded handle a a' :
  finalRecord env loaded handle a = Some a' →
  getHandle a' = getHandle a ∧
  getRenderAssetHandle a' = getRenderAssetHandle a ∧
  getLightSetup a' = getLightSetup a ∧
  getRequiresLighting a' = getRequiresLighting a ∧
  getNavmeshAssetHandle a' = getNavmeshAssetHandle a ∧
  getHouseFilename a' = getHouseFilename a ∧
  getSemanticAssetHandle a' = getSemanticAssetHandle a ∧
  getSemanticAssetType a' = getSemanticAssetType a ∧
  getUseMeshCollision a' = getUseMeshCollision a ∧
  getMargin a' = getMargin a.
Proof.
  unfold finalRecord. destruct a. cbn.
  repeat match goal with
         | |- context [if ?c then _ else _] => destruct c
         end;
    intros [= <-]; cbn; repeat split; reflexivity.
Qed.

(** Idempotent identity on the stage manager itself: an accepted
    registration under a handle that the library has returns the ID the
    handle had, and the library then holds the finalized record. *)
Lemma stage_register_present_handle env p handle a w id stored a' :
  objects (registry w) !! p = Some a →
  templateLibrary_ (registry w) !! handle = Some (id, stored) →
  finalRecord env (objectConfigsLoaded w) handle a = Some a' →
  ∃ w' stored',
    registerAttributesTemplate env p handle w = Some (Z.of_nat id, w') ∧
    templateLibrary_ (registry w') !! handle = Some (id, stored') ∧
    objects (registry w') !! stored' = Some a'.
Proof.
  intros Hp Hh Hfinal. unfold registerAttributesTemplate.
  destruct (registerAttributesTemplateFinalize_run env p handle a w Hp)
    as [l Hrun].
  rewrite Hfinal in Hrun.
  assert (getTemplateID handle (registry w) = id) as Hid
    by (unfold getTemplateID; by rewrite Hh).
  rewrite Hid in Hrun. eexists _, _. split; [exact Hrun|].
  split; [apply inserted_lookup_handle | apply inserted_lookup_copy].
Qed.

(** With the marker in the stage handle, an unresolvable render asset is
    accepted, with type unknown and the primitive flag off. *)
Lemma finalRecord_marker env loaded handle a :
  getRenderAssetHandle a ≠ "" →
  peer_isValidPrimitiveAttributes env loaded (getRenderAssetHandle a) = false →
  isValidFileName env (getRenderAssetHandle a) = false →
  Str.contains handle "NONE" = true →
  ∃ a', finalRecord env loaded handle a = Some a' ∧
        getRenderAssetType a' = UNKNOWN ∧
        getRenderAssetIsPrimitive a' = false.
Proof.
  intros He Hprim Hfile Hnone. unfold finalRecord.
  rewrite Hprim, Hfile, Hnone.
  destruct (String.eqb_spec (getRenderAssetHandle a) "") as [|_]; [done|].
  eexists. split; [reflexivity|]. destruct a. cbn.
  repeat match goal with
         | |- context [if ?c then _ else _] => destruct c
         end; cbn; split; reflexivity.
Qed.

(** What an accepted finalization leaves in the world. *)
Lemma inserted_facts handle id a' p a w l :
  objects (registry w) !! p = Some a →
  let q := fresh (dom (objects (registry w))) in
  let w' := inserted handle id q a' (store p a' (setLogged l w)) in
  templateLibrary_ (registry w') !! handle = Some (id, q) ∧
  objects (registry w) !! q = None ∧
  objects (registry w') !! q = Some a' ∧
  objects (registry w') !! p = Some a' ∧
  objectConfigsLoaded w' = objectConfigsLoaded w.
Proof.
  intros Hp q w'. split; [apply inserted_lookup_handle|].
  split; [apply fresh_object_None|].
  split; [apply inserted_lookup_copy|]. split; [|done].
  unfold w'. rewrite inserted_lookup_other by (by eapply fresh_object_ne).
  apply store_lookup.
Qed.

(** C1.  Finalization of a stage record returns [ID_UNDEFINED] exactly
    when the render asset handle is empty, or is neither a primitive known
    to the peer nor an existing file while the stage handle does not contain
    "NONE"; exactly then the registry is left as it was.  Otherwise the
    record is inserted under the stage handle.  With the marker present and
    the (non-empty) render handle unresolvable, the render asset type is
    set to unknown, the primitive flag to false, and the record is
    registered. *)
Theorem finalize_undefined_iff (env : Environment) (p : ptr)
    (handle : string) (w : World) (a : PhysicsStageAttributes) :
  objects (registry w) !! p = Some a →
  let rejected :=
    getRenderAssetHandle a = ""
    ∨ (peer_isValidPrimitiveAttributes env (objectConfigsLoaded w)
         (getRenderAssetHandle a) = false
       ∧ isValidFileName env (getRenderAssetHandle a) = false
       ∧ Str.contains handle "NONE" = false) in
  ∃ id w',
    registerAttributesTemplateFinalize env p handle w = Some (id, w') ∧
    (id = ID_UNDEFINED ↔ rejected) ∧
    (registry w' = registry w ↔ rejected) ∧
    (¬ rejected →
     ∃ stored a',
       templateLibrary_ (registry w') !! handle = Some (Z.to_nat id, stored) ∧
       (0 ≤ id)%Z ∧
       objects (registry w) !! stored = None ∧
       objects (registry w') !! stored = Some a' ∧
       objects (registry w') !! p = Some a') ∧
    (getRenderAssetHandle a ≠ "" →
     peer_isValidPrimitiveAttributes env (objectConfigsLoaded w)
       (getRenderAssetHandle a) = false →
     isValidFileName env (getRenderAssetHandle a) = false →
     Str.contains handle "NONE" = true →
     id ≠ ID_UNDEFINED ∧
     ∃ stored a',
       templateLibrary_ (registry w') !! handle = Some (Z.to_nat id, stored) ∧
       objects (registry w') !! stored = Some a' ∧
       objects (registry w') !! p = Some a' ∧
       getRenderAssetType a' = UNKNOWN ∧
       getRenderAssetIsPrimitive a' = false).
Proof.
  intros Hp rejected.
  destruct (registerAttributesTemplateFinalize_run env p handle a w Hp)
    as [l Hrun].
  pose proof (finalRecord_None_iff env (objectConfigsLoaded w) handle a)
    as Hnone. fold rejected in Hnone.
  pose proof (finalRecord_marker env (objectConfigsLoaded w) handle a)
    as Hmarker.
  destruct (finalRecord env (objectConfigsLoaded w) handle a) as [a'|]
    eqn:Hfinal.
  - assert (¬ rejected) as Hacc by (rewrite <- Hnone; done).
    destruct (inserted_facts handle (getTemplateID handle (registry w)) a'
                p a w (logged w ++ l) Hp)
      as (Hlib & Hnew & Hcopy & Hobj & _).
    eexists _, _. split; [exact Hrun|].
    split; [split; [intros Hid; unfold ID_UNDEFINED in Hid; lia | done]|].
    split.
    { split; [|done]. intros Heq. rewrite Heq in Hcopy. congruence. }
    split.
    { intros _. eexists _, a'. rewrite Nat2Z.id.
      repeat (split; [first [eassumption | lia]|]). assumption. }
    intros He Hprim Hfile Hmark.
    destruct (Hmarker He Hprim Hfile Hmark) as (a'' & [= <-] & Hty & Hflag).
    split; [unfold ID_UNDEFINED; lia|].
    eexists _, a'. rewrite Nat2Z.id.
    repeat (split; [eassumption|]). assumption.
  - assert rejected as Hrej by (by apply Hnone).
    eexists _, _. split; [exact Hrun|].
    split; [done|]. split; [done|]. split; [done|].
    intros He Hprim Hfile Hmark.
    destruct (Hmarker He Hprim Hfile Hmark) as (a'' & [=] & _).
Qed.

Lemma finalize_undefined_iff_witness :
  objects (registry (store 0 (sampleRecord "cubeSolid" "cubeSolid")
                           emptyWorld)) !! 0
  = Some (sampleRecord "cubeSolid" "cubeSolid")
  ∧ ∃ id w',
      registerAttributesTemplateFinalize (sampleEnvironment [] []) 0 "stage"
        (store 0 (sampleRecord "cubeSolid" "cubeSolid") emptyWorld)
      = Some (id, w')
      ∧ id ≠ ID_UNDEFINED.
Proof.
  split; [reflexivity|].
  destruct (finalize_undefined_iff (sampleEnvironment [] []) 0 "stage"
              (store 0 (sampleRecord "cubeSolid" "cubeSolid") emptyWorld)
              (sampleRecord "cubeSolid" "cubeSolid") eq_refl)
    as (id & w' & Hrun & Hid & _).
  exists id, w'. split; [exact Hrun|]. rewrite Hid.
  intros [H|(H & _)]; vm_compute in H; discriminate H.
Defined.

(** The collision slot after an accepted finalization, when the collision
    handle is neither a primitive nor a file. *)
Lemma finalRecord_collision_unresolved env loaded handle a :
  getRenderAssetHandle a ≠ "" →
  peer_isValidPrimitiveAttributes env loaded (getRenderAssetHandle a) = true
  ∨ isValidFileName env (getRenderAssetHandle a) = true →
  peer_isValidPrimitiveAttributes env loaded (getCollisionAssetHandle a)
  = false →
  isValidFileName env (getCollisionAssetHandle a) = false →
  ∃ a',
    finalRecord env loaded handle a = Some a' ∧
    getRenderAssetHandle a' = getRenderAssetHandle a ∧
    getRenderAssetIsPrimitive a'
    = peer_isValidPrimitiveAttributes env loaded (getRenderAssetHandle a) ∧
    (Str.contains handle "NONE" = false →
     getCollisionAssetHandle a' = getRenderAssetHandle a' ∧
     getCollisionAssetIsPrimitive a' = getRenderAssetIsPrimitive a') ∧
    (Str.contains handle "NONE" = true →
     getCollisionAssetHandle a' = getCollisionAssetHandle a ∧
     getCollisionAssetType a' = UNKNOWN ∧
     getCollisionAssetIsPrimitive a' = false).
Proof.
  intros He Hrender Hcprim Hcfile. unfold finalRecord.
  rewrite Hcprim, Hcfile.
  destruct (String.eqb_spec (getRenderAssetHandle a) "") as [|_]; [done|].
  destruct (peer_isValidPrimitiveAttributes env loaded
              (getRenderAssetHandle a)) eqn:Hprim.
  - eexists. split; [reflexivity|]. destruct a. cbn.
    destruct (Str.contains handle "NONE"); cbn; repeat split; done.
  - destruct Hrender as [|Hfile]; [done|]. rewrite Hfile.
    eexists. split; [reflexivity|]. destruct a. cbn.
    destruct (Str.contains handle "NONE"); cbn; repeat split; done.
Qed.

(** C2, as the code has it.  A stage record with a non-empty render handle
    that resolves (primitive or file) and a collision handle that resolves
    as neither is always registered.  Unless the stage handle contains
    "NONE", the collision slot then mirrors the render slot: same handle,
    same primitive flag.  With "NONE" in the stage handle the collision
    handle is kept, its type is set to unknown and its primitive flag to
    false. *)
Theorem collision_fallback_without_marker (env : Environment) (p : ptr)
    (handle : string) (w : World) (a : PhysicsStageAttributes) :
  objects (registry w) !! p = Some a →
  getRenderAssetHandle a ≠ "" →
  peer_isValidPrimitiveAttributes env (objectConfigsLoaded w)
    (getRenderAssetHandle a) = true
  ∨ isValidFileName env (getRenderAssetHandle a) = true →
  peer_isValidPrimitiveAttributes env (objectConfigsLoaded w)
    (getCollisionAssetHandle a) = false →
  isValidFileName env (getCollisionAssetHandle a) = false →
  ∃ id w' stored a',
    registerAttributesTemplateFinalize env p handle w = Some (id, w') ∧
    id ≠ ID_UNDEFINED ∧
    templateLibrary_ (registry w') !! handle = Some (Z.to_nat id, stored) ∧
    objects (registry w') !! stored = Some a' ∧
    objects (registry w') !! p = Some a' ∧
    getRenderAssetHandle a' = getRenderAssetHandle a ∧
    (Str.contains handle "NONE" = false →
     getCollisionAssetHandle a' = getRenderAssetHandle a' ∧
     getCollisionAssetIsPrimitive a' = getRenderAssetIsPrimitive a') ∧
    (Str.contains handle "NONE" = true →
     getCollisionAssetHandle a' = getCollisionAssetHandle a ∧
     getCollisionAssetType a' = UNKNOWN ∧
     getCollisionAssetIsPrimitive a' = false).
Proof.
  intros Hp He Hrender Hcprim Hcfile.
  destruct (registerAttributesTemplateFinalize_run env p handle a w Hp)
    as [l Hrun].
  destruct (finalRecord_collision_unresolved env (objectConfigsLoaded w)
              handle a He Hrender Hcprim Hcfile)
    as (a' & Hfinal & Hrh & _ & Hmirror & Hkept).
  rewrite Hfinal in Hrun.
  destruct (inserted_facts handle (getTemplateID handle (registry w)) a'
              p a w (logged w ++ l) Hp)
    as (Hlib & _ & Hcopy & Hobj & _).
  eexists _, _, _, a'. split; [exact Hrun|].
  split; [unfold ID_UNDEFINED; lia|]. rewrite Nat2Z.id.
  repeat (split; [eassumption|]). assumption.
Qed.

Lemma collision_fallback_without_marker_witness :
  ∃ id w' stored a',
    registerAttributesTemplateFinalize (sampleEnvironment [] []) 0 "stage"
      (store 0 (sampleRecord "cubeSolid" "missing") emptyWorld)
    = Some (id, w') ∧
    objects (registry w') !! stored = Some a' ∧
    getCollisionAssetHandle a' = "cubeSolid" ∧
    getCollisionAssetIsPrimitive a' = getRenderAssetIsPrimitive a'.
Proof.
  destruct (collision_fallback_without_marker (sampleEnvironment [] []) 0
              "stage"
              (store 0 (sampleRecord "cubeSolid" "missing") emptyWorld)
              (sampleRecord "cubeSolid" "missing")
              eq_refl ltac:(discriminate) (or_introl eq_refl)
              eq_refl eq_refl)
    as (id & w' & stored & a' & Hrun & _ & _ & Hcopy & _ & Hrh
        & Hmirror & _).
  destruct (Hmirror eq_refl) as [Hch Hcp].
  exists id, w', stored, a'. split; [exact Hrun|]. split; [exact Hcopy|].
  split; [by rewrite Hch, Hrh | exact Hcp].
Defined.

(** C2, as the specification states it, fails: with "NONE" in the stage
    handle, a record whose render handle is the primitive "cubeSolid" and
    whose collision handle "missing" is neither a primitive nor a file
    keeps its collision handle, and the two primitive flags differ. *)
Lemma collision_fallback_counterexample :
  peer_isValidPrimitiveAttributes (sampleEnvironment [] []) [] "cubeSolid"
  = true
  ∧ peer_isValidPrimitiveAttributes (sampleEnvironment [] []) [] "missing"
    = false
  ∧ isValidFileName (sampleEnvironment [] []) "missing" = false
  ∧ ∃ id w' a',
      registerAttributesTemplateFinalize (sampleEnvironment [] []) 0 "NONE"
        (store 0 (sampleRecord "cubeSolid" "missing") emptyWorld)
      = Some (id, w')
      ∧ objects (registry w') !! 0 = Some a'
      ∧ getRenderAssetHandle a' = "cubeSolid"
      ∧ getCollisionAssetHandle a' = "missing"
      ∧ getCollisionAssetHandle a' ≠ getRenderAssetHandle a'
      ∧ getRenderAssetIsPrimitive a' = true
      ∧ getCollisionAssetIsPrimitive a' = false.
Proof.
  split; [reflexivity|]. split; [reflexivity|]. split; [reflexivity|].
  eexists _, _, _. split; [vm_compute; reflexivity|].
  split; [vm_compute; reflexivity|].
  repeat split; try reflexivity. discriminate.
Qed.

(** ** Choosing the pipeline *)

Lemma bind_ret_pair {S T U V} (m : State S T) (y : U)
    (k : T → U → State S V) (s : S) :
  bind (bind m (λ x, ret (x, y))) (λ '(x, y), k x y) s
  = bind m (λ x, k x y) s.
Proof. unfold bind, ret. destruct (m s) as [[x s']|]; reflexivity. Qed.

(** The dispatch of [createAttributesTemplate], with the message carried
    to the closing log line. *)
Lemma createAttributesTemplate_unfold env this handle registerTemplate w :
  createAttributesTemplate env this handle registerTemplate w
  = (if peer_isValidPrimitiveAttributes env (objectConfigsLoaded w) handle
     then bind (createPrimBasedAttributesTemplate env this handle
                                                  registerTemplate)
               (logCreated ("Primitive Asset (" ++ handle ++ ") Based")
                           registerTemplate)
     else if isValidFileName env handle
     then if Str.contains (Str.lowercase handle) "scene_config.json"
          then bind (createFileBasedAttributesTemplate env this handle
                                                       registerTemplate)
                    (logCreated ("JSON File (" ++ handle ++ ") Based")
                                registerTemplate)
          else bind (createBackCompatAttributesTemplate env this handle
                                                        registerTemplate)
                    (logCreated ("File (" ++ handle ++ ") Based")
                                registerTemplate)
     else bind (createDefaultAttributesTemplate env this handle
                                                registerTemplate)
               (logCreated "New default" registerTemplate)) w.
Proof.
  unfold createAttributesTemplate, isValidPrimitiveAttributes.
  rewrite bind_gets.
  destruct (peer_isValidPrimitiveAttributes env (objectConfigsLoaded w)
              handle);
    [|destruct (isValidFileName env handle);
      [destruct (Str.contains (Str.lowercase handle) "scene_config.json")|]];
    cbn [andb];
    exact (bind_ret_pair _ _ (λ attrs msg, logCreated msg registerTemplate
                                attrs) w).
Qed.


(** C5.  [createAttributesTemplate] runs exactly one of the four pipelines
    (and then writes its closing log line).  The first of these rules that
    applies decides: (1) the handle is a primitive known to the peer object
    manager: primitive-based; (2) the handle is an existing file whose
    lower-case name contains "scene_config.json": JSON file-based; (3) the
    handle is any other existing file: back-compatibility; (4) otherwise:
    default.  The four cases exclude each other and leave no handle out. *)
Theorem createAttributesTemplate_dispatch (env : Environment)
    (this : StageAttributesManager) (handle : string)
    (registerTemplate : bool) (w : World) :
  let isPrimitive :=
    peer_isValidPrimitiveAttributes env (objectConfigsLoaded w) handle in
  let isFile := isValidFileName env handle in
  let isJson := Str.contains (Str.lowercase handle) "scene_config.json" in
  (isPrimitive = true →
   createAttributesTemplate env this handle registerTemplate w
   = bind (createPrimBasedAttributesTemplate env this handle registerTemplate)
          (logCreated ("Primitive Asset (" ++ handle ++ ") Based")
                      registerTemplate) w) ∧
  (isPrimitive = false → isFile = true → isJson = true →
   createAttributesTemplate env this handle registerTemplate w
   = bind (createFileBasedAttributesTemplate env this handle registerTemplate)
          (logCreated ("JSON File (" ++ handle ++ ") Based")
                      registerTemplate) w) ∧
  (isPrimitive = false → isFile = true → isJson = false →
   createAttributesTemplate env this handle registerTemplate w
   = bind (createBackCompatAttributesTemplate env this handle
                                              registerTemplate)
          (logCreated ("File (" ++ handle ++ ") Based") registerTemplate) w) ∧
  (isPrimitive = false → isFile = false →
   createAttributesTemplate env this handle registerTemplate w
   = bind (createDefaultAttributesTemplate env this handle registerTemplate)
          (logCreated "New default" registerTemplate) w) ∧
  (isPrimitive = true
   ∨ (isPrimitive = false ∧ isFile = true ∧ isJson = true)
   ∨ (isPrimitive = false ∧ isFile = true ∧ isJson = false)
   ∨ (isPrimitive = false ∧ isFile = false)).
Proof.
  intros isPrimitive isFile isJson.
  rewrite createAttributesTemplate_unfold. fold isPrimitive isFile isJson.
  repeat split.
  - intros ->. reflexivity.
  - intros -> -> ->. reflexivity.
  - intros -> -> ->. reflexivity.
  - intros -> ->. reflexivity.
  - destruct isPrimitive, isFile, isJson; tauto.
Qed.

Lemma createAttributesTemplate_dispatch_witness :
  peer_isValidPrimitiveAttributes (sampleEnvironment ["box.glb"] [])
    (objectConfigsLoaded emptyWorld) "box.glb" = false
  ∧ isValidFileName (sampleEnvironment ["box.glb"] []) "box.glb" = true
  ∧ Str.contains (Str.lowercase "box.glb") "scene_config.json" = false
  ∧ createAttributesTemplate (sampleEnvironment ["box.glb"] [])
      (sampleManager ∅) "box.glb" true emptyWorld
    = bind (createBackCompatAttributesTemplate
              (sampleEnvironment ["box.glb"] []) (sampleManager ∅)
              "box.glb" true)
           (logCreated "File (box.glb) Based" true) emptyWorld.
Proof.
  split; [reflexivity|]. split; [reflexivity|]. split; [reflexivity|].
  exact (proj1 (proj2 (proj2
           (createAttributesTemplate_dispatch
              (sampleEnvironment ["box.glb"] []) (sampleManager ∅)
              "box.glb" true emptyWorld)))
         eq_refl eq_refl eq_refl).
Defined.

(** ** The shared initializer *)

(** The record after [initNewAttribsInternal], field by field. *)
Lemma initRecord_fields env this a :
  let a' := initRecord env this a in
  let sceneFilename := getHandle a in
  getHandle a' = sceneFilename ∧
  getRenderAssetHandle a' = sceneFilename ∧
  getCollisionAssetHandle a' = sceneFilename ∧
  getRenderAssetType a' = fileNameAssetType sceneFilename ∧
  getCollisionAssetType a' = fileNameAssetType sceneFilename ∧
  getRenderAssetIsPrimitive a' = getRenderAssetIsPrimitive a ∧
  getCollisionAssetIsPrimitive a' = getCollisionAssetIsPrimitive a ∧
  getUseMeshCollision a' = true ∧
  getLightSetup a' = cfgLightSetup_ this ∧
  getRequiresLighting a'
  = negb (String.eqb (cfgLightSetup_ this) (NO_LIGHT_KEY env)) ∧
  getFrustrumCulling a' = cfgFrustrumCulling_ this ∧
  getNavmeshAssetHandle a'
  = (if Directory_exists env (navmeshCandidate this sceneFilename)
     then Some (navmeshCandidate this sceneFilename)
     else getNavmeshAssetHandle a) ∧
  getHouseFilename a' = houseChosen env this sceneFilename ∧
  getSemanticAssetHandle a'
  = io.removeExtension (houseChosen env this sceneFilename)
    ++ "_semantic.ply" ∧
  getMargin a' = getMargin a.
Proof.
  destruct a as [h fd rh ch sh nh hf ls rt ct st rp cp um rl fc d m g o fr re
                 up fw].
  unfold initRecord, defaultFileNameBased.
  destruct (Str.find_last_of (getHandle _) "/"),
    (physicsAttributesManager_ env !! physicsManagerAttributesHandle_ this);
    cbn -[navmeshCandidate houseChosen fileNameAssetType fileNameFrame
          io.removeExtension String.append];
    destruct (Directory_exists env (navmeshCandidate this h));
    cbn -[navmeshCandidate houseChosen fileNameAssetType fileNameFrame
          io.removeExtension String.append];
    repeat split; reflexivity.
Qed.

(** C8, as the code has it.  In the shared initializer the navmesh
    candidate is the configured "navmesh" path when there is one, else the
    stage handle with its extension replaced by ".navmesh"; the navmesh
    handle is stored only when the candidate exists on disk.  The house
    candidate is the configured "house" path when there is one, else the
    ".house" substitution; the house filename stored is the candidate when
    it exists on disk, and the ".scn" substitution otherwise.  The
    semantic-mesh handle is the stored house filename with its extension
    removed and "_semantic.ply" appended. *)
Theorem initNewAttribsInternal_navmesh_house (env : Environment)
    (this : StageAttributesManager) (p : ptr) (w : World)
    (a : PhysicsStageAttributes) :
  objects (registry w) !! p = Some a →
  ∃ w' a',
    initNewAttribsInternal env this p w = Some (p, w') ∧
    objects (registry w') !! p = Some a' ∧
    templateLibrary_ (registry w') = templateLibrary_ (registry w) ∧
    let sceneFilename := getHandle a in
    let navmeshFilename :=
      match cfgFilepaths_ this !! "navmesh" with
      | Some configured => configured
      | None => io.changeExtension sceneFilename ".navmesh"
      end in
    let houseFilename :=
      match cfgFilepaths_ this !! "house" with
      | Some configured => configured
      | None => io.changeExtension sceneFilename ".house"
      end in
    getNavmeshAssetHandle a'
    = (if Directory_exists env navmeshFilename then Some navmeshFilename
       else getNavmeshAssetHandle a) ∧
    getHouseFilename a'
    = (if Directory_exists env houseFilename then houseFilename
       else io.changeExtension sceneFilename ".scn") ∧
    getSemanticAssetHandle a'
    = io.removeExtension (getHouseFilename a') ++ "_semantic.ply".
Proof.
  intros Hp.
  pose proof (initNewAttribsInternal_store env this p a w) as Hrun.
  rewrite (store_id p a w Hp) in Hrun.
  exists (store p (initRecord env this a) w), (initRecord env this a).
  split; [exact Hrun|]. split; [apply store_lookup|]. split; [reflexivity|].
  destruct (initRecord_fields env this a)
    as (_ & _ & _ & _ & _ & _ & _ & _ & _ & _ & _ & Hnav & Hhouse & Hsem & _).
  cbv zeta. rewrite Hnav, Hsem, Hhouse.
  unfold houseChosen, houseCandidate, navmeshCandidate.
  split; [reflexivity|]. split; [|reflexivity].
  match goal with |- context [negb ?c] => destruct c end; reflexivity.
Qed.

Lemma initNewAttribsInternal_navmesh_house_witness :
  ∃ w' a',
    initNewAttribsInternal (sampleEnvironment ["box.navmesh"] [])
      (sampleManager ∅) 0
      (store 0 (PhysicsStageAttributes_create "box.glb") emptyWorld)
    = Some (0, w') ∧
    objects (registry w') !! 0 = Some a' ∧
    getNavmeshAssetHandle a' = Some "box.navmesh" ∧
    getHouseFilename a' = "box.scn" ∧
    getSemanticAssetHandle a' = "box_semantic.ply".
Proof.
  destruct (initNewAttribsInternal_navmesh_house
              (sampleEnvironment ["box.navmesh"] []) (sampleManager ∅) 0
              (store 0 (PhysicsStageAttributes_create "box.glb") emptyWorld)
              (PhysicsStageAttributes_create "box.glb") eq_refl)
    as (w' & a' & Hrun & Hobj & _ & Hnav & Hhouse & Hsem).
  exists w', a'. split; [exact Hrun|]. split; [exact Hobj|].
  split; [exact Hnav|]. split; [exact Hhouse|].
  rewrite Hsem, Hhouse. reflexivity.
Defined.

(** C8, as the specification states it, fails: with no path configured and
    no file on disk, the house filename stored for "box.glb" is "box.scn",
    not the ".house" substitution "box.house". *)
Lemma house_filename_counterexample :
  cfgFilepaths_ (sampleManager ∅) !! "house" = None
  ∧ io.changeExtension "box.glb" ".house" = "box.house"
  ∧ ∃ w' a',
      initNewAttribsInternal (sampleEnvironment [] []) (sampleManager ∅) 0
        (store 0 (PhysicsStageAttributes_create "box.glb") emptyWorld)
      = Some (0, w')
      ∧ objects (registry w') !! 0 = Some a'
      ∧ getHouseFilename a' = "box.scn"
      ∧ getHouseFilename a' ≠ io.changeExtension "box.glb" ".house".
Proof.
  split; [reflexivity|]. split; [reflexivity|].
  eexists _, _. split; [vm_compute; reflexivity|].
  split; [vm_compute; reflexivity|]. split; [reflexivity|]. discriminate.
Qed.

(** The other case that the wording of C8 leaves out: a configured navmesh
    path replaces the default also when it does not exist on disk, so that
    nothing is stored although "box.navmesh" exists. *)
Lemma navmesh_configured_missing_example :
  ∃ w' a',
    initNewAttribsInternal (sampleEnvironment ["box.navmesh"] [])
      (sampleManager {["navmesh" := "elsewhere.navmesh"]}) 0
      (store 0 (PhysicsStageAttributes_create "box.glb") emptyWorld)
    = Some (0, w')
    ∧ objects (registry w') !! 0 = Some a'
    ∧ getNavmeshAssetHandle a' = None.
Proof.
  eexists _, _. split; [vm_compute; reflexivity|].
  split; [vm_compute; reflexivity|]. reflexivity.
Qed.

(** ** The pipelines *)

Lemma eqb_template_ID_UNDEFINED n : Z.eqb (Z.of_nat n) ID_UNDEFINED = false.
Proof. apply Z.eqb_neq. unfold ID_UNDEFINED. lia. Qed.

Lemma registerAttributesTemplate_store env p handle a w :
  ∃ l,
    bind (registerAttributesTemplate env p handle)
         (λ attrID, if Z.eqb attrID ID_UNDEFINED then ret None
                    else ret (Some p)) (store p a w)
    = Some
        match finalRecord env (objectConfigsLoaded w) handle a with
        | None => (None, store p a (setLogged (logged w ++ l) w))
        | Some a' =>
            (Some p,
             inserted handle (getTemplateID handle (registry w))
                      (fresh (dom (objects (registry (store p a' w))))) a'
                      (store p a' (setLogged (logged w ++ l) w)))
        end.
Proof.
  destruct (registerAttributesTemplateFinalize_store env p handle a w)
    as [l Hrun].
  exists l. unfold registerAttributesTemplate.
  destruct (finalRecord env (objectConfigsLoaded w) handle a) as [a'|];
    rewrite (bind_Some _ _ _ _ _ Hrun).
  - by rewrite eqb_template_ID_UNDEFINED.
  - reflexivity.
Qed.

Lemma postCreateRegister_store env registerTemplate p a w :
  ∃ l,
    postCreateRegister env p registerTemplate (store p a w)
    = Some (registrationOutcome env registerTemplate p a w l).
Proof.
  unfold postCreateRegister, registrationOutcome.
  destruct registerTemplate; [|by exists []].
  rewrite run_read. apply registerAttributesTemplate_store.
Qed.

(** What a registration outcome holds: the record behind the pointer is the
    record as created, or as finalized; registration puts a copy of it in
    the library under the record's handle. *)
Lemma registrationOutcome_facts env registerTemplate p a w l res w' :
  registrationOutcome env registerTemplate p a w l = (res, w') →
  objectConfigsLoaded w' = objectConfigsLoaded w ∧
  (res = None ∨ res = Some p) ∧
  (res = None → registerTemplate = true
                ∧ finalRecord env (objectConfigsLoaded w) (getHandle a) a
                  = None
                ∧ templateLibrary_ (registry w')
                  = templateLibrary_ (registry w)) ∧
  (res = Some p →
   ∃ a', objects (registry w') !! p = Some a' ∧
         (if registerTemplate
          then finalRecord env (objectConfigsLoaded w) (getHandle a) a
               = Some a'
               ∧ ∃ stored,
                   templateLibrary_ (registry w') !! getHandle a
                   = Some (getTemplateID (getHandle a) (registry w), stored)
                   ∧ objects (registry w') !! stored = Some a'
          else a' = a
               ∧ templateLibrary_ (registry w')
                 = templateLibrary_ (registry w))).
Proof.
  unfold registrationOutcome. intros Hout.
  destruct registerTemplate.
  - destruct (finalRecord env (objectConfigsLoaded w) (getHandle a) a)
      as [a'|] eqn:Hfinal; injection Hout as <- <-.
    + split; [reflexivity|]. split; [by right|]. split; [done|].
      intros _. exists a'. split.
      { rewrite inserted_lookup_other; [apply store_lookup|].
        apply (fresh_object_ne (registry (store p a' w)) p a'), store_lookup. }
      split; [reflexivity|]. eexists.
      split; [apply inserted_lookup_handle | apply inserted_lookup_copy].
    + split; [reflexivity|]. split; [by left|]. split; [done|]. done.
  - injection Hout as <- <-. split; [reflexivity|]. split; [by right|].
    split; [done|]. intros _. exists a. split; [apply store_lookup|done].
Qed.

Lemma createBackCompatAttributesTemplate_run env this handle
    registerTemplate w :
  ∃ l,
    createBackCompatAttributesTemplate env this handle registerTemplate w
    = Some (registrationOutcome env registerTemplate
              (fresh (dom (objects (registry w))))
              (initRecord env this (PhysicsStageAttributes_create handle))
              w l).
Proof.
  unfold createBackCompatAttributesTemplate.
  rewrite run_create.
  rewrite (bind_Some _ _ _ _ _ (initNewAttribsInternal_store _ _ _ _ _)).
  apply postCreateRegister_store.
Qed.

Lemma getHandle_initRecord_create env this handle :
  getHandle (initRecord env this (PhysicsStageAttributes_create handle))
  = handle.
Proof.
  by destruct (initRecord_fields env this
                 (PhysicsStageAttributes_create handle)) as [-> _].
Qed.

Lemma createDefaultAttributesTemplate_run env this handle
    registerTemplate w :
  ∃ l,
    createDefaultAttributesTemplate env this handle registerTemplate w
    = Some (registrationOutcome env registerTemplate
              (fresh (dom (objects (registry w))))
              (initRecord env this (PhysicsStageAttributes_create handle))
              w l).
Proof.
  unfold createDefaultAttributesTemplate, registrationOutcome.
  rewrite run_create.
  rewrite (bind_Some _ _ _ _ _ (initNewAttribsInternal_store _ _ _ _ _)).
  destruct registerTemplate; [|by exists []].
  rewrite getHandle_initRecord_create.
  apply registerAttributesTemplate_store.
Qed.

Lemma createPrimBasedAttributesTemplate_run env this handle
    registerTemplate w :
  peer_isValidPrimitiveAttributes env (objectConfigsLoaded w) handle = true →
  ∃ l,
    createPrimBasedAttributesTemplate env this handle registerTemplate w
    = Some (registrationOutcome env registerTemplate
              (fresh (dom (objects (registry w))))
              (setUseMeshCollision false
                 (setCollisionAssetType PRIMITIVE
                    (setRenderAssetType PRIMITIVE
                       (setMargin (0#1)%Q
                          (initRecord env this
                             (PhysicsStageAttributes_create handle))))))
              w l).
Proof.
  intros Hprim.
  unfold createPrimBasedAttributesTemplate, isValidPrimitiveAttributes.
  rewrite bind_gets, Hprim. cbn [negb].
  rewrite run_create.
  rewrite (bind_Some _ _ _ _ _ (initNewAttribsInternal_store _ _ _ _ _)).
  run. apply postCreateRegister_store.
Qed.

(** Finalization when both asset handles resolve. *)
Lemma finalRecord_resolved env loaded handle a :
  getRenderAssetHandle a ≠ "" →
  peer_isValidPrimitiveAttributes env loaded (getRenderAssetHandle a) = true
  ∨ isValidFileName env (getRenderAssetHandle a) = true →
  peer_isValidPrimitiveAttributes env loaded (getCollisionAssetHandle a)
  = true
  ∨ isValidFileName env (getCollisionAssetHandle a) = true →
  finalRecord env loaded handle a
  = Some (setIsClean
            (setCollisionAssetIsPrimitive
               (peer_isValidPrimitiveAttributes env loaded
                  (getCollisionAssetHandle a))
               (setRenderAssetIsPrimitive
                  (peer_isValidPrimitiveAttributes env loaded
                     (getRenderAssetHandle a)) a))).
Proof.
  intros He Hr Hc. unfold finalRecord.
  destruct (String.eqb_spec (getRenderAssetHandle a) "") as [|_]; [done|].
  destruct (peer_isValidPrimitiveAttributes env loaded
              (getRenderAssetHandle a)),
    (peer_isValidPrimitiveAttributes env loaded
       (getCollisionAssetHandle a));
    try reflexivity;
    repeat match goal with
           | H : false = true ∨ _ |- _ => destruct H as [|H]; [done|]
           | H : isValidFileName _ _ = true |- _ => rewrite H; clear H
           end; reflexivity.
Qed.

Lemma resolved_fields a rp cp :
  let a' :=
    setIsClean (setCollisionAssetIsPrimitive cp
                  (setRenderAssetIsPrimitive rp a)) in
  getRenderAssetHandle a' = getRenderAssetHandle a ∧
  getCollisionAssetHandle a' = getCollisionAssetHandle a ∧
  getRenderAssetIsPrimitive a' = rp ∧
  getCollisionAssetIsPrimitive a' = cp ∧
  getRenderAssetType a' = getRenderAssetType a ∧
  getCollisionAssetType a' = getCollisionAssetType a ∧
  getNavmeshAssetHandle a' = getNavmeshAssetHandle a.
Proof. destruct a. cbn. repeat split; reflexivity. Qed.

(** C7, as the code has it.  Registering "box.glb", an existing file that
    is no primitive, takes the back-compatibility pipeline and produces a
    registered record whose render and collision handles are "box.glb",
    whose primitive flags are both false, whose render and collision asset
    types are the MP3D mesh type that the ".glb" suffix selects, and whose
    navmesh handle (no navmesh path being configured) is "box.navmesh" when
    that file exists on disk and is absent otherwise. *)
Theorem box_glb_scenario (env : Environment) (this : StageAttributesManager)
    (w : World) :
  peer_isValidPrimitiveAttributes env (objectConfigsLoaded w) "box.glb"
  = false →
  isValidFileName env "box.glb" = true →
  cfgFilepaths_ this !! "navmesh" = None →
  ∃ p w' id stored a',
    createAttributesTemplate env this "box.glb" true w = Some (Some p, w') ∧
    createAttributesTemplate env this "box.glb" true w
    = bind (createBackCompatAttributesTemplate env this "box.glb" true)
           (logCreated "File (box.glb) Based" true) w ∧
    templateLibrary_ (registry w') !! "box.glb" = Some (id, stored) ∧
    objects (registry w') !! stored = Some a' ∧
    objects (registry w') !! p = Some a' ∧
    getRenderAssetHandle a' = "box.glb" ∧
    getCollisionAssetHandle a' = "box.glb" ∧
    getRenderAssetIsPrimitive a' = false ∧
    getCollisionAssetIsPrimitive a' = false ∧
    getRenderAssetType a' = MP3D_MESH ∧
    getCollisionAssetType a' = MP3D_MESH ∧
    getNavmeshAssetHandle a'
    = (if Directory_exists env "box.navmesh" then Some "box.navmesh"
       else None).
Proof.
  intros Hprim Hfile Hcfg.
  assert (createAttributesTemplate env this "box.glb" true w
          = bind (createBackCompatAttributesTemplate env this "box.glb" true)
                 (logCreated "File (box.glb) Based" true) w) as Hdispatch.
  { rewrite createAttributesTemplate_unfold, Hprim, Hfile. reflexivity. }
  destruct (createBackCompatAttributesTemplate_run env this "box.glb" true w)
    as [l Hrun].
  set (a0 := initRecord env this (PhysicsStageAttributes_create "box.glb"))
    in *.
  destruct (initRecord_fields env this (PhysicsStageAttributes_create "box.glb"))
    as (Hh & Hrh & Hch & Hrt & Hct & _ & _ & _ & _ & _ & _ & Hnav & _).
  fold a0 in Hh, Hrh, Hch, Hrt, Hct, Hnav. cbn [getHandle
    PhysicsStageAttributes_create getNavmeshAssetHandle] in *.
  assert (finalRecord env (objectConfigsLoaded w) "box.glb" a0
          = Some (setIsClean (setCollisionAssetIsPrimitive false
                                (setRenderAssetIsPrimitive false a0))))
    as Hfinal.
  { rewrite (finalRecord_resolved env (objectConfigsLoaded w) "box.glb" a0).
    - by rewrite Hrh, Hch, Hprim.
    - by rewrite Hrh.
    - right. by rewrite Hrh.
    - right. by rewrite Hch. }
  destruct (registrationOutcome env true
              (fresh (dom (objects (registry w)))) a0 w l)
    as [res w1] eqn:Hout.
  destruct (registrationOutcome_facts _ _ _ _ _ _ _ _ Hout)
    as (_ & _ & Hnull & Hsome).
  rewrite Hh in Hnull, Hsome.
  destruct res as [p|].
  2:{ destruct (Hnull eq_refl) as (_ & Hcontra & _). congruence. }
  assert (Some p = Some (fresh (dom (objects (registry w))))) as [= ->].
  { unfold registrationOutcome in Hout. rewrite Hh, Hfinal in Hout.
    by injection Hout as <- _. }
  destruct (Hsome eq_refl) as (a' & Hobj & Hfin' & stored & Hlib & Hcopy).
  rewrite Hfinal in Hfin'. injection Hfin' as <-.
  destruct (resolved_fields a0 false false)
    as (Frh & Fch & Frp & Fcp & Frt & Fct & Fnav).
  eexists _, _, _, stored, _. split.
  { rewrite Hdispatch. rewrite (bind_Some _ _ _ _ _ Hrun). reflexivity. }
  split; [exact Hdispatch|].
  split; [exact Hlib|]. split; [exact Hcopy|]. split; [exact Hobj|].
  rewrite Frh, Fch, Frp, Fcp, Frt, Fct, Fnav, Hrh, Hch, Hrt, Hct, Hnav.
  unfold navmeshCandidate. rewrite Hcfg.
  repeat split; reflexivity.
Qed.

Lemma box_glb_scenario_witness :
  ∃ p w' a',
    createAttributesTemplate (sampleEnvironment ["box.glb"] [])
      (sampleManager ∅) "box.glb" true emptyWorld
    = Some (Some p, w') ∧
    objects (registry w') !! p = Some a' ∧
    getRenderAssetType a' = MP3D_MESH ∧
    getNavmeshAssetHandle a' = None.
Proof.
  assert (cfgFilepaths_ (sampleManager ∅) !! "navmesh" = None) as Hcfg
    by reflexivity.
  destruct (box_glb_scenario (sampleEnvironment ["box.glb"] [])
              (sampleManager ∅) emptyWorld eq_refl eq_refl Hcfg)
    as (p & w' & id & stored & a' & Hrun & _ & _ & _ & Hobj & _ & _ & _ & _
        & Hrt & _ & Hnav).
  exists p, w', a'. split; [exact Hrun|]. split; [exact Hobj|].
  split; [exact Hrt|]. exact Hnav.
Defined.

(** C7, as the specification states it, fails: the record registered for
    "box.glb" has the MP3D mesh type in its render and collision slots, not
    the unknown type. *)
Lemma box_glb_type_counterexample :
  peer_isValidPrimitiveAttributes (sampleEnvironment ["box.glb"] []) []
    "box.glb" = false
  ∧ isValidFileName (sampleEnvironment ["box.glb"] []) "box.glb" = true
  ∧ isValidFileName (sampleEnvironment ["box.glb"] [])
      "box.scene_config.json" = false
  ∧ ∃ p w' a',
      createAttributesTemplate (sampleEnvironment ["box.glb"] [])
        (sampleManager ∅) "box.glb" true emptyWorld
      = Some (Some p, w')
      ∧ objects (registry w') !! p = Some a'
      ∧ getRenderAssetHandle a' = "box.glb"
      ∧ getRenderAssetType a' = MP3D_MESH
      ∧ getCollisionAssetType a' = MP3D_MESH
      ∧ getRenderAssetType a' ≠ UNKNOWN
      ∧ getCollisionAssetType a' ≠ UNKNOWN.
Proof.
  split; [reflexivity|]. split; [reflexivity|]. split; [reflexivity|].
  eexists _, _, _. split; [vm_compute; reflexivity|].
  split; [vm_compute; reflexivity|].
  repeat split; try reflexivity; discriminate.
Qed.

(** ** The JSON file-based pipeline *)

Lemma run_jsonIntoConstSetter_Vector3 {U} doc tag p
    (f : Vector3 → PhysicsStageAttributes → PhysicsStageAttributes)
    (k : bool → M U) a w :
  bind (jsonIntoConstSetter_Vector3 doc tag (λ v, call p (f v))) k
       (store p a w)
  = k (bool_decide (is_Some (json.jsonIntoVal_Vector3 doc tag)))
      (store p (match json.jsonIntoVal_Vector3 doc tag with
                | Some v => f v a
                | None => a
                end) w).
Proof.
  unfold jsonIntoConstSetter_Vector3.
  destruct (json.jsonIntoVal_Vector3 doc tag); run; reflexivity.
Qed.

Lemma run_setJSONAssetHandleAndType {U} env p doc typeTag handleTag assetName
    (setType : AssetType → PhysicsStageAttributes → PhysicsStageAttributes)
    (k : bool * string → M U) a w :
  bind (setJSONAssetHandleAndType env p doc typeTag handleTag assetName
          (λ t, call p (setType t))) k (store p a w)
  = k (jsonAssetHandleAndType env a doc typeTag handleTag assetName).1
      (store p
         (match (jsonAssetHandleAndType env a doc typeTag handleTag
                   assetName).2 with
          | Some t => setType t a
          | None => a
          end) w).
Proof.
  unfold setJSONAssetHandleAndType. run. unfold id.
  destruct (jsonAssetHandleAndType env a doc typeTag handleTag assetName).2;
    run; reflexivity.
Qed.

Lemma forEachFrom_loadRigidObjectPath configDirectory i paths p a w :
  forEachFrom i paths (loadRigidObjectPath configDirectory) (store p a w)
  = Some (tt, store p a (afterRigidObjectPaths configDirectory i paths w)).
Proof.
  revert i w. induction paths as [|path rest IH]; intros i w.
  - cbn. unfold ret, afterRigidObjectPaths. cbn. by rewrite !app_nil_r.
  - cbn [forEachFrom]. unfold loadRigidObjectPath at 1.
    destruct (json.IsString path) eqn:Hstr; cbn [negb]; run; rewrite IH;
      unfold afterRigidObjectPaths; cbn; rewrite Hstr; cbn;
      by rewrite <- ?app_assoc.
Qed.

Lemma rigidObjectPathLoads_strings configDirectory paths :
  rigidObjectPathLoads configDirectory paths
  = (λ s, (Directory.join configDirectory s, true))
    <$> omap json.asString paths.
Proof.
  unfold rigidObjectPathLoads.
  induction paths as [|path rest IH]; [done|].
  cbn. rewrite IH. by destruct path.
Qed.

Lemma rigidObjectPathErrors_elem i paths j path :
  paths !! j = Some path →
  json.IsString path = false →
  (ERROR,
   "StageAttributesManager::createAttributesTemplate "
   ++ ":Invalid value in stage config 'rigid object paths'- array "
   ++ pretty (i + j))
  ∈ rigidObjectPathErrors i paths.
Proof.
  revert i j. induction paths as [|x rest IH]; intros i j Hj Hstr; [done|].
  destruct j as [|j]; cbn in *.
  - injection Hj as ->. rewrite Hstr, Nat.add_0_r. apply elem_of_app.
    left. apply list_elem_of_singleton. reflexivity.
  - apply elem_of_app. right.
    replace (i + S j) with (S i + j) by lia. by apply IH.
Qed.

(** ** Lighting *)

Lemma registrationOutcome_lighting env registerTemplate p a w l res w' :
  registrationOutcome env registerTemplate p a w l = (res, w') →
  ∀ q, res = Some q →
    ∃ a', objects (registry w') !! q = Some a' ∧
          getRequiresLighting a' = getRequiresLighting a ∧
          getLightSetup a' = getLightSetup a.
Proof.
  intros Hout q ->.
  destruct (registrationOutcome_facts _ _ _ _ _ _ _ _ Hout)
    as (_ & [|[= <-]] & _ & Hsome); [done|].
  destruct (Hsome eq_refl) as (a' & Hobj & Hcase).
  exists a'. split; [exact Hobj|].
  destruct registerTemplate.
  - destruct Hcase as [Hfinal _].
    by destruct (finalRecord_frame _ _ _ _ _ Hfinal)
      as (_ & _ & -> & -> & _).
  - by destruct Hcase as [-> _].
Qed.



(** ** The rigid object paths *)

Lemma find_last_of_app_slash dir name :
  Str.find_last_of name "/" = None →
  Str.find_last_of (dir ++ "/" ++ name) "/" = Some (String.length dir).
Proof.
  intros Hname. induction dir as [|c dir IH].
  - change ("" ++ "/" ++ name) with (String "/" name).
    cbn. by rewrite Hname.
  - change (String c dir ++ "/" ++ name)
      with (String c (dir ++ "/" ++ name)).
    cbn [Str.find_last_of String.length]. by rewrite IH.
Qed.

Lemma substring_prefix_app dir rest :
  String.substring 0 (String.length dir) (dir ++ rest) = dir.
Proof.
  induction dir as [|c dir IH].
  - by destruct rest.
  - change (String c dir ++ rest) with (String c (dir ++ rest)).
    cbn. by rewrite IH.
Qed.

(** The directory that the loop resolves against is the directory part of
    the file name, when the name has one. *)
Lemma configDirectory_of_path dir name :
  Str.find_last_of name "/" = None →
  Str.substr0 (dir ++ "/" ++ name)
              (Str.find_last_of (dir ++ "/" ++ name) "/")
  = dir.
Proof.
  intros Hname. rewrite (find_last_of_app_slash dir name Hname).
  apply substring_prefix_app.
Qed.

(** For a file name without a slash, [find_last_of] gives [npos] and
    [substr(0, npos)] the whole name: the loop then resolves against the
    file name itself. *)
Lemma configDirectory_without_slash sceneFilename :
  Str.find_last_of sceneFilename "/" = None →
  Str.substr0 sceneFilename (Str.find_last_of sceneFilename "/")
  = sceneFilename.
Proof. by intros ->. Qed.

(** * Further properties *)

(** ** File name suffixes *)

Lemma length_app_string (s t : string) :
  String.length (s ++ t) = (String.length s + String.length t)%nat.
Proof.
  induction s as [|c s IH]; [reflexivity|].
  change (String c s ++ t) with (String c (s ++ t)). cbn. by rewrite IH.
Qed.

Lemma substring_all (s : string) :
  String.substring 0 (String.length s) s = s.
Proof. induction s as [|c s IH]; [reflexivity|]. cbn. by rewrite IH. Qed.

Lemma substring_skip_app (p s : string) (m : nat) :
  String.substring (String.length p) m (p ++ s) = String.substring 0 m s.
Proof.
  induction p as [|c p IH]; [reflexivity|].
  change (String c p ++ s) with (String c (p ++ s)). cbn. exact IH.
Qed.

Lemma endsWith_app (p suffix : string) :
  Str.endsWith (p ++ suffix) suffix = true.
Proof.
  unfold Str.endsWith. rewrite length_app_string.
  replace (String.length p + String.length suffix - String.length suffix)%nat
    with (String.length p) by lia.
  rewrite substring_skip_app, substring_all, String.eqb_refl.
  rewrite andb_true_r. apply Nat.leb_le. lia.
Qed.

Lemma substring_split (s : string) (k : nat) :
  (k ≤ String.length s)%nat →
  s = String.substring 0 k s
      ++ String.substring k (String.length s - k) s.
Proof.
  revert k. induction s as [|c s IH]; intros k Hk.
  - destruct k; [reflexivity | cbn in Hk; lia].
  - destruct k as [|k].
    + cbn [String.substring]. rewrite Nat.sub_0_r.
      change (String.length (String c s)) with (S (String.length s)).
      cbn [String.substring]. by rewrite substring_all.
    + cbn in Hk. cbn [String.substring String.length Nat.sub].
      change (String c (String.substring 0 k s) ++ ?t)
        with (String c (String.substring 0 k s ++ t)).
      f_equal. apply IH. lia.
Qed.

Lemma endsWith_inv (s suffix : string) :
  Str.endsWith s suffix = true → ∃ p, s = p ++ suffix.
Proof.
  unfold Str.endsWith. intros [Hle Heq]%andb_true_iff.
  apply Nat.leb_le in Hle. apply String.eqb_eq in Heq.
  exists (String.substring 0 (String.length s - String.length suffix) s).
  pose proof (substring_split s (String.length s - String.length suffix))
    as Hsplit.
  replace (String.length s - (String.length s - String.length suffix))%nat
    with (String.length suffix) in Hsplit by lia.
  rewrite Heq in Hsplit. apply Hsplit. lia.
Qed.

Lemma app_suffix_compare (p1 p2 a b : string) :
  p1 ++ a = p2 ++ b →
  (String.length b ≤ String.length a)%nat →
  ∃ q, a = q ++ b.
Proof.
  revert p2. induction p1 as [|c p1 IH]; intros p2 Heq Hlen.
  - exists p2. exact Heq.
  - destruct p2 as [|d p2].
    + change ("" ++ b) with b in Heq. subst b.
      change (String c p1 ++ a) with (String c (p1 ++ a)) in Hlen.
      cbn in Hlen. rewrite length_app_string in Hlen. lia.
    + change (String c p1 ++ a) with (String c (p1 ++ a)) in Heq.
      change (String d p2 ++ b) with (String d (p2 ++ b)) in Heq.
      injection Heq as _ Heq. exact (IH p2 Heq Hlen).
Qed.

(** Of two suffixes of one name, the shorter is a suffix of the longer. *)
Lemma endsWith_both (s a b : string) :
  Str.endsWith s a = true →
  Str.endsWith s b = true →
  Str.endsWith a b = true ∨ Str.endsWith b a = true.
Proof.
  intros [pa Ha]%endsWith_inv [pb Hb]%endsWith_inv.
  destruct (Nat.le_ge_cases (String.length b) (String.length a)) as [Hle|Hle].
  - left. destruct (app_suffix_compare pa pb a b) as [q ->];
      [congruence | exact Hle | apply endsWith_app].
  - right. destruct (app_suffix_compare pb pa b a) as [q ->];
      [congruence | exact Hle | apply endsWith_app].
Qed.

Lemma endsWith_exclusive (s a b : string) :
  Str.endsWith a b = false →
  Str.endsWith b a = false →
  Str.endsWith s a = true →
  Str.endsWith s b = false.
Proof.
  intros Hab Hba Ha. destruct (Str.endsWith s b) eqn:Hb; [|reflexivity].
  destruct (endsWith_both s a b Ha Hb); congruence.
Qed.

(** The four suffixes of the rule table exclude each other, so that a name
    built on one of them is decided by that rule. *)
Lemma fileNameAssetType_suffix (prefix : string) :
  fileNameAssetType (prefix ++ "_semantic.ply") = INSTANCE_MESH ∧
  fileNameAssetType (prefix ++ "mesh.ply") = FRL_PTEX_MESH ∧
  fileNameAssetType (prefix ++ "house.json") = SUNCG_SCENE ∧
  fileNameAssetType (prefix ++ ".glb") = MP3D_MESH.
Proof.
  unfold fileNameAssetType. repeat split.
  - by rewrite endsWith_app.
  - rewrite (endsWith_exclusive _ "mesh.ply" "_semantic.ply" eq_refl eq_refl
               (endsWith_app _ _)).
    by rewrite endsWith_app.
  - rewrite (endsWith_exclusive _ "house.json" "_semantic.ply" eq_refl eq_refl
               (endsWith_app _ _)).
    rewrite (endsWith_exclusive _ "house.json" "mesh.ply" eq_refl eq_refl
               (endsWith_app _ _)).
    by rewrite endsWith_app.
  - rewrite (endsWith_exclusive _ ".glb" "_semantic.ply" eq_refl eq_refl
               (endsWith_app _ _)).
    rewrite (endsWith_exclusive _ ".glb" "mesh.ply" eq_refl eq_refl
               (endsWith_app _ _)).
    rewrite (endsWith_exclusive _ ".glb" "house.json" eq_refl eq_refl
               (endsWith_app _ _)).
    by rewrite endsWith_app.
Qed.

Lemma fileNameFrame_suffix (prefix : string) :
  fileNameFrame (prefix ++ "_semantic.ply")
  = ((0#1, 1#1, 0#1), (0#1, 0#1, -1#1))%Q ∧
  fileNameFrame (prefix ++ "mesh.ply")
  = ((0#1, 0#1, 1#1), (0#1, 1#1, 0#1))%Q ∧
  fileNameFrame (prefix ++ "house.json")
  = ((0#1, 1#1, 0#1), (0#1, 0#1, -1#1))%Q ∧
  fileNameFrame (prefix ++ ".glb")
  = ((0#1, 0#1, 1#1), (0#1, 1#1, 0#1))%Q.
Proof.
  unfold fileNameFrame. repeat split.
  - by rewrite endsWith_app.
  - rewrite (endsWith_exclusive _ "mesh.ply" "_semantic.ply" eq_refl eq_refl
               (endsWith_app _ _)).
    by rewrite endsWith_app.
  - rewrite (endsWith_exclusive _ "house.json" "_semantic.ply" eq_refl eq_refl
               (endsWith_app _ _)).
    rewrite (endsWith_exclusive _ "house.json" "mesh.ply" eq_refl eq_refl
               (endsWith_app _ _)).
    by rewrite endsWith_app.
  - rewrite (endsWith_exclusive _ ".glb" "_semantic.ply" eq_refl eq_refl
               (endsWith_app _ _)).
    rewrite (endsWith_exclusive _ ".glb" "mesh.ply" eq_refl eq_refl
               (endsWith_app _ _)).
    rewrite (endsWith_exclusive _ ".glb" "house.json" eq_refl eq_refl
               (endsWith_app _ _)).
    by rewrite endsWith_app.
Qed.

Lemma setDefaultFileNameBasedAttributes_run p setFrame fileName
    (setType : AssetType → PhysicsStageAttributes → PhysicsStageAttributes)
    a w :
  objects (registry w) !! p = Some a →
  setDefaultFileNameBasedAttributes p setFrame fileName
    (λ t, call p (setType t)) w
  = Some (tt, store p (defaultFileNameBased setFrame fileName setType a) w).
Proof.
  intros Hp.
  rewrite <- (store_id p a w Hp) at 1.
  apply setDefaultFileNameBasedAttributes_store.
Qed.

(** X1.  The rule table of [setDefaultFileNameBasedAttributes].  Whatever
    precedes the suffix, a file name that ends in "_semantic.ply" is typed as
    an instance mesh, one that ends in "mesh.ply" as an FRL PTex mesh, one
    that ends in "house.json" as a SUNCG scene, and one that ends in ".glb"
    as an MP3D mesh; a name with none of these endings is typed unknown.
    The type goes through the caller's setter, once.  The orientation frame
    is written only when [setFrame] is set: up (0,0,1) and front (0,1,0) for
    the "mesh.ply" and ".glb" rules, up (0,1,0) and front (0,0,-1) for the
    others.  No name falls under two rules, so the order of the tests
    decides nothing. *)
Theorem file_name_suffix_rules (p : ptr) (w : World)
    (a : PhysicsStageAttributes) (setFrame : bool)
    (setType : AssetType → PhysicsStageAttributes → PhysicsStageAttributes) :
  objects (registry w) !! p = Some a →
  let yUp : Vector3 * Vector3 := ((0#1, 1#1, 0#1), (0#1, 0#1, -1#1))%Q in
  let zUp : Vector3 * Vector3 := ((0#1, 0#1, 1#1), (0#1, 1#1, 0#1))%Q in
  let selects (fileName : string) (t : AssetType)
      (frame : Vector3 * Vector3) : Prop :=
    setDefaultFileNameBasedAttributes p setFrame fileName
      (λ t, call p (setType t)) w
    = Some (tt, store p (if setFrame
                         then setOrientFront frame.2
                                (setOrientUp frame.1 (setType t a))
                         else setType t a) w) in
  (∀ prefix, selects (prefix ++ "_semantic.ply") INSTANCE_MESH yUp) ∧
  (∀ prefix, selects (prefix ++ "mesh.ply") FRL_PTEX_MESH zUp) ∧
  (∀ prefix, selects (prefix ++ "house.json") SUNCG_SCENE yUp) ∧
  (∀ prefix, selects (prefix ++ ".glb") MP3D_MESH zUp) ∧
  (∀ fileName,
     Str.endsWith fileName "_semantic.ply" = false →
     Str.endsWith fileName "mesh.ply" = false →
     Str.endsWith fileName "house.json" = false →
     Str.endsWith fileName ".glb" = false →
     selects fileName UNKNOWN yUp).
Proof.
  intros Hp yUp zUp selects. unfold selects.
  split; [|split; [|split; [|split]]];
    [intros pre | intros pre | intros pre | intros pre
     | intros fileName H1 H2 H3 H4];
    rewrite (setDefaultFileNameBasedAttributes_run p setFrame _ setType a w Hp);
    unfold defaultFileNameBased.
  - destruct (fileNameAssetType_suffix pre) as (-> & _).
    by destruct (fileNameFrame_suffix pre) as (-> & _).
  - destruct (fileNameAssetType_suffix pre) as (_ & -> & _).
    by destruct (fileNameFrame_suffix pre) as (_ & -> & _).
  - destruct (fileNameAssetType_suffix pre) as (_ & _ & -> & _).
    by destruct (fileNameFrame_suffix pre) as (_ & _ & -> & _).
  - destruct (fileNameAssetType_suffix pre) as (_ & _ & _ & ->).
    by destruct (fileNameFrame_suffix pre) as (_ & _ & _ & ->).
  - unfold fileNameAssetType, fileNameFrame.
    by rewrite H1, H2, H3, H4.
Qed.

Lemma file_name_suffix_rules_witness :
  setDefaultFileNameBasedAttributes 0 true ("stages/castle" ++ ".glb")
    (λ t, call 0 (setRenderAssetType t))
    (store 0 (PhysicsStageAttributes_create "castle") emptyWorld)
  = Some (tt,
          store 0
            (setOrientFront (0#1, 1#1, 0#1)%Q
               (setOrientUp (0#1, 0#1, 1#1)%Q
                  (setRenderAssetType MP3D_MESH
                     (PhysicsStageAttributes_create "castle"))))
            (store 0 (PhysicsStageAttributes_create "castle") emptyWorld)).
Proof.
  exact (proj1 (proj2 (proj2 (proj2
           (file_name_suffix_rules 0
              (store 0 (PhysicsStageAttributes_create "castle") emptyWorld)
              (PhysicsStageAttributes_create "castle") true
              setRenderAssetType eq_refl)))) "stages/castle").
Defined.

(** ** More of the shared initializer *)

Lemma initRecord_types env this a :
  let a' := initRecord env this a in
  getSemanticAssetType a' = INSTANCE_MESH ∧
  getOrientUp a' = (fileNameFrame (getHandle a)).1 ∧
  getOrientFront a' = (fileNameFrame (getHandle a)).2 ∧
  getIsDirty a' = true ∧
  getOrigin a' = getOrigin a ∧
  getFileDirectory a'
  = match Str.find_last_of (getHandle a) "/" with
    | Some loc => Str.substr0 (getHandle a) (Some loc)
    | None => getFileDirectory a
    end ∧
  match physicsAttributesManager_ env
        !! physicsManagerAttributesHandle_ this with
  | Some physMgrAttributes =>
      getGravity a' = Some (pm_getGravity physMgrAttributes) ∧
      getFrictionCoefficient a'
      = Some (pm_getFrictionCoefficient physMgrAttributes) ∧
      getRestitutionCoefficient a'
      = Some (pm_getRestitutionCoefficient physMgrAttributes)
  | None =>
      getGravity a' = getGravity a ∧
      getFrictionCoefficient a' = getFrictionCoefficient a ∧
      getRestitutionCoefficient a' = getRestitutionCoefficient a
  end.
Proof.
  destruct a as [h fd rh ch sh nh hf ls rt ct st rp cp um rl fc d m g o fr re
                 up fw].
  unfold initRecord, defaultFileNameBased.
  destruct (Str.find_last_of (getHandle _) "/"),
    (physicsAttributesManager_ env !! physicsManagerAttributesHandle_ this);
    cbn -[navmeshCandidate houseChosen fileNameAssetType fileNameFrame
          io.removeExtension String.append];
    destruct (Directory_exists env (navmeshCandidate this h));
    cbn -[navmeshCandidate houseChosen fileNameAssetType fileNameFrame
          io.removeExtension String.append];
    (split; [by destruct (fileNameAssetType_suffix
                            (io.removeExtension (houseChosen env this h)))
               as [-> _]|]);
    repeat split; reflexivity.
Qed.

Lemma initNewAttribsInternal_run env this p a w :
  objects (registry w) !! p = Some a →
  initNewAttribsInternal env this p w
  = Some (p, store p (initRecord env this a) w).
Proof.
  intros Hp. rewrite <- (store_id p a w Hp) at 1.
  apply initNewAttribsInternal_store.
Qed.

(** X2.  After [initNewAttribsInternal] the render and the collision slot
    both hold the record's handle and the same asset type; the semantic
    handle ends in "_semantic.ply" and the semantic slot is therefore always
    typed as an instance mesh; and the orientation frame is the one that the
    render slot's type calls for (Z up for FRL PTex and MP3D meshes, Y up
    otherwise): the collision and semantic passes never move it. *)
Theorem initNewAttribsInternal_types_and_frame (env : Environment)
    (this : StageAttributesManager) (p : ptr) (w : World)
    (a : PhysicsStageAttributes) :
  objects (registry w) !! p = Some a →
  ∃ w' a',
    initNewAttribsInternal env this p w = Some (p, w') ∧
    objects (registry w') !! p = Some a' ∧
    getRenderAssetHandle a' = getHandle a ∧
    getCollisionAssetHandle a' = getHandle a ∧
    getRenderAssetType a' = getCollisionAssetType a' ∧
    Str.endsWith (getSemanticAssetHandle a') "_semantic.ply" = true ∧
    getSemanticAssetType a' = INSTANCE_MESH ∧
    (getOrientUp a', getOrientFront a')
    = match getRenderAssetType a' with
      | FRL_PTEX_MESH | MP3D_MESH =>
          ((0#1, 0#1, 1#1), (0#1, 1#1, 0#1))%Q
      | _ => ((0#1, 1#1, 0#1), (0#1, 0#1, -1#1))%Q
      end.
Proof.
  intros Hp. exists (store p (initRecord env this a) w), (initRecord env this a).
  split; [by apply initNewAttribsInternal_run|].
  split; [apply store_lookup|].
  destruct (initRecord_fields env this a)
    as (_ & Hrh & Hch & Hrt & Hct & _ & _ & _ & _ & _ & _ & _ & _ & Hsem & _).
  destruct (initRecord_types env this a) as (Hst & Hup & Hfw & _).
  cbv zeta in *.
  split; [exact Hrh|]. split; [exact Hch|].
  split; [by rewrite Hrt, Hct|].
  split; [rewrite Hsem; apply endsWith_app|].
  split; [exact Hst|].
  rewrite Hup, Hfw, Hrt. unfold fileNameFrame, fileNameAssetType.
  destruct (Str.endsWith (getHandle a) "_semantic.ply"); [reflexivity|].
  destruct (Str.endsWith (getHandle a) "mesh.ply"); [reflexivity|].
  destruct (Str.endsWith (getHandle a) "house.json"); [reflexivity|].
  destruct (Str.endsWith (getHandle a) ".glb"); reflexivity.
Qed.

Lemma initNewAttribsInternal_types_and_frame_witness :
  ∃ w' a',
    initNewAttribsInternal (sampleEnvironment [] []) (sampleManager ∅) 0
      (store 0 (PhysicsStageAttributes_create "castle.glb") emptyWorld)
    = Some (0, w') ∧
    objects (registry w') !! 0 = Some a' ∧
    getSemanticAssetType a' = INSTANCE_MESH ∧
    getRenderAssetType a' = getCollisionAssetType a'.
Proof.
  destruct (initNewAttribsInternal_types_and_frame
              (sampleEnvironment [] []) (sampleManager ∅) 0
              (store 0 (PhysicsStageAttributes_create "castle.glb") emptyWorld)
              (PhysicsStageAttributes_create "castle.glb") eq_refl)
    as (w' & a' & Hrun & Hobj & _ & _ & Hty & _ & Hsem & _).
  exists w', a'. split; [exact Hrun|]. split; [exact Hobj|].
  split; [exact Hsem | exact Hty].
Defined.

(** X3.  The physical defaults of [initNewAttribsInternal].  When the
    physics attributes manager has a template under the configured handle,
    the record takes its gravity, friction coefficient and restitution
    coefficient from it; when the handle is missing, the three fields stay
    as they were.  The origin is never touched. *)
Theorem initNewAttribsInternal_physics_defaults (env : Environment)
    (this : StageAttributesManager) (p : ptr) (w : World)
    (a : PhysicsStageAttributes) :
  objects (registry w) !! p = Some a →
  ∃ w' a',
    initNewAttribsInternal env this p w = Some (p, w') ∧
    objects (registry w') !! p = Some a' ∧
    getOrigin a' = getOrigin a ∧
    match physicsAttributesManager_ env
          !! physicsManagerAttributesHandle_ this with
    | Some physMgrAttributes =>
        getGravity a' = Some (pm_getGravity physMgrAttributes) ∧
        getFrictionCoefficient a'
        = Some (pm_getFrictionCoefficient physMgrAttributes) ∧
        getRestitutionCoefficient a'
        = Some (pm_getRestitutionCoefficient physMgrAttributes)
    | None =>
        getGravity a' = getGravity a ∧
        getFrictionCoefficient a' = getFrictionCoefficient a ∧
        getRestitutionCoefficient a' = getRestitutionCoefficient a
    end.
Proof.
  intros Hp. exists (store p (initRecord env this a) w), (initRecord env this a).
  split; [by apply initNewAttribsInternal_run|].
  split; [apply store_lookup|].
  destruct (initRecord_types env this a) as (_ & _ & _ & _ & Ho & _ & Hphys).
  split; [exact Ho | exact Hphys].
Qed.

Lemma initNewAttribsInternal_physics_defaults_witness :
  ∃ w' a',
    initNewAttribsInternal samplePhysicsEnvironment (sampleManager ∅) 0
      (store 0 (PhysicsStageAttributes_create "NONE") emptyWorld)
    = Some (0, w') ∧
    objects (registry w') !! 0 = Some a' ∧
    getGravity a' = Some (0#1, -98#10, 0#1)%Q ∧
    getFrictionCoefficient a' = Some (4#10)%Q ∧
    getRestitutionCoefficient a' = Some (1#10)%Q.
Proof.
  destruct (initNewAttribsInternal_physics_defaults samplePhysicsEnvironment
              (sampleManager ∅) 0
              (store 0 (PhysicsStageAttributes_create "NONE") emptyWorld)
              (PhysicsStageAttributes_create "NONE") eq_refl)
    as (w' & a' & Hrun & Hobj & _ & Hphys).
  exists w', a'. split; [exact Hrun|]. split; [exact Hobj|]. exact Hphys.
Defined.

(** ** More of finalization *)

(** What holds of every record that finalization accepts. *)
Lemma finalRecord_resolves env loaded handle a a' :
  finalRecord env loaded handle a = Some a' →
  getIsDirty a' = false ∧
  getRenderAssetIsPrimitive a'
  = peer_isValidPrimitiveAttributes env loaded (getRenderAssetHandle a') ∧
  getCollisionAssetIsPrimitive a'
  = peer_isValidPrimitiveAttributes env loaded (getCollisionAssetHandle a') ∧
  (Str.contains handle "NONE" = false →
   (peer_isValidPrimitiveAttributes env loaded (getRenderAssetHandle a')
    = true
    ∨ isValidFileName env (getRenderAssetHandle a') = true) ∧
   (peer_isValidPrimitiveAttributes env loaded (getCollisionAssetHandle a')
    = true
    ∨ isValidFileName env (getCollisionAssetHandle a') = true)).
Proof.
  unfold finalRecord.
  destruct a as [h fd rh ch sh nh hf ls rt ct st rp cp um rl fc d m g o fr re
                 up fw].
  cbn.
  destruct (String.eqb _ ""); [done|].
  destruct (peer_isValidPrimitiveAttributes env loaded rh)
    eqn:Hrp;
    [|destruct (isValidFileName env rh) eqn:Hrf;
      [|destruct (Str.contains handle "NONE") eqn:Hnone; [|done]]];
    (destruct (peer_isValidPrimitiveAttributes env loaded ch) eqn:Hcp;
     [|destruct (isValidFileName env ch) eqn:Hcf;
       [|try (destruct (Str.contains handle "NONE") eqn:Hnone)]]);
    intros [= <-]; cbn; rewrite ?Hrp, ?Hcp;
    (split; [reflexivity|]); (split; [reflexivity|]);
    (split; [reflexivity|]); intros Hn; try discriminate Hn;
    split; auto.
Qed.

Lemma finalRecord_idempotent env loaded handle a a' :
  finalRecord env loaded handle a = Some a' →
  finalRecord env loaded handle a' = Some a'.
Proof.
  unfold finalRecord.
  destruct a as [h fd rh ch sh nh hf ls rt ct st rp cp um rl fc d m g o fr re
                 up fw].
  cbn.
  destruct (String.eqb rh "") eqn:He; [done|].
  destruct (peer_isValidPrimitiveAttributes env loaded rh)
    eqn:Hrp;
    [|destruct (isValidFileName env rh) eqn:Hrf;
      [|destruct (Str.contains handle "NONE") eqn:Hnone; [|done]]];
    (destruct (peer_isValidPrimitiveAttributes env loaded ch) eqn:Hcp;
     [|destruct (isValidFileName env ch) eqn:Hcf;
       [|try (destruct (Str.contains handle "NONE") eqn:Hnone)]]);
    intros [= <-]; cbn; rewrite ?He, ?Hrp, ?Hrf, ?Hcp, ?Hcf, ?Hnone; cbn;
    reflexivity.
Qed.

(** The lines that finalization writes: one error when it aborts; when it
    accepts, one note exactly when the collision asset falls back on the
    render asset. *)
Lemma registerAttributesTemplateFinalize_logged env p handle a w :
  ∃ l,
    registerAttributesTemplateFinalize env p handle (store p a w)
    = Some
        match finalRecord env (objectConfigsLoaded w) handle a with
        | None => (ID_UNDEFINED, store p a (setLogged (logged w ++ l) w))
        | Some a' =>
            (Z.of_nat (getTemplateID handle (registry w)),
             inserted handle (getTemplateID handle (registry w))
                      (fresh (dom (objects (registry (store p a' w))))) a'
                      (store p a' (setLogged (logged w ++ l) w)))
        end ∧
    match finalRecord env (objectConfigsLoaded w) handle a with
    | None => ∃ msg, l = [(ERROR, msg)]
    | Some _ =>
        if peer_isValidPrimitiveAttributes env (objectConfigsLoaded w)
             (getCollisionAssetHandle a)
           || isValidFileName env (getCollisionAssetHandle a)
           || Str.contains handle "NONE"
        then l = []
        else ∃ msg, l = [(INFO, msg)]
    end.
Proof.
  unfold registerAttributesTemplateFinalize, finalRecord.
  rewrite run_read.
  destruct (String.eqb (getRenderAssetHandle a) "").
  { eexists [_]. run. split; [reflexivity | by eexists]. }
  run.
  destruct (peer_isValidPrimitiveAttributes env (objectConfigsLoaded w)
              (getRenderAssetHandle a));
    [|destruct (isValidFileName env (getRenderAssetHandle a));
      [|destruct (Str.contains handle "NONE") eqn:Hnone;
        [|eexists [_]; run; split; [reflexivity | by eexists]]]];
    run;
    (destruct (peer_isValidPrimitiveAttributes env (objectConfigsLoaded w)
                 (getCollisionAssetHandle a));
     [|destruct (isValidFileName env (getCollisionAssetHandle a));
       [|try (destruct (Str.contains handle "NONE"))]]);
    run; cbn [orb];
    first [ exists []; rewrite app_nil_r; split; reflexivity
          | eexists [_]; split; [reflexivity | by eexists] ].
Qed.

Lemma registerAttributesTemplateFinalize_run_logged env p handle a w :
  objects (registry w) !! p = Some a →
  ∃ l,
    registerAttributesTemplateFinalize env p handle w
    = Some
        match finalRecord env (objectConfigsLoaded w) handle a with
        | None => (ID_UNDEFINED, setLogged (logged w ++ l) w)
        | Some a' =>
            (Z.of_nat (getTemplateID handle (registry w)),
             inserted handle (getTemplateID handle (registry w))
                      (fresh (dom (objects (registry w)))) a'
                      (store p a' (setLogged (logged w ++ l) w)))
        end ∧
    match finalRecord env (objectConfigsLoaded w) handle a with
    | None => ∃ msg, l = [(ERROR, msg)]
    | Some _ =>
        if peer_isValidPrimitiveAttributes env (objectConfigsLoaded w)
             (getCollisionAssetHandle a)
           || isValidFileName env (getCollisionAssetHandle a)
           || Str.contains handle "NONE"
        then l = []
        else ∃ msg, l = [(INFO, msg)]
    end.
Proof.
  intros Hp.
  destruct (registerAttributesTemplateFinalize_logged env p handle a w)
    as (l & Hrun & Hl).
  exists l. split; [|exact Hl].
  rewrite (store_id p a w Hp) in Hrun. rewrite Hrun.
  destruct (finalRecord env (objectConfigsLoaded w) handle a) as [a'|].
  - by rewrite (dom_objects_store p a' a w Hp).
  - f_equal. f_equal. apply (store_id p a). exact Hp.
Qed.

(** X4.  What holds of every record that
    [registerAttributesTemplateFinalize] accepts.  The record behind the
    caller's pointer and the library's own copy (another object) hold the
    same content; the dirty flag is clear; each of the two primitive flags
    says whether the peer object manager knows the slot's final handle as a
    primitive; and, unless the stage handle contains "NONE", the render and
    the collision handle each resolve: as a primitive or as an existing
    file. *)
Theorem finalize_accepted_record_resolves (env : Environment) (p : ptr)
    (handle : string) (w w' : World) (a : PhysicsStageAttributes) (id : Z) :
  objects (registry w) !! p = Some a →
  registerAttributesTemplateFinalize env p handle w = Some (id, w') →
  id ≠ ID_UNDEFINED →
  ∃ stored a',
    templateLibrary_ (registry w') !! handle = Some (Z.to_nat id, stored) ∧
    stored ≠ p ∧
    objects (registry w') !! stored = Some a' ∧
    objects (registry w') !! p = Some a' ∧
    getIsDirty a' = false ∧
    getRenderAssetIsPrimitive a'
    = peer_isValidPrimitiveAttributes env (objectConfigsLoaded w')
        (getRenderAssetHandle a') ∧
    getCollisionAssetIsPrimitive a'
    = peer_isValidPrimitiveAttributes env (objectConfigsLoaded w')
        (getCollisionAssetHandle a') ∧
    (Str.contains handle "NONE" = false →
     (getRenderAssetIsPrimitive a' = true
      ∨ isValidFileName env (getRenderAssetHandle a') = true) ∧
     (getCollisionAssetIsPrimitive a' = true
      ∨ isValidFileName env (getCollisionAssetHandle a') = true)).
Proof.
  intros Hp Hrun Hid.
  destruct (registerAttributesTemplateFinalize_run env p handle a w Hp)
    as [l Hrun'].
  rewrite Hrun in Hrun'.
  destruct (finalRecord env (objectConfigsLoaded w) handle a) as [a'|]
    eqn:Hfinal; injection Hrun' as -> ->; [|done].
  destruct (inserted_facts handle (getTemplateID handle (registry w)) a'
              p a w (logged w ++ l) Hp)
    as (Hlib & Hnew & Hcopy & Hobj & Hloaded).
  destruct (finalRecord_resolves _ _ _ _ _ Hfinal)
    as (Hclean & Hrp & Hcp & Hres).
  exists (fresh (dom (objects (registry w)))), a'. rewrite Nat2Z.id.
  split; [exact Hlib|].
  split; [by eapply fresh_object_ne|].
  split; [exact Hcopy|]. split; [exact Hobj|]. split; [exact Hclean|].
  cbn [objectConfigsLoaded inserted store setRegistry setLogged].
  split; [exact Hrp|]. split; [exact Hcp|].
  intros Hn. rewrite Hrp, Hcp. exact (Hres Hn).
Qed.

Lemma finalize_accepted_record_resolves_witness :
  ∃ id w' stored a',
    registerAttributesTemplateFinalize (sampleEnvironment [] []) 0 "stage"
      (store 0 (sampleRecord "cubeSolid" "missing") emptyWorld)
    = Some (id, w') ∧
    objects (registry w') !! stored = Some a' ∧
    getIsDirty a' = false ∧
    (getCollisionAssetIsPrimitive a' = true
     ∨ isValidFileName (sampleEnvironment [] []) (getCollisionAssetHandle a')
       = true).
Proof.
  destruct (registerAttributesTemplateFinalize (sampleEnvironment [] []) 0
              "stage"
              (store 0 (sampleRecord "cubeSolid" "missing") emptyWorld))
    as [[id w']|] eqn:Hrun; [|vm_compute in Hrun; discriminate Hrun].
  assert (id ≠ ID_UNDEFINED) as Hid.
  { intros ->. vm_compute in Hrun. discriminate Hrun. }
  destruct (finalize_accepted_record_resolves (sampleEnvironment [] []) 0
              "stage"
              (store 0 (sampleRecord "cubeSolid" "missing") emptyWorld) w'
              (sampleRecord "cubeSolid" "missing") id eq_refl Hrun Hid)
    as (stored & a' & _ & _ & Hcopy & _ & Hclean & _ & _ & Hres).
  exists id, w', stored, a'. split; [reflexivity|].
  split; [exact Hcopy|]. split; [exact Hclean|].
  exact (proj2 (Hres eq_refl)).
Defined.

(** X5.  Finalization is idempotent.  Finalizing an accepted record a
    second time under the same handle returns the same ID, leaves the record
    and the content of the library's copy as the first run made them,
    changes no other entry of the library, and writes nothing to the log. *)
Theorem finalize_again_changes_nothing (env : Environment) (p : ptr)
    (handle : string) (w w' : World) (a : PhysicsStageAttributes) (id : Z) :
  objects (registry w) !! p = Some a →
  registerAttributesTemplateFinalize env p handle w = Some (id, w') →
  id ≠ ID_UNDEFINED →
  ∃ w'' a' stored stored',
    registerAttributesTemplateFinalize env p handle w' = Some (id, w'') ∧
    objects (registry w') !! p = Some a' ∧
    objects (registry w'') !! p = Some a' ∧
    templateLibrary_ (registry w') !! handle = Some (Z.to_nat id, stored) ∧
    objects (registry w') !! stored = Some a' ∧
    templateLibrary_ (registry w'') !! handle = Some (Z.to_nat id, stored') ∧
    objects (registry w'') !! stored' = Some a' ∧
    (∀ other, other ≠ handle →
       templateLibrary_ (registry w'') !! other
       = templateLibrary_ (registry w') !! other) ∧
    logged w'' = logged w'.
Proof.
  intros Hp Hrun Hid.
  destruct (registerAttributesTemplateFinalize_run env p handle a w Hp)
    as [l Hrun'].
  rewrite Hrun in Hrun'.
  destruct (finalRecord env (objectConfigsLoaded w) handle a) as [a'|]
    eqn:Hfinal; injection Hrun' as -> ->; [|done].
  destruct (inserted_facts handle (getTemplateID handle (registry w)) a'
              p a w (logged w ++ l) Hp)
    as (Hlib & Hnew & Hcopy & Hobj & Hloaded).
  set (w1 := inserted handle (getTemplateID handle (registry w))
               (fresh (dom (objects (registry w)))) a'
               (store p a' (setLogged (logged w ++ l) w))) in *.
  destruct (registerAttributesTemplateFinalize_run_logged env p handle a' w1
              Hobj) as (l2 & Hrun2 & Hl2).
  rewrite Hloaded, (finalRecord_idempotent _ _ _ _ _ Hfinal) in Hrun2, Hl2.
  destruct (finalRecord_resolves _ _ _ _ _ Hfinal) as (_ & Hrp & Hcp & Hres).
  assert (l2 = []) as ->.
  { destruct (Str.contains handle "NONE") eqn:Hnone.
    - by rewrite orb_true_r in Hl2.
    - destruct (Hres eq_refl) as [_ [Hc|Hc]]; rewrite Hc in Hl2;
        [exact Hl2 | by rewrite orb_true_r in Hl2]. }
  assert (getTemplateID handle (registry w1)
          = getTemplateID handle (registry w)) as Hsame.
  { unfold getTemplateID at 1. by rewrite Hlib. }
  rewrite Hsame, app_nil_r in Hrun2.
  eexists _, a', _, _. rewrite Nat2Z.id.
  split; [exact Hrun2|]. split; [exact Hobj|].
  split.
  { rewrite inserted_lookup_other; [apply store_lookup|].
    by eapply fresh_object_ne. }
  split; [exact Hlib|]. split; [exact Hcopy|].
  split; [apply inserted_lookup_handle|].
  split; [apply inserted_lookup_copy|].
  split; [|reflexivity].
  intros other Hne. cbn. by rewrite lookup_insert_ne.
Qed.

Lemma finalize_again_changes_nothing_witness :
  ∃ id w' w'' a',
    registerAttributesTemplateFinalize (sampleEnvironment [] []) 0 "stage"
      (store 0 (sampleRecord "cubeSolid" "missing") emptyWorld)
    = Some (id, w') ∧
    registerAttributesTemplateFinalize (sampleEnvironment [] []) 0 "stage" w'
    = Some (id, w'') ∧
    objects (registry w') !! 0 = Some a' ∧
    objects (registry w'') !! 0 = Some a' ∧
    logged w'' = logged w'.
Proof.
  destruct (registerAttributesTemplateFinalize (sampleEnvironment [] []) 0
              "stage"
              (store 0 (sampleRecord "cubeSolid" "missing") emptyWorld))
    as [[id w']|] eqn:Hrun; [|vm_compute in Hrun; discriminate Hrun].
  assert (id ≠ ID_UNDEFINED) as Hid.
  { intros ->. vm_compute in Hrun. discriminate Hrun. }
  destruct (finalize_again_changes_nothing (sampleEnvironment [] []) 0
              "stage"
              (store 0 (sampleRecord "cubeSolid" "missing") emptyWorld) w'
              (sampleRecord "cubeSolid" "missing") id eq_refl Hrun Hid)
    as (w'' & a' & _ & _ & Hrun2 & Hobj & Hobj2 & _ & _ & _ & _ & _ & Hlog).
  exists id, w', w'', a'. split; [reflexivity|]. split; [exact Hrun2|].
  split; [exact Hobj|]. split; [exact Hobj2 | exact Hlog].
Defined.

(** X6.  The log of [registerAttributesTemplateFinalize].  A rejected
    record costs exactly one line, an error; an accepted one writes no
    error, and writes one note exactly when the collision handle is neither
    a primitive nor a file and the stage handle does not contain "NONE" (the
    fallback on the render asset).  The peer's loaded configurations are
    not touched. *)
Theorem finalize_log_lines (env : Environment) (p : ptr) (handle : string)
    (w : World) (a : PhysicsStageAttributes) :
  objects (registry w) !! p = Some a →
  ∃ id w' l,
    registerAttributesTemplateFinalize env p handle w = Some (id, w') ∧
    logged w' = (logged w ++ l)%list ∧
    objectConfigsLoaded w' = objectConfigsLoaded w ∧
    (id = ID_UNDEFINED → ∃ msg, l = [(ERROR, msg)]) ∧
    (id ≠ ID_UNDEFINED →
     if peer_isValidPrimitiveAttributes env (objectConfigsLoaded w)
          (getCollisionAssetHandle a)
        || isValidFileName env (getCollisionAssetHandle a)
        || Str.contains handle "NONE"
     then l = []
     else ∃ msg, l = [(INFO, msg)]).
Proof.
  intros Hp.
  destruct (registerAttributesTemplateFinalize_run_logged env p handle a w Hp)
    as (l & Hrun & Hl).
  destruct (finalRecord env (objectConfigsLoaded w) handle a) as [a'|].
  - eexists _, _, l. split; [exact Hrun|]. split; [reflexivity|].
    split; [reflexivity|]. split; [|done].
    intros Hid. by apply getTemplateID_ne_UNDEFINED in Hid.
  - eexists _, _, l. split; [exact Hrun|]. split; [reflexivity|].
    split; [reflexivity|]. split; done.
Qed.

Lemma finalize_log_lines_witness :
  ∃ id w' msg,
    registerAttributesTemplateFinalize (sampleEnvironment [] []) 0 "stage"
      (store 0 (sampleRecord "nowhere" "nowhere") emptyWorld)
    = Some (id, w') ∧
    id = ID_UNDEFINED ∧
    logged w' = [(ERROR, msg)].
Proof.
  destruct (finalize_log_lines (sampleEnvironment [] []) 0 "stage"
              (store 0 (sampleRecord "nowhere" "nowhere") emptyWorld)
              (sampleRecord "nowhere" "nowhere") eq_refl)
    as (id & w' & l & Hrun & Hlog & _ & Herr & _).
  assert (id = ID_UNDEFINED) as Hid.
  { vm_compute in Hrun. by injection Hrun as <- _. }
  destruct (Herr Hid) as [msg ->].
  exists id, w', msg. split; [exact Hrun|]. split; [exact Hid | exact Hlog].
Defined.

(** ** More of the pipelines *)

Lemma contains_NONE_nonempty handle :
  Str.contains handle "NONE" = true → handle ≠ "".
Proof. by intros H ->. Qed.

(** The record that the primitive pipeline hands to registration. *)
Lemma primitive_fields a :
  let a' :=
    setUseMeshCollision false
      (setCollisionAssetType PRIMITIVE
         (setRenderAssetType PRIMITIVE (setMargin (0#1)%Q a))) in
  getHandle a' = getHandle a ∧
  getRenderAssetHandle a' = getRenderAssetHandle a ∧
  getCollisionAssetHandle a' = getCollisionAssetHandle a ∧
  getRenderAssetType a' = PRIMITIVE ∧
  getCollisionAssetType a' = PRIMITIVE ∧
  getUseMeshCollision a' = false ∧
  getMargin a' = Some (0#1)%Q.
Proof. destruct a. cbn. repeat split; reflexivity. Qed.

(** The fields of an accepted record, slot by slot. *)
Lemma finalRecord_slots env loaded handle a a' :
  finalRecord env loaded handle a = Some a' →
  getHandle a' = getHandle a ∧
  getRenderAssetHandle a' = getRenderAssetHandle a ∧
  getUseMeshCollision a' = getUseMeshCollision a ∧
  getMargin a' = getMargin a ∧
  getGravity a' = getGravity a ∧
  getOrigin a' = getOrigin a ∧
  getOrientUp a' = getOrientUp a ∧
  getOrientFront a' = getOrientFront a ∧
  getRenderAssetType a'
  = (if peer_isValidPrimitiveAttributes env loaded (getRenderAssetHandle a)
        || isValidFileName env (getRenderAssetHandle a)
     then getRenderAssetType a else UNKNOWN) ∧
  getCollisionAssetType a'
  = (if peer_isValidPrimitiveAttributes env loaded (getCollisionAssetHandle a)
        || isValidFileName env (getCollisionAssetHandle a)
        || negb (Str.contains handle "NONE")
     then getCollisionAssetType a else UNKNOWN) ∧
  getCollisionAssetHandle a'
  = (if peer_isValidPrimitiveAttributes env loaded (getCollisionAssetHandle a)
        || isValidFileName env (getCollisionAssetHandle a)
        || Str.contains handle "NONE"
     then getCollisionAssetHandle a else getRenderAssetHandle a).
Proof.
  unfold finalRecord.
  destruct a as [h fd rh ch sh nh hf ls rt ct st rp cp um rl fc d m g o fr re
                 up fw].
  cbn.
  destruct (String.eqb _ ""); [done|].
  destruct (peer_isValidPrimitiveAttributes env loaded rh);
    [|destruct (isValidFileName env rh);
      [|destruct (Str.contains handle "NONE") eqn:Hnone; [|done]]];
    (destruct (peer_isValidPrimitiveAttributes env loaded ch);
     [|destruct (isValidFileName env ch);
       [|try (destruct (Str.contains handle "NONE") eqn:Hnone)]]);
    intros [= <-]; cbn; repeat split; reflexivity.
Qed.

(** Registration adds to the world and changes nothing that was there,
    except the library's entry under the record's handle. *)
Lemma registrationOutcome_frame env registerTemplate p a w l res w' :
  registrationOutcome env registerTemplate p a w l = (res, w') →
  objects (registry w) !! p = None →
  (∀ q b, objects (registry w) !! q = Some b →
          objects (registry w') !! q = Some b) ∧
  (∀ other, other ≠ getHandle a →
     templateLibrary_ (registry w') !! other
     = templateLibrary_ (registry w) !! other) ∧
  (registerTemplate = false →
   res = Some p ∧
   templateLibrary_ (registry w') = templateLibrary_ (registry w) ∧
   logged w' = logged w) ∧
  objectConfigsLoaded w' = objectConfigsLoaded w.
Proof.
  unfold registrationOutcome. intros Hout Hnew.
  assert (∀ b q c, objects (registry w) !! q = Some c →
                   objects (registry (store p b w)) !! q = Some c) as Hstore.
  { intros b q c Hq. cbn. rewrite lookup_insert_ne; [exact Hq|].
    intros ->. congruence. }
  destruct registerTemplate.
  - destruct (finalRecord env (objectConfigsLoaded w) (getHandle a) a)
      as [a'|]; injection Hout as <- <-.
    + split.
      { intros q b Hq. rewrite inserted_lookup_other.
        - by apply (Hstore a').
        - apply (fresh_object_ne (registry (store p a' w)) q b).
          by apply (Hstore a'). }
      split; [|done]. intros other Hne. cbn. by rewrite lookup_insert_ne.
    + split; [intros q b Hq; by apply (Hstore a)|]. done.
  - injection Hout as <- <-.
    split; [intros q b Hq; by apply (Hstore a)|]. done.
Qed.

(** What registration leaves at the caller's pointer and in the library. *)
Lemma inserted_store_facts handle id p a' w l :
  let q := fresh (dom (objects (registry (store p a' w)))) in
  let w' := inserted handle id q a' (store p a' (setLogged l w)) in
  templateLibrary_ (registry w') !! handle = Some (id, q) ∧
  q ≠ p ∧
  objects (registry w') !! q = Some a' ∧
  objects (registry w') !! p = Some a'.
Proof.
  intros q w'.
  assert (q ≠ p) as Hne
    by apply (fresh_object_ne (registry (store p a' w)) p a'), store_lookup.
  split; [apply inserted_lookup_handle|]. split; [exact Hne|].
  split; [apply inserted_lookup_copy|].
  unfold w'. rewrite inserted_lookup_other by exact Hne. apply store_lookup.
Qed.

(** X7.  [createPrimBasedAttributesTemplate] gives null exactly when the
    handle is no primitive of the peer object manager, or registration is
    asked for under the empty handle.  For an unknown primitive nothing is
    created: the registry is as before and the log has one more line, an
    error.  A record that is returned is a new object whose render and
    collision handles are the primitive's handle, whose render and collision
    types are the primitive type, whose margin is 0 and which does not use
    mesh collision; when it was registered, both primitive flags are set and
    the library holds a copy under the handle. *)
Theorem createPrimBasedAttributesTemplate_outcome (env : Environment)
    (this : StageAttributesManager) (primAssetHandle : string)
    (registerTemplate : bool) (w : World) :
  let known :=
    peer_isValidPrimitiveAttributes env (objectConfigsLoaded w)
      primAssetHandle in
  ∃ res w',
    createPrimBasedAttributesTemplate env this primAssetHandle
      registerTemplate w = Some (res, w') ∧
    (res = None
     ↔ known = false ∨ (registerTemplate = true ∧ primAssetHandle = "")) ∧
    (known = false →
     registry w' = registry w ∧
     objectConfigsLoaded w' = objectConfigsLoaded w ∧
     ∃ msg, logged w' = (logged w ++ [(ERROR, msg)])%list) ∧
    (∀ p, res = Some p →
       objects (registry w) !! p = None ∧
       ∃ a',
         objects (registry w') !! p = Some a' ∧
         getHandle a' = primAssetHandle ∧
         getRenderAssetHandle a' = primAssetHandle ∧
         getCollisionAssetHandle a' = primAssetHandle ∧
         getRenderAssetType a' = PRIMITIVE ∧
         getCollisionAssetType a' = PRIMITIVE ∧
         getUseMeshCollision a' = false ∧
         getMargin a' = Some (0#1)%Q ∧
         (registerTemplate = true →
          getRenderAssetIsPrimitive a' = true ∧
          getCollisionAssetIsPrimitive a' = true ∧
          ∃ stored,
            templateLibrary_ (registry w') !! primAssetHandle
            = Some (getTemplateID primAssetHandle (registry w), stored) ∧
            stored ≠ p ∧
            objects (registry w') !! stored = Some a')).
Proof.
  intros known. subst known.
  destruct (peer_isValidPrimitiveAttributes env (objectConfigsLoaded w)
              primAssetHandle) eqn:Hprim.
  2:{ unfold createPrimBasedAttributesTemplate, isValidPrimitiveAttributes.
      rewrite bind_gets, Hprim. cbn [negb].
      eexists _, _. split; [reflexivity|].
      split; [split; [by left | done]|].
      split; [|done]. intros _. split; [reflexivity|].
      split; [reflexivity | by eexists]. }
  destruct (createPrimBasedAttributesTemplate_run env this primAssetHandle
              registerTemplate w Hprim) as [l Hrun].
  set (a0 := initRecord env this
               (PhysicsStageAttributes_create primAssetHandle)) in *.
  set (a1 := setUseMeshCollision false _) in *.
  set (p := fresh (dom (objects (registry w)))) in *.
  destruct (initRecord_fields env this
              (PhysicsStageAttributes_create primAssetHandle))
    as (Hh & Hrh & Hch & _).
  fold a0 in Hh, Hrh, Hch. cbn [getHandle PhysicsStageAttributes_create] in *.
  destruct (primitive_fields a0) as (Ph & Prh & Pch & Prt & Pct & Pum & Pm).
  fold a1 in Ph, Prh, Pch, Prt, Pct, Pum, Pm.
  rewrite Hh in Ph. rewrite Hrh in Prh. rewrite Hch in Pch.
  assert (objects (registry w) !! p = None) as Hnew
    by apply fresh_object_None.
  unfold registrationOutcome in Hrun. rewrite Ph in Hrun.
  destruct registerTemplate.
  - destruct (String.eqb_spec primAssetHandle "") as [He|He].
    + assert (finalRecord env (objectConfigsLoaded w) primAssetHandle a1
              = None) as Hfinal.
      { apply finalRecord_None_iff. left. by rewrite Prh. }
      rewrite Hfinal in Hrun. eexists _, _. split; [exact Hrun|].
      split; [split; [by right | done]|]. split; done.
    + assert (finalRecord env (objectConfigsLoaded w) primAssetHandle a1
              = Some (setIsClean
                        (setCollisionAssetIsPrimitive true
                           (setRenderAssetIsPrimitive true a1)))) as Hfinal.
      { rewrite finalRecord_resolved; rewrite ?Prh, ?Pch, ?Hprim;
          [reflexivity | exact He | by left | by left]. }
      rewrite Hfinal in Hrun. eexists _, _. split; [exact Hrun|].
      split; [split; [done | intros [|[_ ?]]; done]|].
      split; [done|]. intros q [= <-]. split; [exact Hnew|].
      destruct (finalRecord_slots _ _ _ _ _ Hfinal)
        as (Fh & Frh & Fum & Fm & _ & _ & _ & _ & Frt & Fct & Fch).
      rewrite Prh, Pch, Hprim in *. cbn [orb] in *.
      destruct (inserted_store_facts primAssetHandle
                  (getTemplateID primAssetHandle (registry w)) p
                  (setIsClean
                     (setCollisionAssetIsPrimitive true
                        (setRenderAssetIsPrimitive true a1)))
                  w (logged w ++ l))
        as (Hlib & Hne & Hcopy & Hobj).
      eexists. split; [exact Hobj|].
      rewrite Fh, Frh, Fum, Fm, Frt, Fct, Fch.
      repeat (split; [assumption || reflexivity|]).
      intros _. split; [by destruct a1|]. split; [by destruct a1|].
      eexists. split; [exact Hlib|]. split; [exact Hne | exact Hcopy].
  - eexists _, _. split; [exact Hrun|].
    split; [split; [done | intros [|[? _]]; done]|].
    split; [done|]. intros q [= <-]. split; [exact Hnew|].
    exists a1. split; [apply store_lookup|].
    repeat (split; [assumption|]). done.
Qed.


Lemma registerAttributesTemplate_store_logged env p handle a w :
  ∃ l,
    bind (registerAttributesTemplate env p handle)
         (λ attrID, if Z.eqb attrID ID_UNDEFINED then ret None
                    else ret (Some p)) (store p a w)
    = Some
        match finalRecord env (objectConfigsLoaded w) handle a with
        | None => (None, store p a (setLogged (logged w ++ l) w))
        | Some a' =>
            (Some p,
             inserted handle (getTemplateID handle (registry w))
                      (fresh (dom (objects (registry (store p a' w))))) a'
                      (store p a' (setLogged (logged w ++ l) w)))
        end ∧
    finalizationLines env (objectConfigsLoaded w) handle a l.
Proof.
  destruct (registerAttributesTemplateFinalize_logged env p handle a w)
    as (l & Hrun & Hl).
  exists l. split; [|exact Hl]. unfold registerAttributesTemplate.
  destruct (finalRecord env (objectConfigsLoaded w) handle a) as [a'|];
    rewrite (bind_Some _ _ _ _ _ Hrun).
  - by rewrite eqb_template_ID_UNDEFINED.
  - reflexivity.
Qed.

Lemma postCreateRegister_store_logged env registerTemplate p a w :
  ∃ l,
    postCreateRegister env p registerTemplate (store p a w)
    = Some (registrationOutcome env registerTemplate p a w l) ∧
    registrationLines env registerTemplate a w l.
Proof.
  unfold postCreateRegister, registrationOutcome, registrationLines.
  destruct registerTemplate; [|by exists []].
  rewrite run_read. apply registerAttributesTemplate_store_logged.
Qed.

Lemma logCreated_run (m : M (option ptr)) msg registerTemplate w outcome :
  m w = Some outcome →
  bind m (logCreated msg registerTemplate) w
  = Some (createdOutcome msg registerTemplate outcome).
Proof.
  intros Hm. destruct outcome as [res w1].
  rewrite (bind_Some _ _ _ _ _ Hm). unfold logCreated, createdOutcome.
  by destruct res.
Qed.

(** [createAttributesTemplate], pipeline by pipeline. *)
Lemma createAttributesTemplate_primitive env this handle registerTemplate w :
  peer_isValidPrimitiveAttributes env (objectConfigsLoaded w) handle = true →
  ∃ l,
    createAttributesTemplate env this handle registerTemplate w
    = Some (createdOutcome ("Primitive Asset (" ++ handle ++ ") Based")
              registerTemplate
              (registrationOutcome env registerTemplate
                 (fresh (dom (objects (registry w))))
                 (primitiveRecord env this handle) w l)) ∧
    registrationLines env registerTemplate (primitiveRecord env this handle)
      w l.
Proof.
  intros Hprim. rewrite createAttributesTemplate_unfold, Hprim.
  assert (∃ l,
            createPrimBasedAttributesTemplate env this handle
              registerTemplate w
            = Some (registrationOutcome env registerTemplate
                      (fresh (dom (objects (registry w))))
                      (primitiveRecord env this handle) w l) ∧
            registrationLines env registerTemplate
              (primitiveRecord env this handle) w l) as (l & Hrun & Hl).
  { unfold createPrimBasedAttributesTemplate, isValidPrimitiveAttributes.
    rewrite bind_gets, Hprim. cbn [negb].
    rewrite run_create.
    rewrite (bind_Some _ _ _ _ _ (initNewAttribsInternal_store _ _ _ _ _)).
    run. apply postCreateRegister_store_logged. }
  exists l. split; [|exact Hl]. by apply logCreated_run.
Qed.

Lemma createAttributesTemplate_file env this handle registerTemplate w :
  peer_isValidPrimitiveAttributes env (objectConfigsLoaded w) handle = false →
  isValidFileName env handle = true →
  Str.contains (Str.lowercase handle) "scene_config.json" = false →
  ∃ l,
    createAttributesTemplate env this handle registerTemplate w
    = Some (createdOutcome ("File (" ++ handle ++ ") Based")
              registerTemplate
              (registrationOutcome env registerTemplate
                 (fresh (dom (objects (registry w))))
                 (initRecord env this (PhysicsStageAttributes_create handle))
                 w l)) ∧
    registrationLines env registerTemplate
      (initRecord env this (PhysicsStageAttributes_create handle)) w l.
Proof.
  intros Hprim Hfile Hjson.
  rewrite createAttributesTemplate_unfold, Hprim, Hfile, Hjson.
  assert (∃ l,
            createBackCompatAttributesTemplate env this handle
              registerTemplate w
            = Some (registrationOutcome env registerTemplate
                      (fresh (dom (objects (registry w))))
                      (initRecord env this
                         (PhysicsStageAttributes_create handle)) w l) ∧
            registrationLines env registerTemplate
              (initRecord env this (PhysicsStageAttributes_create handle))
              w l) as (l & Hrun & Hl).
  { unfold createBackCompatAttributesTemplate.
    rewrite run_create.
    rewrite (bind_Some _ _ _ _ _ (initNewAttribsInternal_store _ _ _ _ _)).
    apply postCreateRegister_store_logged. }
  exists l. split; [|exact Hl]. by apply logCreated_run.
Qed.

Lemma createAttributesTemplate_default env this handle registerTemplate w :
  peer_isValidPrimitiveAttributes env (objectConfigsLoaded w) handle = false →
  isValidFileName env handle = false →
  ∃ l,
    createAttributesTemplate env this handle registerTemplate w
    = Some (createdOutcome "New default" registerTemplate
              (registrationOutcome env registerTemplate
                 (fresh (dom (objects (registry w))))
                 (initRecord env this (PhysicsStageAttributes_create handle))
                 w l)) ∧
    registrationLines env registerTemplate
      (initRecord env this (PhysicsStageAttributes_create handle)) w l.
Proof.
  intros Hprim Hfile.
  rewrite createAttributesTemplate_unfold, Hprim, Hfile.
  assert (∃ l,
            createDefaultAttributesTemplate env this handle
              registerTemplate w
            = Some (registrationOutcome env registerTemplate
                      (fresh (dom (objects (registry w))))
                      (initRecord env this
                         (PhysicsStageAttributes_create handle)) w l) ∧
            registrationLines env registerTemplate
              (initRecord env this (PhysicsStageAttributes_create handle))
              w l) as (l & Hrun & Hl).
  { unfold createDefaultAttributesTemplate, registrationOutcome,
      registrationLines.
    rewrite run_create.
    rewrite (bind_Some _ _ _ _ _ (initNewAttribsInternal_store _ _ _ _ _)).
    destruct registerTemplate; [|by exists []].
    rewrite getHandle_initRecord_create.
    apply registerAttributesTemplate_store_logged. }
  exists l. split; [|exact Hl]. by apply logCreated_run.
Qed.


Lemma createFileBasedAttributesTemplate_record env this sceneFilename
    registerTemplate w jsonConfig :
  verifyLoadJson env sceneFilename = Some jsonConfig →
  createFileBasedAttributesTemplate env this sceneFilename registerTemplate w
  = postCreateRegister env (fresh (dom (objects (registry w))))
      registerTemplate
      (store (fresh (dom (objects (registry w))))
             (jsonRecord env this sceneFilename jsonConfig)
             (afterSceneConfig sceneFilename jsonConfig w)).
Proof.
  intros Hjson.
  unfold createFileBasedAttributesTemplate, createPhysicsAttributesFromJson,
    jsonRecord, stageFieldsFromJson, afterSceneConfig.
  rewrite Hjson. rewrite bind_assoc, run_create.
  rewrite bind_assoc.
  rewrite (bind_Some _ _ _ _ _ (initNewAttribsInternal_store _ _ _ _ _)).
  set (p := fresh (dom (objects (registry w)))).
  run.
  set (a0 := physicsAttributesFromJson env jsonConfig _).
  rewrite run_jsonIntoConstSetter_Vector3.
  rewrite run_jsonIntoConstSetter_Vector3.
  run. rewrite run_setJSONAssetHandleAndType.
  cbv zeta.
  set (a1 := match json.jsonIntoVal_Vector3 jsonConfig "origin" with
             | Some v => setOrigin v _
             | None => _
             end).
  assert (getSemanticAssetHandle a1 = getSemanticAssetHandle a0) as Hsem.
  { unfold a1. destruct a0.
    by destruct (json.jsonIntoVal_Vector3 jsonConfig "gravity"),
      (json.jsonIntoVal_Vector3 jsonConfig "origin"). }
  rewrite Hsem.
  destruct (jsonAssetHandleAndType env a1 jsonConfig "semantic mesh type"
              "semantic mesh" (getSemanticAssetHandle a0))
    as [[specified semanticFName] semanticType].
  cbn [fst snd].
  destruct specified;
    [rewrite bind_assoc, run_call, run_call | rewrite bind_ret_l];
    run;
    (destruct (json.member jsonConfig "rigid object paths") as [[]|];
     first [ rewrite (bind_Some _ _ _ _ _
                        (forEachFrom_loadRigidObjectPath _ _ _ _ _ _))
           | rewrite bind_ret_l ];
     reflexivity).
Qed.

Lemma stageFieldsFromJson_fields env jsonConfig a :
  let a' := stageFieldsFromJson env jsonConfig a in
  getHandle a' = getHandle a ∧
  getFileDirectory a' = getFileDirectory a ∧
  getRenderAssetHandle a' = getRenderAssetHandle a ∧
  getCollisionAssetHandle a' = getCollisionAssetHandle a ∧
  getRequiresLighting a' = getRequiresLighting a ∧
  getGravity a'
  = match json.jsonIntoVal_Vector3 jsonConfig "gravity" with
    | Some v => Some v
    | None => getGravity a
    end ∧
  getOrigin a'
  = match json.jsonIntoVal_Vector3 jsonConfig "origin" with
    | Some v => Some v
    | None => getOrigin a
    end ∧
  getNavmeshAssetHandle a'
  = match json.jsonIntoVal_string jsonConfig "nav mesh" with
    | Some navmeshFName =>
        Some (Directory.join (getFileDirectory a) navmeshFName)
    | None => getNavmeshAssetHandle a
    end ∧
  getHouseFilename a'
  = match json.jsonIntoVal_string jsonConfig "house filename" with
    | Some houseFName => Directory.join (getFileDirectory a) houseFName
    | None => getHouseFilename a
    end ∧
  getLightSetup a'
  = match json.jsonIntoVal_string jsonConfig "lighting setup" with
    | Some lightSetup => lightSetup
    | None => getLightSetup a
    end.
Proof.
  unfold stageFieldsFromJson. destruct a. cbn -[Directory.join].
  destruct (json.jsonIntoVal_Vector3 jsonConfig "gravity"),
    (json.jsonIntoVal_Vector3 jsonConfig "origin");
    cbn -[Directory.join];
    match goal with
    | |- context [jsonAssetHandleAndType ?e ?r ?d ?t1 ?t2 ?n] =>
        destruct (jsonAssetHandleAndType e r d t1 t2 n)
          as [[[] semanticFName] []]
    end;
    cbn -[Directory.join];
    destruct (json.jsonIntoVal_string jsonConfig "nav mesh"),
      (json.jsonIntoVal_string jsonConfig "house filename"),
      (json.jsonIntoVal_string jsonConfig "lighting setup");
    cbn -[Directory.join]; repeat split; reflexivity.
Qed.

(** The semantic slot after lines 383-396. *)
Lemma stageFieldsFromJson_semantic env jsonConfig a :
  let a' := stageFieldsFromJson env jsonConfig a in
  let r :=
    match json.jsonIntoVal_Vector3 jsonConfig "origin" with
    | Some v => setOrigin v
    | None => id
    end
      (match json.jsonIntoVal_Vector3 jsonConfig "gravity" with
       | Some v => setGravity v a
       | None => a
       end) in
  let decided :=
    jsonAssetHandleAndType env r jsonConfig "semantic mesh type"
                           "semantic mesh" (getSemanticAssetHandle a) in
  getSemanticAssetHandle a'
  = (if decided.1.1 then decided.1.2 else getSemanticAssetHandle a) ∧
  getSemanticAssetType a'
  = (if decided.1.1 then INSTANCE_MESH
     else match decided.2 with
          | Some t => t
          | None => getSemanticAssetType a
          end).
Proof.
  unfold stageFieldsFromJson. destruct a. cbn -[Directory.join].
  destruct (json.jsonIntoVal_Vector3 jsonConfig "gravity"),
    (json.jsonIntoVal_Vector3 jsonConfig "origin");
    cbn -[Directory.join];
    match goal with
    | |- context [jsonAssetHandleAndType ?e ?r ?d ?t1 ?t2 ?n] =>
        destruct (jsonAssetHandleAndType e r d t1 t2 n)
          as [[[] semanticFName] []]
    end;
    cbn -[Directory.join];
    destruct (json.jsonIntoVal_string jsonConfig "nav mesh"),
      (json.jsonIntoVal_string jsonConfig "house filename"),
      (json.jsonIntoVal_string jsonConfig "lighting setup");
    cbn -[Directory.join]; split; reflexivity.
Qed.

Lemma createAttributesTemplate_json env this handle registerTemplate w
    jsonConfig :
  peer_isValidPrimitiveAttributes env (objectConfigsLoaded w) handle = false →
  isValidFileName env handle = true →
  Str.contains (Str.lowercase handle) "scene_config.json" = true →
  verifyLoadJson env handle = Some jsonConfig →
  ∃ l,
    createAttributesTemplate env this handle registerTemplate w
    = Some (createdOutcome ("JSON File (" ++ handle ++ ") Based")
              registerTemplate
              (registrationOutcome env registerTemplate
                 (fresh (dom (objects (registry w))))
                 (jsonRecord env this handle jsonConfig)
                 (afterSceneConfig handle jsonConfig w) l)) ∧
    registrationLines env registerTemplate
      (jsonRecord env this handle jsonConfig)
      (afterSceneConfig handle jsonConfig w) l.
Proof.
  intros Hprim Hfile Hname Hjson.
  rewrite createAttributesTemplate_unfold, Hprim, Hfile, Hname.
  destruct (postCreateRegister_store_logged env registerTemplate
              (fresh (dom (objects (registry w))))
              (jsonRecord env this handle jsonConfig)
              (afterSceneConfig handle jsonConfig w)) as (l & Hrun & Hl).
  exists l. split; [|exact Hl]. apply logCreated_run.
  by rewrite (createFileBasedAttributesTemplate_record _ _ _ _ _ _ Hjson).
Qed.

Lemma createAttributesTemplate_json_unreadable env this handle
    registerTemplate w :
  peer_isValidPrimitiveAttributes env (objectConfigsLoaded w) handle = false →
  isValidFileName env handle = true →
  Str.contains (Str.lowercase handle) "scene_config.json" = true →
  verifyLoadJson env handle = None →
  createAttributesTemplate env this handle registerTemplate w
  = Some (None,
          setLogged
            (logged w
             ++ [(ERROR,
                  "StageAttributesManager::createFileBasedAttributesTemplate : "
                  ++ "Failure reading json " ++ handle ++ ". Aborting.")])
            w).
Proof.
  intros Hprim Hfile Hname Hjson.
  rewrite createAttributesTemplate_unfold, Hprim, Hfile, Hname.
  unfold createFileBasedAttributesTemplate. rewrite Hjson. reflexivity.
Qed.

Lemma registry_afterSceneConfig sceneFilename jsonConfig w :
  registry (afterSceneConfig sceneFilename jsonConfig w) = registry w.
Proof.
  unfold afterSceneConfig.
  by destruct (json.member jsonConfig "rigid object paths") as [[]|].
Qed.

(** Every call of [createAttributesTemplate] either stops at a scene
    configuration that cannot be read, or ends in the registration step of
    one pipeline. *)
Lemma createAttributesTemplate_cases env this handle registerTemplate w :
  (peer_isValidPrimitiveAttributes env (objectConfigsLoaded w) handle = false
   ∧ isValidFileName env handle = true
   ∧ Str.contains (Str.lowercase handle) "scene_config.json" = true
   ∧ verifyLoadJson env handle = None
   ∧ ∃ msg,
       createAttributesTemplate env this handle registerTemplate w
       = Some (None, setLogged (logged w ++ [(ERROR, msg)]) w))
  ∨ ∃ a w1 l msg,
      createAttributesTemplate env this handle registerTemplate w
      = Some (createdOutcome msg registerTemplate
                (registrationOutcome env registerTemplate
                   (fresh (dom (objects (registry w)))) a w1 l)) ∧
      registrationLines env registerTemplate a w1 l ∧
      registry w1 = registry w ∧
      ((peer_isValidPrimitiveAttributes env (objectConfigsLoaded w) handle
        = false
        ∧ isValidFileName env handle = true
        ∧ Str.contains (Str.lowercase handle) "scene_config.json" = true
        ∧ ∃ jsonConfig,
            verifyLoadJson env handle = Some jsonConfig
            ∧ a = jsonRecord env this handle jsonConfig
            ∧ w1 = afterSceneConfig handle jsonConfig w)
       ∨ ((peer_isValidPrimitiveAttributes env (objectConfigsLoaded w) handle
           = true
           ∨ isValidFileName env handle = false
           ∨ Str.contains (Str.lowercase handle) "scene_config.json" = false)
          ∧ w1 = w
          ∧ getHandle a = handle
          ∧ getRenderAssetHandle a = handle
          ∧ getCollisionAssetHandle a = handle)).
Proof.
  destruct (initRecord_fields env this (PhysicsStageAttributes_create handle))
    as (Hh & Hrh & Hch & _).
  cbn [getHandle PhysicsStageAttributes_create] in *.
  destruct (peer_isValidPrimitiveAttributes env (objectConfigsLoaded w)
              handle) eqn:Hprim;
    [|destruct (isValidFileName env handle) eqn:Hfile;
      [destruct (Str.contains (Str.lowercase handle) "scene_config.json")
         eqn:Hname;
       [destruct (verifyLoadJson env handle) as [jsonConfig|] eqn:Hjson|]|]].
  - right.
    destruct (createAttributesTemplate_primitive env this handle
                registerTemplate w Hprim) as (l & Hrun & Hl).
    eexists _, w, l, _. split; [exact Hrun|]. split; [exact Hl|].
    split; [reflexivity|]. right. split; [by left|]. split; [reflexivity|].
    unfold primitiveRecord.
    destruct (primitive_fields
                (initRecord env this (PhysicsStageAttributes_create handle)))
      as (-> & -> & -> & _).
    done.
  - right.
    destruct (createAttributesTemplate_json env this handle registerTemplate
                w jsonConfig Hprim Hfile Hname Hjson) as (l & Hrun & Hl).
    eexists _, _, l, _. split; [exact Hrun|]. split; [exact Hl|].
    split; [apply registry_afterSceneConfig|]. left.
    do 3 (split; [reflexivity|]). by exists jsonConfig.
  - left. do 4 (split; [reflexivity|]). eexists.
    by apply createAttributesTemplate_json_unreadable.
  - right.
    destruct (createAttributesTemplate_file env this handle registerTemplate
                w Hprim Hfile Hname) as (l & Hrun & Hl).
    eexists _, w, l, _. split; [exact Hrun|]. split; [exact Hl|].
    split; [reflexivity|]. right. split; [by right; right|]. done.
  - right.
    destruct (createAttributesTemplate_default env this handle
                registerTemplate w Hprim Hfile) as (l & Hrun & Hl).
    eexists _, w, l, _. split; [exact Hrun|]. split; [exact Hl|].
    split; [reflexivity|]. right. split; [by right; left|]. done.
Qed.

(** The three ways a pipeline can end. *)
Lemma outcome_registered env msg p a a' w1 l :
  finalRecord env (objectConfigsLoaded w1) (getHandle a) a = Some a' →
  ∃ w' stored,
    createdOutcome msg true (registrationOutcome env true p a w1 l)
    = (Some p, w') ∧
    templateLibrary_ (registry w') !! getHandle a
    = Some (getTemplateID (getHandle a) (registry w1), stored) ∧
    stored ≠ p ∧
    objects (registry w') !! stored = Some a' ∧
    objects (registry w') !! p = Some a' ∧
    objectConfigsLoaded w' = objectConfigsLoaded w1 ∧
    logged w'
    = ((logged w1 ++ l)
       ++ [(INFO,
            (msg ++ " stage attributes created" ++ " and registered.")%string)])%list.
Proof.
  intros Hfinal. unfold registrationOutcome. rewrite Hfinal.
  destruct (inserted_store_facts (getHandle a)
              (getTemplateID (getHandle a) (registry w1)) p a' w1
              (logged w1 ++ l)) as (Hlib & Hne & Hcopy & Hobj).
  eexists _, _. split; [reflexivity|]. cbn [registry setLogged].
  split; [exact Hlib|]. split; [exact Hne|]. split; [exact Hcopy|].
  split; [exact Hobj|]. split; reflexivity.
Qed.

Lemma outcome_rejected env msg p a w1 l :
  finalRecord env (objectConfigsLoaded w1) (getHandle a) a = None →
  createdOutcome msg true (registrationOutcome env true p a w1 l)
  = (None, store p a (setLogged (logged w1 ++ l) w1)).
Proof. intros Hfinal. unfold registrationOutcome. by rewrite Hfinal. Qed.

Lemma outcome_unregistered env msg p a w1 l :
  createdOutcome msg false (registrationOutcome env false p a w1 l)
  = (Some p,
     setLogged (logged w1 ++ [(INFO, msg ++ " stage attributes created" ++ ".")])
       (store p a w1)).
Proof. reflexivity. Qed.

(** X8.  Creating and registering a stage from an existing file that is
    neither a primitive nor a scene configuration never fails: the record
    is registered under the file name, with that name in the render and
    the collision slot, both primitive flags off, the same type in both
    slots and the dirty flag clear.  No object configuration is loaded, and
    the log gains exactly the closing line of the file pipeline. *)
Theorem existing_file_stage_registers (env : Environment)
    (this : StageAttributesManager) (handle : string) (w : World) :
  handle ≠ "" →
  peer_isValidPrimitiveAttributes env (objectConfigsLoaded w) handle = false →
  isValidFileName env handle = true →
  Str.contains (Str.lowercase handle) "scene_config.json" = false →
  ∃ p w' stored a',
    createAttributesTemplate env this handle true w = Some (Some p, w') ∧
    objects (registry w) !! p = None ∧
    templateLibrary_ (registry w') !! handle
    = Some (getTemplateID handle (registry w), stored) ∧
    stored ≠ p ∧
    objects (registry w') !! stored = Some a' ∧
    objects (registry w') !! p = Some a' ∧
    getHandle a' = handle ∧
    getRenderAssetHandle a' = handle ∧
    getCollisionAssetHandle a' = handle ∧
    getRenderAssetIsPrimitive a' = false ∧
    getCollisionAssetIsPrimitive a' = false ∧
    getRenderAssetType a' = getCollisionAssetType a' ∧
    getIsDirty a' = false ∧
    objectConfigsLoaded w' = objectConfigsLoaded w ∧
    logged w'
    = (logged w
       ++ [(INFO,
            (("File (" ++ handle ++ ") Based")
             ++ " stage attributes created and registered.")%string)])%list.
Proof.
  intros He Hprim Hfile Hname.
  destruct (createAttributesTemplate_file env this handle true w Hprim Hfile
              Hname) as (l & Hrun & Hl).
  set (a := initRecord env this (PhysicsStageAttributes_create handle)) in *.
  destruct (initRecord_fields env this (PhysicsStageAttributes_create handle))
    as (Hh & Hrh & Hch & Hrt & Hct & _).
  fold a in Hh, Hrh, Hch, Hrt, Hct.
  cbn [getHandle PhysicsStageAttributes_create] in *.
  assert (finalRecord env (objectConfigsLoaded w) handle a
          = Some (setIsClean (setCollisionAssetIsPrimitive false
                                (setRenderAssetIsPrimitive false a))))
    as Hfinal.
  { rewrite (finalRecord_resolved env (objectConfigsLoaded w) handle a);
      rewrite ?Hrh, ?Hch, ?Hprim; [reflexivity | exact He | by right..]. }
  unfold registrationLines, finalizationLines in Hl.
  rewrite Hh, Hfinal, Hch, Hfile, orb_true_r in Hl. cbn [orb] in Hl. subst l.
  rewrite <- Hh in Hfinal.
  destruct (outcome_registered env ("File (" ++ handle ++ ") Based")
              (fresh (dom (objects (registry w)))) a _ w [] Hfinal)
    as (w' & stored & Hout & Hlib & Hne & Hcopy & Hobj & Hloaded & Hlog).
  rewrite Hout in Hrun. rewrite Hh in Hlib. rewrite app_nil_r in Hlog.
  destruct (resolved_fields a false false)
    as (Frh & Fch & Frp & Fcp & Frt & Fct & _).
  destruct (finalRecord_frame _ _ _ _ _ Hfinal) as (Fh & _).
  destruct (finalRecord_resolves _ _ _ _ _ Hfinal) as (Fclean & _).
  eexists _, w', stored, _. split; [exact Hrun|].
  split; [apply fresh_object_None|].
  split; [exact Hlib|]. split; [exact Hne|]. split; [exact Hcopy|].
  split; [exact Hobj|]. rewrite Fh, Frh, Fch, Frp, Fcp, Frt, Fct, Fclean.
  rewrite Hh, Hrh, Hch, Hrt, Hct. repeat (split; [reflexivity|]).
  split; [exact Hloaded | exact Hlog].
Qed.

Lemma existing_file_stage_registers_witness :
  ∃ p w' a',
    createAttributesTemplate (sampleEnvironment ["stages/plane.obj"] [])
      (sampleManager ∅) "stages/plane.obj" true emptyWorld
    = Some (Some p, w') ∧
    objects (registry w') !! p = Some a' ∧
    getCollisionAssetHandle a' = "stages/plane.obj" ∧
    getIsDirty a' = false ∧
    logged w'
    = [(INFO,
        "File (stages/plane.obj) Based stage attributes created and registered.")].
Proof.
  destruct (existing_file_stage_registers
              (sampleEnvironment ["stages/plane.obj"] []) (sampleManager ∅)
              "stages/plane.obj" emptyWorld ltac:(discriminate) eq_refl
              eq_refl eq_refl)
    as (p & w' & stored & a' & Hrun & _ & _ & _ & _ & Hobj & _ & _ & Hch & _
        & _ & _ & Hclean & _ & Hlog).
  exists p, w', a'. split; [exact Hrun|]. split; [exact Hobj|].
  split; [exact Hch|]. split; [exact Hclean | exact Hlog].
Defined.

(** X9.  A handle that is neither a primitive nor an existing file can be
    registered as a stage exactly when it contains "NONE".  With the marker
    the default pipeline registers a record whose render and collision
    types are unknown and whose primitive flags are off, and the log gains
    the closing line only.  Without it the result is null, the library is
    as before, and the log gains one error. *)
Theorem unresolvable_stage_needs_marker (env : Environment)
    (this : StageAttributesManager) (handle : string) (w : World) :
  peer_isValidPrimitiveAttributes env (objectConfigsLoaded w) handle = false →
  isValidFileName env handle = false →
  ∃ res w',
    createAttributesTemplate env this handle true w = Some (res, w') ∧
    (res ≠ None ↔ Str.contains handle "NONE" = true) ∧
    objectConfigsLoaded w' = objectConfigsLoaded w ∧
    (res = None →
     templateLibrary_ (registry w') = templateLibrary_ (registry w) ∧
     ∃ msg, logged w' = (logged w ++ [(ERROR, msg)])%list) ∧
    (∀ p, res = Some p →
       ∃ stored a',
         templateLibrary_ (registry w') !! handle
         = Some (getTemplateID handle (registry w), stored) ∧
         stored ≠ p ∧
         objects (registry w') !! stored = Some a' ∧
         objects (registry w') !! p = Some a' ∧
         getRenderAssetHandle a' = handle ∧
         getCollisionAssetHandle a' = handle ∧
         getRenderAssetType a' = UNKNOWN ∧
         getCollisionAssetType a' = UNKNOWN ∧
         getRenderAssetIsPrimitive a' = false ∧
         getCollisionAssetIsPrimitive a' = false ∧
         logged w'
         = (logged w
            ++ [(INFO,
                 "New default stage attributes created and registered.")])%list).
Proof.
  intros Hprim Hfile.
  destruct (createAttributesTemplate_default env this handle true w Hprim
              Hfile) as (l & Hrun & Hl).
  set (a := initRecord env this (PhysicsStageAttributes_create handle)) in *.
  destruct (initRecord_fields env this (PhysicsStageAttributes_create handle))
    as (Hh & Hrh & Hch & _).
  fold a in Hh, Hrh, Hch.
  cbn [getHandle PhysicsStageAttributes_create] in *.
  unfold registrationLines, finalizationLines in Hl.
  rewrite Hh, Hch, Hprim, Hfile in Hl. cbn [orb] in Hl.
  destruct (finalRecord env (objectConfigsLoaded w) handle a) as [a'|]
    eqn:Hfinal.
  - assert (Str.contains handle "NONE" = true) as Hnone.
    { destruct (Str.contains handle "NONE") eqn:Hn; [reflexivity|].
      assert (finalRecord env (objectConfigsLoaded w) handle a = None)
        as Hcontra; [|congruence].
      apply finalRecord_None_iff. right. by rewrite Hrh. }
    rewrite Hnone in Hl. subst l.
    destruct (finalRecord_slots _ _ _ _ _ Hfinal)
      as (_ & Frh & _ & _ & _ & _ & _ & _ & Frt & Fct & Fch).
    destruct (finalRecord_resolves _ _ _ _ _ Hfinal) as (_ & Frp & Fcp & _).
    rewrite Hrh, Hch, Hprim, Hfile, Hnone in *. cbn [orb negb] in *.
    rewrite Frh in Frp. rewrite Fch in Fcp. rewrite Hprim in Frp, Fcp.
    rewrite <- Hh in Hfinal at 1.
    destruct (outcome_registered env "New default"
                (fresh (dom (objects (registry w)))) a a' w [] Hfinal)
      as (w' & stored & Hout & Hlib & Hne & Hcopy & Hobj & Hloaded & Hlog).
    rewrite Hout in Hrun. rewrite Hh in Hlib. rewrite app_nil_r in Hlog.
    eexists _, w'. split; [exact Hrun|]. split; [done|].
    split; [exact Hloaded|]. split; [done|].
    intros p [= <-]. exists stored, a'.
    repeat (split; [assumption|]). exact Hlog.
  - destruct Hl as [msg ->].
    apply finalRecord_None_iff in Hfinal as Hrej.
    rewrite <- Hh in Hfinal at 1.
    rewrite (outcome_rejected env "New default" _ a w _ Hfinal) in Hrun.
    eexists _, _. split; [exact Hrun|].
    split.
    { split; [done|]. intros Hnone. exfalso.
      destruct Hrej as [He|(_ & _ & Hn)]; [|congruence].
      rewrite Hrh in He. by apply contains_NONE_nonempty in Hnone. }
    split; [reflexivity|]. split; [|done].
    intros _. split; [reflexivity|]. by exists msg.
Qed.

Lemma unresolvable_stage_needs_marker_witness :
  ∃ p w' a',
    createAttributesTemplate (sampleEnvironment [] []) (sampleManager ∅)
      "NONE" true emptyWorld
    = Some (Some p, w') ∧
    objects (registry w') !! p = Some a' ∧
    getRenderAssetType a' = UNKNOWN ∧
    getCollisionAssetType a' = UNKNOWN.
Proof.
  destruct (unresolvable_stage_needs_marker (sampleEnvironment [] [])
              (sampleManager ∅) "NONE" emptyWorld eq_refl eq_refl)
    as (res & w' & Hrun & Hiff & _ & _ & Hsome).
  destruct res as [p|]; [|by destruct (proj2 Hiff eq_refl)].
  destruct (Hsome p eq_refl)
    as (stored & a' & _ & _ & _ & Hobj & _ & _ & Hrt & Hct & _).
  exists p, w', a'. split; [exact Hrun|]. split; [exact Hobj|].
  split; [exact Hrt | exact Hct].
Defined.

(** The closing log line changes the log only. *)
Lemma createdOutcome_frame msg registerTemplate outcome :
  (createdOutcome msg registerTemplate outcome).1 = outcome.1 ∧
  registry (createdOutcome msg registerTemplate outcome).2
  = registry outcome.2 ∧
  objectConfigsLoaded (createdOutcome msg registerTemplate outcome).2
  = objectConfigsLoaded outcome.2.
Proof. destruct outcome as [[p|] w]; done. Qed.

(** X10.  Creating a template without registering it never changes the
    library nor any object that existed before.  The result is null only
    when the handle takes the JSON file-based pipeline and the document
    cannot be read (then nothing at all is created); otherwise exactly one
    new object appears, at the address returned. *)
Theorem createAttributesTemplate_without_registering (env : Environment)
    (this : StageAttributesManager) (handle : string) (w : World) :
  ∃ res w',
    createAttributesTemplate env this handle false w = Some (res, w') ∧
    templateLibrary_ (registry w') = templateLibrary_ (registry w) ∧
    (∀ q b, objects (registry w) !! q = Some b →
            objects (registry w') !! q = Some b) ∧
    (res = None
     ↔ peer_isValidPrimitiveAttributes env (objectConfigsLoaded w) handle
       = false
       ∧ isValidFileName env handle = true
       ∧ Str.contains (Str.lowercase handle) "scene_config.json" = true
       ∧ verifyLoadJson env handle = None) ∧
    (res = None → registry w' = registry w) ∧
    (∀ p, res = Some p →
       objects (registry w) !! p = None ∧
       is_Some (objects (registry w') !! p) ∧
       ∀ q, q ≠ p →
         objects (registry w') !! q = objects (registry w) !! q).
Proof.
  destruct (createAttributesTemplate_cases env this handle false w)
    as [(Hprim & Hfile & Hname & Hjson & msg & Hrun)
       |(a & w1 & l & msg & Hrun & _ & Hreg & Hcase)].
  - eexists _, _. split; [exact Hrun|]. split; [reflexivity|].
    split; [done|]. split; [done|]. split; [done|]. done.
  - rewrite outcome_unregistered in Hrun.
    eexists _, _. split; [exact Hrun|]. cbn. rewrite Hreg.
    split; [reflexivity|].
    assert (objects (registry w) !! fresh (dom (objects (registry w))) = None)
      as Hnew by apply fresh_object_None.
    split.
    { intros q b Hq. rewrite lookup_insert_ne; [exact Hq|].
      intros <-. congruence. }
    split.
    { split; [done|]. intros (Hprim & Hfile & Hname & Hjson).
      destruct Hcase as [(_ & _ & _ & doc & Hdoc & _)
                        |([Hc|[Hc|Hc]] & _)]; congruence. }
    split; [done|]. intros p [= <-]. split; [exact Hnew|].
    split; [rewrite lookup_insert_eq; eauto|].
    intros q Hne. by rewrite lookup_insert_ne.
Qed.

(** X11.  A scene configuration that cannot be read.  When the handle is
    no primitive, names an existing file, and contains "scene_config.json"
    in any letter case, but the document cannot be loaded, the result is
    null whether or not registration was asked for; no object is created,
    no object configuration is loaded, and the log gains one error, which
    names the file, and no closing line. *)
Theorem unreadable_scene_config (env : Environment)
    (this : StageAttributesManager) (handle : string)
    (registerTemplate : bool) (w : World) :
  peer_isValidPrimitiveAttributes env (objectConfigsLoaded w) handle = false →
  isValidFileName env handle = true →
  Str.contains (Str.lowercase handle) "scene_config.json" = true →
  verifyLoadJson env handle = None →
  ∃ w',
    createAttributesTemplate env this handle registerTemplate w
    = Some (None, w') ∧
    registry w' = registry w ∧
    objectConfigsLoaded w' = objectConfigsLoaded w ∧
    logged w'
    = (logged w
       ++ [(ERROR,
            ("StageAttributesManager::createFileBasedAttributesTemplate : "
             ++ "Failure reading json " ++ handle ++ ". Aborting.")%string)])%list.
Proof.
  intros Hprim Hfile Hname Hjson. eexists. split.
  - by apply createAttributesTemplate_json_unreadable.
  - done.
Qed.

Lemma unreadable_scene_config_witness :
  ∃ w',
    createAttributesTemplate
      (sampleEnvironment ["data/Scene_Config.JSON"] []) (sampleManager ∅)
      "data/Scene_Config.JSON" true emptyWorld
    = Some (None, w') ∧
    registry w' = registry emptyWorld ∧
    length (logged w') = 1.
Proof.
  destruct (unreadable_scene_config
              (sampleEnvironment ["data/Scene_Config.JSON"] [])
              (sampleManager ∅) "data/Scene_Config.JSON" true emptyWorld
              eq_refl eq_refl eq_refl eq_refl)
    as (w' & Hrun & Hreg & _ & Hlog).
  exists w'. split; [exact Hrun|]. split; [exact Hreg|]. by rewrite Hlog.
Defined.

Lemma objectConfigsLoaded_afterSceneConfig sceneFilename jsonConfig w :
  objectConfigsLoaded (afterSceneConfig sceneFilename jsonConfig w)
  = (objectConfigsLoaded w
     ++ match json.member jsonConfig "rigid object paths" with
        | Some (JArray paths) =>
            (λ s, (Directory.join
                     (Str.substr0 sceneFilename
                        (Str.find_last_of sceneFilename "/")) s, true))
            <$> omap json.asString paths
        | _ => []
        end)%list.
Proof.
  unfold afterSceneConfig.
  destruct (json.member jsonConfig "rigid object paths") as [[]|];
    rewrite ?app_nil_r; try reflexivity.
  cbn. by rewrite rigidObjectPathLoads_strings.
Qed.

(** X12.  Which object configurations a call of
    [createAttributesTemplate] asks the peer to load.  Only the JSON
    file-based pipeline loads any, and only from a readable document with an
    array under "rigid object paths": one load per string entry, in order,
    each joined to the handle cut before its last "/".  That is the
    directory part of a handle that has one, and the whole handle when it
    has no "/".  The primitive, file and default pipelines, an unreadable
    document, and a missing or non-array entry load nothing. *)
Theorem object_configs_loaded_by_scene_config_only (env : Environment)
    (this : StageAttributesManager) (handle : string)
    (registerTemplate : bool) (w : World) :
  let configDirectory :=
    Str.substr0 handle (Str.find_last_of handle "/") in
  (∃ res w',
     createAttributesTemplate env this handle registerTemplate w
     = Some (res, w') ∧
     objectConfigsLoaded w'
     = (objectConfigsLoaded w
        ++ if negb (peer_isValidPrimitiveAttributes env
                      (objectConfigsLoaded w) handle)
              && isValidFileName env handle
              && Str.contains (Str.lowercase handle) "scene_config.json"
           then
             match verifyLoadJson env handle with
             | Some jsonConfig =>
                 match json.member jsonConfig "rigid object paths" with
                 | Some (JArray paths) =>
                     (λ s, (Directory.join configDirectory s, true))
                     <$> omap json.asString paths
                 | _ => []
                 end
             | None => []
             end
           else [])%list) ∧
  (∀ dir name,
     handle = dir ++ "/" ++ name →
     Str.find_last_of name "/" = None →
     configDirectory = dir) ∧
  (Str.find_last_of handle "/" = None → configDirectory = handle).
Proof.
  intros configDirectory. split; [|split].
  2:{ intros dir name -> Hname. by apply configDirectory_of_path. }
  2:{ intros Hnone. by apply configDirectory_without_slash. }
  destruct (createAttributesTemplate_cases env this handle registerTemplate w)
    as [(Hprim & Hfile & Hname & Hjson & msg & Hrun)
       |(a & w1 & l & msg & Hrun & _ & Hreg & Hcase)].
  - eexists _, _. split; [exact Hrun|].
    rewrite Hprim, Hfile, Hname, Hjson. cbn. by rewrite app_nil_r.
  - destruct (registrationOutcome env registerTemplate
                (fresh (dom (objects (registry w)))) a w1 l)
      as [res w2] eqn:Hout.
    destruct (createdOutcome_frame msg registerTemplate (res, w2))
      as (_ & _ & Hloaded).
    destruct (registrationOutcome_frame _ _ _ _ _ _ _ _ Hout)
      as (_ & _ & _ & Hloaded2).
    { rewrite Hreg. apply fresh_object_None. }
    destruct (createdOutcome msg registerTemplate (res, w2)) as [res' w'].
    cbn [snd] in Hloaded.
    exists res', w'. split; [exact Hrun|]. rewrite Hloaded, Hloaded2.
    destruct Hcase as [(Hprim & Hfile & Hname & doc & Hdoc & _ & ->)
                      |(Hc & -> & _)].
    + rewrite Hprim, Hfile, Hname, Hdoc. cbn [negb andb].
      apply objectConfigsLoaded_afterSceneConfig.
    + destruct Hc as [-> | [-> | ->]]; cbn [negb andb];
        rewrite ?andb_false_r, ?app_nil_r; reflexivity.
Qed.

Lemma object_configs_loaded_by_scene_config_only_witness :
  Str.find_last_of "scene_config.json" "/" = None
  ∧ ∃ res w',
      createAttributesTemplate
        (sampleEnvironment ["scene_config.json"]
           [("scene_config.json", sampleSceneConfig)])
        (sampleManager ∅) "scene_config.json" false emptyWorld
      = Some (res, w')
      ∧ objectConfigsLoaded w'
        = [("scene_config.json/objects", true);
           ("scene_config.json/more", true)].
Proof.
  split; [reflexivity|].
  destruct (proj1 (object_configs_loaded_by_scene_config_only
                     (sampleEnvironment ["scene_config.json"]
                        [("scene_config.json", sampleSceneConfig)])
                     (sampleManager ∅) "scene_config.json" false emptyWorld))
    as (res & w' & Hrun & Hloaded).
  exists res, w'. split; [exact Hrun | exact Hloaded].
Defined.

Lemma getHandle_jsonRecord env this sceneFilename jsonConfig :
  (∀ doc a, getHandle (physicsAttributesFromJson env doc a) = getHandle a) →
  getHandle (jsonRecord env this sceneFilename jsonConfig) = sceneFilename.
Proof.
  intros Hoverlay. unfold jsonRecord.
  destruct (stageFieldsFromJson_fields env jsonConfig
              (physicsAttributesFromJson env jsonConfig
                 (initRecord env this
                    (PhysicsStageAttributes_create sceneFilename))))
    as (-> & _).
  rewrite Hoverlay. apply getHandle_initRecord_create.
Qed.

(** X13.  What [createAttributesTemplate] leaves alone.  No object that
    existed before is changed, and no library entry under another handle
    is changed.  A handle that was registered before keeps its ID.  A null
    result, or a call without registration, leaves the whole library as it
    was.  (For the JSON file-based pipeline, the fields that the absent
    [createPhysicsAttributesFromJson] reads from the document are taken not
    to include the record's handle.) *)
Theorem createAttributesTemplate_leaves_others (env : Environment)
    (this : StageAttributesManager) (handle : string)
    (registerTemplate : bool) (w : World) :
  (∀ doc a, getHandle (physicsAttributesFromJson env doc a) = getHandle a) →
  ∃ res w',
    createAttributesTemplate env this handle registerTemplate w
    = Some (res, w') ∧
    (∀ q b, objects (registry w) !! q = Some b →
            objects (registry w') !! q = Some b) ∧
    (∀ other, other ≠ handle →
       templateLibrary_ (registry w') !! other
       = templateLibrary_ (registry w) !! other) ∧
    (∀ id stored,
       templateLibrary_ (registry w) !! handle = Some (id, stored) →
       ∃ stored',
         templateLibrary_ (registry w') !! handle = Some (id, stored')) ∧
    (res = None ∨ registerTemplate = false →
     templateLibrary_ (registry w') = templateLibrary_ (registry w)).
Proof.
  intros Hoverlay.
  destruct (createAttributesTemplate_cases env this handle registerTemplate w)
    as [(Hprim & Hfile & Hname & Hjson & msg & Hrun)
       |(a & w1 & l & msg & Hrun & _ & Hreg & Hcase)].
  { eexists _, _. split; [exact Hrun|]. split; [done|]. split; [done|].
    split; [|done]. intros id stored Hh. by exists stored. }
  assert (getHandle a = handle) as Hh.
  { destruct Hcase as [(_ & _ & _ & doc & _ & -> & _)|(_ & _ & Hh & _)];
      [by apply getHandle_jsonRecord | exact Hh]. }
  destruct (registrationOutcome env registerTemplate
              (fresh (dom (objects (registry w)))) a w1 l)
    as [res w2] eqn:Hout.
  destruct (createdOutcome_frame msg registerTemplate (res, w2))
    as (Hres & Hregistry & _).
  destruct (registrationOutcome_frame _ _ _ _ _ _ _ _ Hout)
    as (Hobjs & Hlib & Hunreg & _).
  { rewrite Hreg. apply fresh_object_None. }
  destruct (registrationOutcome_facts _ _ _ _ _ _ _ _ Hout)
    as (_ & Hres' & Hnull & Hsome).
  destruct (createdOutcome msg registerTemplate (res, w2)) as [res' w'].
  cbn [fst snd] in Hres, Hregistry. subst res'.
  rewrite Hreg, Hh in *.
  exists res, w'. split; [exact Hrun|]. rewrite Hregistry.
  split; [exact Hobjs|]. split; [exact Hlib|].
  split.
  - intros id stored Hpresent.
    destruct Hres' as [Hres'|Hres'].
    + destruct (Hnull Hres') as (_ & _ & ->). by exists stored.
    + destruct (Hsome Hres') as (a' & _ & Hcase').
      destruct registerTemplate.
      * destruct Hcase' as (_ & stored' & Hl & _). exists stored'.
        rewrite Hl. unfold getTemplateID. by rewrite Hpresent.
      * destruct Hcase' as (_ & ->). by exists stored.
  - intros [-> | ->].
    + by destruct (Hnull eq_refl) as (_ & _ & ->).
    + by destruct (Hunreg eq_refl) as (_ & -> & _).
Qed.

Lemma createAttributesTemplate_leaves_others_witness :
  (∀ doc a,
     getHandle (physicsAttributesFromJson
                  (sampleEnvironment ["box.glb"] []) doc a)
     = getHandle a)
  ∧ ∃ res w',
      createAttributesTemplate (sampleEnvironment ["box.glb"] [])
        (sampleManager ∅) "box.glb" true emptyWorld
      = Some (res, w')
      ∧ ∀ other, other ≠ "box.glb" →
          templateLibrary_ (registry w') !! other = None.
Proof.
  split; [intros doc a; reflexivity|].
  destruct (createAttributesTemplate_leaves_others
              (sampleEnvironment ["box.glb"] []) (sampleManager ∅) "box.glb"
              true emptyWorld (λ doc a, eq_refl))
    as (res & w' & Hrun & _ & Hlib & _).
  exists res, w'. split; [exact Hrun|].
  intros other Hne. by rewrite (Hlib other Hne).
Defined.

(** X14.  The last line that [createAttributesTemplate] writes.  Every
    call writes at least one line.  When a record is returned the last line
    is the note that a stage attributes template was created, ending in
    " and registered." exactly when registration was asked for; when the
    result is null the last line is an error. *)
Theorem createAttributesTemplate_last_log_line (env : Environment)
    (this : StageAttributesManager) (handle : string)
    (registerTemplate : bool) (w : World) :
  ∃ res w' l,
    createAttributesTemplate env this handle registerTemplate w
    = Some (res, w') ∧
    logged w' = (logged w ++ l)%list ∧
    match res with
    | Some _ =>
        ∃ msg,
          last l
          = Some (INFO,
                  (msg ++ " stage attributes created"
                   ++ (if registerTemplate then " and registered."
                       else "."))%string)
    | None => ∃ msg, last l = Some (ERROR, msg)
    end.
Proof.
  destruct (createAttributesTemplate_cases env this handle registerTemplate w)
    as [(Hprim & Hfile & Hname & Hjson & msg & Hrun)
       |(a & w1 & l & msg & Hrun & Hl & Hreg & Hcase)].
  { eexists _, _, _. split; [exact Hrun|]. split; [reflexivity|].
    by exists msg. }
  assert (∃ l0, logged w1 = (logged w ++ l0)%list) as [l0 Hl0].
  { destruct Hcase as [(_ & _ & _ & doc & _ & _ & ->)|(_ & -> & _)].
    - unfold afterSceneConfig.
      destruct (json.member doc "rigid object paths") as [[]|];
        try (exists []; by rewrite app_nil_r).
      by eexists.
    - exists []. by rewrite app_nil_r. }
  unfold registrationLines, finalizationLines in Hl.
  unfold registrationOutcome in Hrun.
  destruct registerTemplate.
  - destruct (finalRecord env (objectConfigsLoaded w1) (getHandle a) a)
      as [a'|].
    + eexists _, _, ((l0 ++ l) ++ [_])%list. split; [exact Hrun|]. cbn.
      rewrite Hl0. split; [by rewrite <- !app_assoc|].
      exists msg. by rewrite last_snoc.
    + destruct Hl as [err ->].
      eexists _, _, (l0 ++ [_])%list. split; [exact Hrun|]. cbn.
      rewrite Hl0. split; [by rewrite <- !app_assoc|].
      exists err. by rewrite last_snoc.
  - subst l. eexists _, _, (l0 ++ [_])%list. split; [exact Hrun|]. cbn.
    rewrite Hl0. split; [by rewrite <- !app_assoc|].
    exists msg. by rewrite last_snoc.
Qed.

(** ** More of the JSON file-based pipeline *)

(** The fields that registration leaves as the pipeline set them. *)
Lemma registrationOutcome_kept env registerTemplate p a w l res w' q :
  registrationOutcome env registerTemplate p a w l = (res, w') →
  res = Some q →
  ∃ a',
    objects (registry w') !! q = Some a' ∧
    getGravity a' = getGravity a ∧
    getOrigin a' = getOrigin a ∧
    getNavmeshAssetHandle a' = getNavmeshAssetHandle a ∧
    getHouseFilename a' = getHouseFilename a ∧
    getLightSetup a' = getLightSetup a ∧
    getSemanticAssetHandle a' = getSemanticAssetHandle a ∧
    getSemanticAssetType a' = getSemanticAssetType a.
Proof.
  intros Hout ->.
  destruct (registrationOutcome_facts _ _ _ _ _ _ _ _ Hout)
    as (_ & [|[= <-]] & _ & Hsome); [done|].
  destruct (Hsome eq_refl) as (a' & Hobj & Hcase).
  exists a'. split; [exact Hobj|].
  destruct registerTemplate.
  - destruct Hcase as [Hfinal _].
    destruct (finalRecord_frame _ _ _ _ _ Hfinal)
      as (_ & _ & -> & _ & -> & -> & -> & -> & _).
    by destruct (finalRecord_slots _ _ _ _ _ Hfinal)
      as (_ & _ & _ & _ & -> & -> & _).
  - by destruct Hcase as [-> _].
Qed.

(** X15.  The stage fields of a scene configuration.  Each of "gravity"
    and "origin" (three numbers), "nav mesh", "house filename" and "lighting
    setup" (strings) replaces the value that the shared initializer and the
    base fields left in the record, and an entry that is missing or of
    another type leaves that value as it was.  The navmesh and house names
    are joined to the record's file directory, and are stored whether or not
    such a file exists.  Registration changes none of these fields. *)
Theorem scene_config_overrides (env : Environment)
    (this : StageAttributesManager) (sceneFilename : string)
    (registerTemplate : bool) (w : World) (jsonConfig : Json) :
  verifyLoadJson env sceneFilename = Some jsonConfig →
  let a0 :=
    physicsAttributesFromJson env jsonConfig
      (initRecord env this (PhysicsStageAttributes_create sceneFilename)) in
  ∃ res w',
    createFileBasedAttributesTemplate env this sceneFilename registerTemplate
      w = Some (res, w') ∧
    (registerTemplate = false → res ≠ None) ∧
    ∀ p, res = Some p →
      ∃ a',
        objects (registry w') !! p = Some a' ∧
        getGravity a'
        = match json.jsonIntoVal_Vector3 jsonConfig "gravity" with
          | Some v => Some v
          | None => getGravity a0
          end ∧
        getOrigin a'
        = match json.jsonIntoVal_Vector3 jsonConfig "origin" with
          | Some v => Some v
          | None => getOrigin a0
          end ∧
        getNavmeshAssetHandle a'
        = match json.jsonIntoVal_string jsonConfig "nav mesh" with
          | Some navmeshFName =>
              Some (Directory.join (getFileDirectory a0) navmeshFName)
          | None => getNavmeshAssetHandle a0
          end ∧
        getHouseFilename a'
        = match json.jsonIntoVal_string jsonConfig "house filename" with
          | Some houseFName =>
              Directory.join (getFileDirectory a0) houseFName
          | None => getHouseFilename a0
          end ∧
        getLightSetup a'
        = match json.jsonIntoVal_string jsonConfig "lighting setup" with
          | Some lightSetup => lightSetup
          | None => getLightSetup a0
          end.
Proof.
  intros Hjson a0.
  rewrite (createFileBasedAttributesTemplate_record _ _ _ _ _ _ Hjson).
  destruct (postCreateRegister_store env registerTemplate
              (fresh (dom (objects (registry w))))
              (jsonRecord env this sceneFilename jsonConfig)
              (afterSceneConfig sceneFilename jsonConfig w)) as [l Hrun].
  destruct (registrationOutcome env registerTemplate _ _ _ l)
    as [res w'] eqn:Hout.
  exists res, w'. split; [exact Hrun|]. split.
  { intros ->. unfold registrationOutcome in Hout.
    injection Hout as <- _. discriminate. }
  intros p Hp.
  destruct (registrationOutcome_kept _ _ _ _ _ _ _ _ _ Hout Hp)
    as (a' & Hobj & Hg & Ho & Hnav & Hhouse & Hlight & _).
  exists a'. split; [exact Hobj|].
  rewrite Hg, Ho, Hnav, Hhouse, Hlight.
  unfold jsonRecord. fold a0.
  destruct (stageFieldsFromJson_fields env jsonConfig a0)
    as (_ & _ & _ & _ & _ & -> & -> & -> & -> & ->).
  done.
Qed.

Lemma scene_config_overrides_witness :
  ∃ res w',
    createFileBasedAttributesTemplate
      (sampleEnvironment ["data/scene_config.json"]
         [("data/scene_config.json", sampleOverrides)])
      (sampleManager ∅) "data/scene_config.json" false emptyWorld
    = Some (res, w')
    ∧ res ≠ None
    ∧ ∀ p, res = Some p →
        ∃ a', objects (registry w') !! p = Some a'
              ∧ getGravity a' = Some (0#1, 0#1, -5#1)%Q
              ∧ getOrigin a' = None
              ∧ getNavmeshAssetHandle a' = Some "data/castle.navmesh".
Proof.
  destruct (scene_config_overrides
              (sampleEnvironment ["data/scene_config.json"]
                 [("data/scene_config.json", sampleOverrides)])
              (sampleManager ∅) "data/scene_config.json" false emptyWorld
              sampleOverrides eq_refl)
    as (res & w' & Hrun & Hsome & Hrec).
  exists res, w'. split; [exact Hrun|]. split; [exact (Hsome eq_refl)|].
  intros p Hp. destruct (Hrec p Hp) as (a' & Hobj & Hg & Ho & Hnav & _).
  exists a'. split; [exact Hobj|]. split; [exact Hg|].
  split; [exact Ho | exact Hnav].
Defined.

(** X16.  The semantic mesh of a scene configuration.  When
    [setJSONAssetHandleAndType] reports a semantic mesh, the record's
    semantic handle is the name it gave and the semantic type is the
    instance mesh type, whatever type it handed to the setter.  When it
    reports none, the semantic handle stays the default, and the semantic
    type is the one handed to the setter, if any. *)
Theorem scene_config_semantic_mesh (env : Environment)
    (this : StageAttributesManager) (sceneFilename : string)
    (registerTemplate : bool) (w : World) (jsonConfig : Json) :
  verifyLoadJson env sceneFilename = Some jsonConfig →
  let a0 :=
    physicsAttributesFromJson env jsonConfig
      (initRecord env this (PhysicsStageAttributes_create sceneFilename)) in
  let current :=
    match json.jsonIntoVal_Vector3 jsonConfig "origin" with
    | Some v => setOrigin v
    | None => id
    end
      (match json.jsonIntoVal_Vector3 jsonConfig "gravity" with
       | Some v => setGravity v a0
       | None => a0
       end) in
  let decided :=
    jsonAssetHandleAndType env current jsonConfig "semantic mesh type"
                           "semantic mesh" (getSemanticAssetHandle a0) in
  ∃ res w',
    createFileBasedAttributesTemplate env this sceneFilename registerTemplate
      w = Some (res, w') ∧
    ∀ p, res = Some p →
      ∃ a',
        objects (registry w') !! p = Some a' ∧
        (decided.1.1 = true →
         getSemanticAssetHandle a' = decided.1.2 ∧
         getSemanticAssetType a' = INSTANCE_MESH) ∧
        (decided.1.1 = false →
         getSemanticAssetHandle a' = getSemanticAssetHandle a0 ∧
         getSemanticAssetType a'
         = match decided.2 with
           | Some t => t
           | None => getSemanticAssetType a0
           end).
Proof.
  intros Hjson a0 current decided.
  rewrite (createFileBasedAttributesTemplate_record _ _ _ _ _ _ Hjson).
  destruct (postCreateRegister_store env registerTemplate
              (fresh (dom (objects (registry w))))
              (jsonRecord env this sceneFilename jsonConfig)
              (afterSceneConfig sceneFilename jsonConfig w)) as [l Hrun].
  destruct (registrationOutcome env registerTemplate _ _ _ l)
    as [res w'] eqn:Hout.
  exists res, w'. split; [exact Hrun|].
  intros p Hp.
  destruct (registrationOutcome_kept _ _ _ _ _ _ _ _ _ Hout Hp)
    as (a' & Hobj & _ & _ & _ & _ & _ & Hsh & Hst).
  exists a'. split; [exact Hobj|].
  rewrite Hsh, Hst.
  unfold jsonRecord. fold a0.
  destruct (stageFieldsFromJson_semantic env jsonConfig a0) as (-> & ->).
  fold current decided.
  split; intros ->; done.
Qed.


Lemma scene_config_semantic_mesh_witness :
  ∃ res w',
    createFileBasedAttributesTemplate
      (sampleSemanticEnvironment ["data/scene_config.json"]
         [("data/scene_config.json", sampleSemanticConfig)])
      (sampleManager ∅) "data/scene_config.json" false emptyWorld
    = Some (res, w')
    ∧ ∀ p, res = Some p →
        ∃ a', objects (registry w') !! p = Some a'
              ∧ getSemanticAssetHandle a' = "data/castle_rooms.ply"
              ∧ getSemanticAssetType a' = INSTANCE_MESH.
Proof.
  destruct (scene_config_semantic_mesh
              (sampleSemanticEnvironment ["data/scene_config.json"]
                 [("data/scene_config.json", sampleSemanticConfig)])
              (sampleManager ∅) "data/scene_config.json" false emptyWorld
              sampleSemanticConfig eq_refl)
    as (res & w' & Hrun & Hrec).
  exists res, w'. split; [exact Hrun|].
  intros p Hp. destruct (Hrec p Hp) as (a' & Hobj & Hspec & _).
  exists a'. split; [exact Hobj|]. exact (Hspec eq_refl).
Defined.

(** ** Finalization in closed form *)

Lemma finalRecord_closed_form env loaded handle a a' :
  finalRecord env loaded handle a = Some a' →
  let resolved (assetHandle : string) : bool :=
    peer_isValidPrimitiveAttributes env loaded assetHandle
    || isValidFileName env assetHandle in
  let marker := Str.contains handle "NONE" in
  let renderType :=
    if resolved (getRenderAssetHandle a) then getRenderAssetType a
    else UNKNOWN in
  let collisionHandle :=
    if resolved (getCollisionAssetHandle a) || marker
    then getCollisionAssetHandle a
    else getRenderAssetHandle a in
  let collisionType :=
    if resolved (getCollisionAssetHandle a) || negb marker
    then getCollisionAssetType a
    else UNKNOWN in
  a' = setIsClean
         (setCollisionAssetIsPrimitive
            (peer_isValidPrimitiveAttributes env loaded collisionHandle)
            (setCollisionAssetType collisionType
               (setCollisionAssetHandle collisionHandle
                  (setRenderAssetIsPrimitive
                     (peer_isValidPrimitiveAttributes env loaded
                        (getRenderAssetHandle a))
                     (setRenderAssetType renderType a))))).
Proof.
  unfold finalRecord.
  destruct a as [h fd rh ch sh nh hf ls rt ct st rp cp um rl fc d m g o fr re
                 up fw].
  cbn.
  destruct (String.eqb _ ""); [done|].
  destruct (peer_isValidPrimitiveAttributes env loaded rh)
    eqn:Hrp;
    [|destruct (isValidFileName env rh) eqn:Hrf;
      [|destruct (Str.contains handle "NONE") eqn:Hnone; [|done]]];
    (destruct (peer_isValidPrimitiveAttributes env loaded ch) eqn:Hcp;
     [|destruct (isValidFileName env ch) eqn:Hcf;
       [|try (destruct (Str.contains handle "NONE") eqn:Hnone)]]);
    intros [= <-]; cbn; rewrite ?Hrp, ?Hcp; reflexivity.
Qed.

(** X17.  Finalization in closed form.  An accepted record differs from
    the record as given in six fields at most.  The render type becomes
    unknown when the render handle resolves as neither primitive nor file.
    The collision handle becomes the render handle when it does not resolve
    and the stage handle lacks "NONE".  The collision type becomes unknown
    when the collision handle does not resolve and the stage handle has
    "NONE"; in the fallback on the render asset it stays as it was.  The two
    primitive flags take the peer's verdict on the final handles, and the
    dirty flag is cleared.  No other object changes. *)
Theorem finalize_closed_form (env : Environment) (p : ptr)
    (handle : string) (w w' : World) (a : PhysicsStageAttributes) (id : Z) :
  objects (registry w) !! p = Some a →
  registerAttributesTemplateFinalize env p handle w = Some (id, w') →
  id ≠ ID_UNDEFINED →
  let resolved (assetHandle : string) : bool :=
    peer_isValidPrimitiveAttributes env (objectConfigsLoaded w) assetHandle
    || isValidFileName env assetHandle in
  let marker := Str.contains handle "NONE" in
  let renderType :=
    if resolved (getRenderAssetHandle a) then getRenderAssetType a
    else UNKNOWN in
  let collisionHandle :=
    if resolved (getCollisionAssetHandle a) || marker
    then getCollisionAssetHandle a
    else getRenderAssetHandle a in
  let collisionType :=
    if resolved (getCollisionAssetHandle a) || negb marker
    then getCollisionAssetType a
    else UNKNOWN in
  objects (registry w') !! p
  = Some
      (setIsClean
         (setCollisionAssetIsPrimitive
            (peer_isValidPrimitiveAttributes env (objectConfigsLoaded w)
               collisionHandle)
            (setCollisionAssetType collisionType
               (setCollisionAssetHandle collisionHandle
                  (setRenderAssetIsPrimitive
                     (peer_isValidPrimitiveAttributes env
                        (objectConfigsLoaded w) (getRenderAssetHandle a))
                     (setRenderAssetType renderType a)))))) ∧
  (∀ q b, q ≠ p → objects (registry w) !! q = Some b →
          objects (registry w') !! q = Some b).
Proof.
  intros Hp Hrun Hid.
  destruct (registerAttributesTemplateFinalize_run env p handle a w Hp)
    as [l Hrun'].
  rewrite Hrun in Hrun'.
  destruct (finalRecord env (objectConfigsLoaded w) handle a) as [a'|]
    eqn:Hfinal; injection Hrun' as -> ->; [|done].
  destruct (inserted_facts handle (getTemplateID handle (registry w)) a'
              p a w (logged w ++ l) Hp)
    as (_ & Hnew & _ & Hobj & _).
  cbv zeta. split.
  - rewrite Hobj. f_equal.
    exact (finalRecord_closed_form _ _ _ _ _ Hfinal).
  - intros q b Hne Hq. rewrite inserted_lookup_other.
    + cbn. by rewrite lookup_insert_ne.
    + intros <-. congruence.
Qed.

Lemma finalize_closed_form_witness :
  ∃ id w' a',
    registerAttributesTemplateFinalize (sampleEnvironment [] []) 0 "stage"
      (store 0 (sampleRecord "cubeSolid" "missing") emptyWorld)
    = Some (id, w') ∧
    objects (registry w') !! 0 = Some a' ∧
    getCollisionAssetHandle a' = "cubeSolid" ∧
    getCollisionAssetType a'
    = getCollisionAssetType (sampleRecord "cubeSolid" "missing").
Proof.
  destruct (registerAttributesTemplateFinalize (sampleEnvironment [] []) 0
              "stage"
              (store 0 (sampleRecord "cubeSolid" "missing") emptyWorld))
    as [[id w']|] eqn:Hrun; [|vm_compute in Hrun; discriminate Hrun].
  assert (id ≠ ID_UNDEFINED) as Hid.
  { intros ->. vm_compute in Hrun. discriminate Hrun. }
  destruct (finalize_closed_form (sampleEnvironment [] []) 0 "stage"
              (store 0 (sampleRecord "cubeSolid" "missing") emptyWorld) w'
              (sampleRecord "cubeSolid" "missing") id eq_refl Hrun Hid)
    as [Hobj _].
  eexists id, w', _. split; [reflexivity|]. split; [exact Hobj|].
  split; reflexivity.
Defined.

(** ** The constructor *)


(** X18.  A manager as the constructor leaves it has the no-light key as
    its light setup.  Every record it creates through the primitive, file
    or default pipeline therefore carries the no-light key, requires no
    lighting, and has the frustum-culling flag of the configuration. *)
Theorem new_manager_creates_unlit_stages (env : Environment)
    (members : StageAttributesManager) (handle : string)
    (registerTemplate : bool) (w : World) :
  peer_isValidPrimitiveAttributes env (objectConfigsLoaded w) handle = true
  ∨ isValidFileName env handle = false
  ∨ Str.contains (Str.lowercase handle) "scene_config.json" = false →
  ∃ res w',
    createAttributesTemplate env (StageAttributesManager_new env members)
      handle registerTemplate w = Some (res, w') ∧
    ∀ p, res = Some p →
      ∃ a',
        objects (registry w') !! p = Some a' ∧
        getLightSetup a' = NO_LIGHT_KEY env ∧
        getRequiresLighting a' = false ∧
        getFrustrumCulling a' = cfgFrustrumCulling_ members.
Proof.
  intros Hcase.
  set (this := StageAttributesManager_new env members).
  destruct (initRecord_fields env this (PhysicsStageAttributes_create handle))
    as (_ & _ & _ & _ & _ & _ & _ & _ & Hls & Hrl & Hfc & _).
  cbn [cfgLightSetup_ cfgFrustrumCulling_ this StageAttributesManager_new]
    in Hls, Hrl, Hfc.
  rewrite String.eqb_refl in Hrl. cbn [negb] in Hrl.
  assert (∃ a l msg,
            createAttributesTemplate env this handle registerTemplate w
            = Some (createdOutcome msg registerTemplate
                      (registrationOutcome env registerTemplate
                         (fresh (dom (objects (registry w)))) a w l)) ∧
            getLightSetup a = NO_LIGHT_KEY env ∧
            getRequiresLighting a = false ∧
            getFrustrumCulling a = cfgFrustrumCulling_ members)
    as (a & l & msg & Hrun & Als & Arl & Afc).
  { destruct (peer_isValidPrimitiveAttributes env (objectConfigsLoaded w)
                handle) eqn:Hprim;
      [|destruct (isValidFileName env handle) eqn:Hfile;
        [destruct (Str.contains (Str.lowercase handle) "scene_config.json")
           eqn:Hname|]].
    - destruct (createAttributesTemplate_primitive env this handle
                  registerTemplate w Hprim) as (l & Hrun & _).
      eexists _, l, _. split; [exact Hrun|]. unfold primitiveRecord.
      destruct (initRecord env this (PhysicsStageAttributes_create handle)).
      done.
    - by destruct Hcase as [|[|]].
    - destruct (createAttributesTemplate_file env this handle
                  registerTemplate w Hprim Hfile Hname) as (l & Hrun & _).
      by eexists _, l, _.
    - destruct (createAttributesTemplate_default env this handle
                  registerTemplate w Hprim Hfile) as (l & Hrun & _).
      by eexists _, l, _. }
  destruct (registrationOutcome env registerTemplate
              (fresh (dom (objects (registry w)))) a w l)
    as [res w2] eqn:Hout.
  destruct (createdOutcome_frame msg registerTemplate (res, w2))
    as (Hres & Hregistry & _).
  destruct (createdOutcome msg registerTemplate (res, w2)) as [res' w'].
  cbn [fst snd] in Hres, Hregistry. subst res'.
  exists res, w'. split; [exact Hrun|]. intros p Hp.
  destruct (registrationOutcome_lighting _ _ _ _ _ _ _ _ Hout p Hp)
    as (a' & Hobj & Frl & Fls).
  assert (getFrustrumCulling a' = getFrustrumCulling a) as Ffc.
  { destruct (registrationOutcome_facts _ _ _ _ _ _ _ _ Hout)
      as (_ & _ & _ & Hsome).
    subst res.
    assert (p = fresh (dom (objects (registry w)))) as ->.
    { unfold registrationOutcome in Hout.
      destruct registerTemplate;
        [destruct (finalRecord env (objectConfigsLoaded w) (getHandle a) a)|];
        congruence. }
    destruct (Hsome eq_refl) as (a'' & Hobj' & Hcase').
    rewrite Hobj in Hobj'. injection Hobj' as <-.
    destruct registerTemplate.
    - destruct Hcase' as [Hfinal _].
      rewrite (finalRecord_closed_form _ _ _ _ _ Hfinal). by destruct a.
    - by destruct Hcase' as [-> _]. }
  exists a'. rewrite Hregistry. split; [exact Hobj|].
  rewrite Fls, Frl, Ffc. done.
Qed.

Lemma new_manager_creates_unlit_stages_witness :
  ∃ res w',
    createAttributesTemplate (sampleEnvironment [] [])
      (StageAttributesManager_new (sampleEnvironment [] [])
         (sampleManager ∅)) "cubeSolid" true emptyWorld
    = Some (res, w') ∧
    ∀ p, res = Some p →
      ∃ a', objects (registry w') !! p = Some a' ∧
            getLightSetup a' = "no_lights" ∧
            getRequiresLighting a' = false.
Proof.
  destruct (new_manager_creates_unlit_stages (sampleEnvironment [] [])
              (sampleManager ∅) "cubeSolid" true emptyWorld
              (or_introl eq_refl))
    as (res & w' & Hrun & Hrec).
  exists res, w'. split; [exact Hrun|]. intros p Hp.
  destruct (Hrec p Hp) as (a' & Hobj & Hls & Hrl & _).
  exists a'. split; [exact Hobj|]. split; [exact Hls | exact Hrl].
Defined.

(** ** The lighting of the records created *)









(** ** The rigid object paths of a scene configuration *)

(** C10.  In the JSON file-based pipeline, an entry of "rigid object
    paths" that is not a string is skipped, with an error in the log that
    names its index; every string entry is joined to [configDirectory] and
    handed to the peer object manager's loader, in order.  Whatever the
    entries are, the stage record reaches registration: the result is null
    only when registration is asked for and finalization rejects the
    record, and the record behind the pointer returned is the record of the
    pipeline, finalized when it was registered.  [configDirectory] is the
    file name cut before its last "/": the directory of the configuration
    file when the name has a "/".  For a name without one, [find_last_of]
    gives [npos] and [substr(0, npos)] the whole name, so that the entries
    are resolved under the file name itself, and not relative to the
    directory of the configuration file. *)
Theorem rigid_object_paths_skip_non_strings (env : Environment)
    (this : StageAttributesManager) (sceneFilename : string)
    (registerTemplate : bool) (w : World) (jsonConfig : Json)
    (paths : list Json) :
  verifyLoadJson env sceneFilename = Some jsonConfig →
  json.member jsonConfig "rigid object paths" = Some (JArray paths) →
  let configDirectory :=
    Str.substr0 sceneFilename (Str.find_last_of sceneFilename "/") in
  let p := fresh (dom (objects (registry w))) in
  let a := jsonRecord env this sceneFilename jsonConfig in
  (∃ res w',
     createFileBasedAttributesTemplate env this sceneFilename
       registerTemplate w = Some (res, w') ∧
     objects (registry w) !! p = None ∧
     (res = None
      ↔ registerTemplate = true
        ∧ finalRecord env (objectConfigsLoaded w') (getHandle a) a = None) ∧
     (res ≠ None →
      res = Some p ∧
      ∃ a',
        objects (registry w') !! p = Some a' ∧
        if registerTemplate
        then finalRecord env (objectConfigsLoaded w') (getHandle a) a
             = Some a'
        else a' = a) ∧
     objectConfigsLoaded w'
     = (objectConfigsLoaded w
        ++ ((λ s, (Directory.join configDirectory s, true))
            <$> omap json.asString paths))%list ∧
     ∀ i path,
       paths !! i = Some path →
       json.IsString path = false →
       (ERROR,
        "StageAttributesManager::createAttributesTemplate "
        ++ ":Invalid value in stage config 'rigid object paths'- array "
        ++ pretty i) ∈ logged w') ∧
  (∀ dir name,
     sceneFilename = dir ++ "/" ++ name →
     Str.find_last_of name "/" = None →
     configDirectory = dir) ∧
  (Str.find_last_of sceneFilename "/" = None →
   configDirectory = sceneFilename).
Proof.
  intros Hjson Hpaths configDirectory p a. split; [|split].
  - rewrite (createFileBasedAttributesTemplate_record _ _ _ _ _ _ Hjson).
    fold p a.
    set (w1 := afterSceneConfig sceneFilename jsonConfig w).
    assert (objectConfigsLoaded w1
            = (objectConfigsLoaded w
               ++ ((λ s, (Directory.join configDirectory s, true))
                   <$> omap json.asString paths))%list) as Hloads.
    { unfold w1. rewrite objectConfigsLoaded_afterSceneConfig.
      by rewrite Hpaths. }
    assert (logged w1 = (logged w ++ rigidObjectPathErrors 0 paths)%list)
      as Hlog1.
    { unfold w1, afterSceneConfig. by rewrite Hpaths. }
    assert (registry w1 = registry w) as Hreg
      by apply registry_afterSceneConfig.
    destruct (postCreateRegister_store env registerTemplate p a w1)
      as [l Hrun].
    destruct (registrationOutcome env registerTemplate p a w1 l)
      as [res w'] eqn:Hout.
    destruct (registrationOutcome_facts _ _ _ _ _ _ _ _ Hout)
      as (Hloaded & Hres & Hnull & Hsome).
    assert (∃ l', logged w' = (logged w1 ++ l')%list) as [l' Hlog].
    { unfold registrationOutcome in Hout. destruct registerTemplate.
      - destruct (finalRecord env (objectConfigsLoaded w1) (getHandle a) a);
          injection Hout as _ <-; by exists l.
      - injection Hout as _ <-. exists []. by rewrite app_nil_r. }
    exists res, w'. split; [exact Hrun|].
    split; [apply fresh_object_None|]. rewrite Hloaded.
    split.
    { split.
      - intros Hn. by destruct (Hnull Hn) as (? & ? & _).
      - intros [-> Hfinal]. destruct Hres as [|Hp]; [done|].
        destruct (Hsome Hp) as (a' & _ & Hcontra & _). congruence. }
    split.
    { intros Hne. destruct Hres as [|Hp]; [done|]. split; [exact Hp|].
      destruct (Hsome Hp) as (a' & Hobj & Hcase). exists a'.
      split; [exact Hobj|]. destruct registerTemplate; by destruct Hcase. }
    split; [exact Hloads|].
    intros i path Hi Hstr. rewrite Hlog, Hlog1.
    apply elem_of_app. left. apply elem_of_app. right.
    exact (rigidObjectPathErrors_elem 0 paths i path Hi Hstr).
  - intros dir name -> Hname. by apply configDirectory_of_path.
  - intros Hnone. by apply configDirectory_without_slash.
Qed.

Lemma rigid_object_paths_skip_non_strings_witness :
  Str.find_last_of "scene_config.json" "/" = None
  ∧ ∃ res w',
      createFileBasedAttributesTemplate
        (sampleEnvironment ["scene_config.json"]
           [("scene_config.json", sampleSceneConfig)])
        (sampleManager ∅) "scene_config.json" false emptyWorld
      = Some (res, w')
      ∧ res ≠ None
      ∧ objectConfigsLoaded w'
        = [("scene_config.json/objects", true);
           ("scene_config.json/more", true)]
      ∧ (ERROR,
         "StageAttributesManager::createAttributesTemplate "
         ++ ":Invalid value in stage config 'rigid object paths'- array "
         ++ "1") ∈ logged w'.
Proof.
  split; [reflexivity|].
  destruct (proj1 (rigid_object_paths_skip_non_strings
                     (sampleEnvironment ["scene_config.json"]
                        [("scene_config.json", sampleSceneConfig)])
                     (sampleManager ∅) "scene_config.json" false
                     emptyWorld sampleSceneConfig
                     [JString "objects"; JBool true; JString "more"]
                     eq_refl eq_refl))
    as (res & w' & Hrun & _ & Hnull & _ & Hloaded & Herr).
  exists res, w'. split; [exact Hrun|]. split.
  { intros Hn. by destruct (proj1 Hnull Hn). }
  split; [exact Hloaded|].
  exact (Herr 1 (JBool true) eq_refl eq_refl).
Defined.
